(** * Finance Tracker backend (app.py): a shallow embedding and its properties

    The Flask handlers of [app.py] are embedded as functions over an explicit
    model of the document store.  Conventions of the embedding:

    - Python [float]s are the binary64 floats of the kernel ([PrimFloat]):
      every operation rounds as the double operation of Python does, and the
      zeros, the infinities and NaN are those of IEEE 754.  [float()] of a
      literal or of an [int], and [round(x, 2)], are computed on exact
      rationals and end in the nearest double.
    - Python [str]s are [string]s of ASCII characters; characters outside
      ASCII (other digits, other white space) are outside the model.
    - The store is passed explicitly: a handler takes the database and
      returns the database it leaves behind together with its response.
    - [datetime.now()] and the identifier generated by the store for a new
      document are inputs of the handler ([world]).
    - The text of an exception that a 500 response embeds is left out. *)

Set Warnings "-register-all,-inexact-float".
From Stdlib Require Import ZArith QArith Qround Qabs Lqa List String Ascii Bool Lia.
From Stdlib Require Import Sorted Permutation Floats.
Import ListNotations.

Local Open Scope string_scope.
Local Open Scope list_scope.
Local Open Scope Z_scope.

(* ================================================================== *)
(** * Part I. The embedding *)
(* ================================================================== *)

(** ** Python floats

    A Python [float] is an IEEE 754 binary64 value, and so is a [float] of
    the kernel: the four operations round to the nearest double, ties going to
    the even mantissa, overflow to an infinity; there are two zeros, two
    infinities and NaN, and every comparison with NaN is false. *)

Definition pyfloat : Type := float.

Definition pf_zero : pyfloat := 0%float.
Definition pf_hundred : pyfloat := 100%float.

(** [- a] *)
Definition pf_neg (a : pyfloat) : pyfloat := PrimFloat.opp a.

(** [a + b] *)
Definition pf_add (a b : pyfloat) : pyfloat := PrimFloat.add a b.

(** [a - b] *)
Definition pf_sub (a b : pyfloat) : pyfloat := PrimFloat.sub a b.

(** [a * b] *)
Definition pf_mul (a b : pyfloat) : pyfloat := PrimFloat.mul a b.

(** [a / b].  Python raises ZeroDivisionError on a zero divisor; the two
    divisions of [app.py] are guarded by a [> 0] test on the divisor, so that
    case is never evaluated. *)
Definition pf_div (a b : pyfloat) : pyfloat := PrimFloat.div a b.

(** [a <= b], [a < b], [a > b], [a >= b] and [a == b]. *)
Definition pf_le (a b : pyfloat) : bool := PrimFloat.leb a b.
Definition pf_lt (a b : pyfloat) : bool := PrimFloat.ltb a b.
Definition pf_gt (a b : pyfloat) : bool := pf_lt b a.
Definition pf_ge (a b : pyfloat) : bool := pf_le b a.
Definition pf_eq (a b : pyfloat) : bool := PrimFloat.eqb a b.

(** [math.isnan(a)] *)
Definition pf_is_nan (a : pyfloat) : bool := PrimFloat.is_nan a.

(** [math.isfinite(a)] *)
Definition pf_is_finite (a : pyfloat) : bool :=
  match Prim2SF a with
  | S754_zero _ | S754_finite _ _ _ => true
  | S754_infinity _ | S754_nan => false
  end.

(** The same double, bit for bit ([0.0] and [-0.0] differ, NaN is NaN). *)
Definition pf_same (a b : pyfloat) : bool := PrimFloat.Leibniz.eqb a b.

(** [2 ^ e] for an integer [e] of either sign. *)
Definition pow2Q (e : Z) : Q :=
  if 0 <=? e then inject_Z (2 ^ e) else Qmake 1 (Z.to_pos (2 ^ (- e))).

(** The rational a finite double is, mantissa times power of two. *)
Definition exact_value (x : pyfloat) : option Q :=
  match Prim2SF x with
  | S754_zero _ => Some 0%Q
  | S754_finite s m e =>
      Some (inject_Z (if s then Zneg m else Zpos m) * pow2Q e)%Q
  | S754_infinity _ | S754_nan => None
  end.

(** The quotient and the remainder of [p / d] by [2 ^ e], as integers: the
    quotient, the remainder and the divisor they refer to. *)
Definition scaled_floor (p d e : Z) : Z * Z * Z :=
  if 0 <=? e then (p / (d * 2 ^ e), p mod (d * 2 ^ e), d * 2 ^ e)
  else ((p * 2 ^ (- e)) / d, (p * 2 ^ (- e)) mod d, d).

(** The double nearest to the positive rational [p / d], ties going to the
    even mantissa: the exponent is chosen so that the mantissa has 53 bits,
    or is -1074 for a subnormal; a value too large becomes infinity. *)
Definition nearest_double_pos (p d : Z) : pyfloat :=
  let e0 := Z.log2 p - Z.log2 d - 52 in
  let '(m0, _, _) := scaled_floor p d e0 in
  let e := Z.max (if m0 <? 2 ^ 52 then e0 - 1 else e0) (-1074) in
  let '(m, r, den) := scaled_floor p d e in
  let m' :=
    match 2 * r ?= den with
    | Lt => m
    | Gt => m + 1
    | Eq => if Z.even m then m else m + 1
    end in
  Z.ldexp (PrimFloat.of_uint63 (Uint63.of_Z m')) e.

(** The double nearest to a rational: what [float()] gives for a decimal
    literal and for an [int], and what [round] gives for its decimal result. *)
Definition nearest_double (q : Q) : pyfloat :=
  match Qnum q with
  | Z0 => pf_zero
  | Zpos p => nearest_double_pos (Zpos p) (Zpos (Qden q))
  | Zneg p => pf_neg (nearest_double_pos (Zpos p) (Zpos (Qden q)))
  end.

(** The integer nearest to [q], ties going to the even one. *)
Definition round_half_even (q : Q) : Z :=
  let f := Qfloor q in
  match Qcompare (q - inject_Z f) (1 # 2) with
  | Lt => f
  | Gt => f + 1
  | Eq => if Z.even f then f else f + 1
  end.

(** The number with two decimals nearest to [q], ties going to the even
    last digit. *)
Definition round2Q (q : Q) : Q := Qmake (round_half_even (q * 100)) 100.

(** [round(x, 2)]: infinities and NaN are returned as they are; a finite
    value is rounded, as the number it exactly is, to two decimals, and the
    result is the double nearest to that decimal number, with the sign of
    [x] (so [round(-0.001, 2)] is [-0.0]). *)
Definition py_round2 (x : pyfloat) : pyfloat :=
  match exact_value x with
  | None => x
  | Some q =>
      match Qnum q with
      | Z0 => x
      | Zpos _ => nearest_double (round2Q q)
      | Zneg _ => pf_neg (nearest_double (round2Q (- q)))
      end
  end.

(** [sum(xs)] of Python 3.11: the additions from left to right, from 0. *)
Definition py_sum (xs : list pyfloat) : pyfloat :=
  fold_left pf_add xs pf_zero.

(** ** Python strings *)

Definition ascii_code (c : ascii) : Z := Z.of_N (N_of_ascii c).

Definition is_digit (c : ascii) : bool :=
  (48 <=? ascii_code c) && (ascii_code c <=? 57).

Definition digit_value (c : ascii) : Z := ascii_code c - 48.

(** White space of [str.strip()] within ASCII. *)
Definition is_space (c : ascii) : bool :=
  let n := ascii_code c in
  ((9 <=? n) && (n <=? 13)) || ((28 <=? n) && (n <=? 32)).

(** White space that [int()] and [float()] skip around an ASCII literal. *)
Definition is_c_space (c : ascii) : bool :=
  let n := ascii_code c in
  ((9 <=? n) && (n <=? 13)) || (n =? 32).

Fixpoint drop_while (p : ascii -> bool) (cs : list ascii) : list ascii :=
  match cs with
  | [] => []
  | c :: r => if p c then drop_while p r else cs
  end.

Definition strip_with (p : ascii -> bool) (cs : list ascii) : list ascii :=
  rev (drop_while p (rev (drop_while p cs))).

(** [s.strip()] *)
Definition py_strip (s : string) : string :=
  string_of_list_ascii (strip_with is_space (list_ascii_of_string s)).

(** [s.split(sep)] for a one-character separator. *)
Fixpoint split_chars (sep : ascii) (cs cur : list ascii) : list (list ascii) :=
  match cs with
  | [] => [rev cur]
  | c :: r =>
      if Ascii.eqb c sep then rev cur :: split_chars sep r []
      else split_chars sep r (c :: cur)
  end.

Definition py_split (sep : ascii) (s : string) : list string :=
  map string_of_list_ascii (split_chars sep (list_ascii_of_string s) []).

(** [s.startswith(p)] *)
Definition py_startswith (p s : string) : bool := String.prefix p s.

(** [s[n:]] *)
Definition py_slice_from (n : nat) (s : string) : string :=
  string_of_list_ascii (skipn n (list_ascii_of_string s)).

(** Digits with single underscores between them, as [int()] reads them:
    [seen] tells whether the previous character was a digit. *)
Fixpoint digits_underscored (cs : list ascii) (acc : Z) (seen : bool)
  : option Z :=
  match cs with
  | [] => if seen then Some acc else None
  | c :: r =>
      if is_digit c then digits_underscored r (acc * 10 + digit_value c) true
      else if Ascii.eqb c "_"
           then (if seen then digits_underscored r acc false else None)
           else None
  end.

(** The limit of CPython 3.11 on the digits of a decimal literal that
    [int()] reads ([sys.get_int_max_str_digits()]). *)
Definition int_max_str_digits : nat := 4300.

(** [int(s)] on a string; [None] stands for ValueError, which is also raised
    for a literal of more than 4300 digits. *)
Definition py_int (s : string) : option Z :=
  let cs := strip_with is_c_space (list_ascii_of_string s) in
  if Nat.ltb int_max_str_digits (List.length (filter is_digit cs)) then None
  else
    match cs with
    | [] => None
    | c :: r =>
        if Ascii.eqb c "-" then option_map Z.opp (digits_underscored r 0 false)
        else if Ascii.eqb c "+" then digits_underscored r 0 false
        else digits_underscored (c :: r) 0 false
    end.

(** ** Exceptions and results *)

Inductive exception : Type :=
| ValueError
| TypeError
| OverflowError
| AttributeError
| KeyError
| AlreadyExists.

Inductive outcome (A : Type) : Type :=
| Return (a : A)
| Raise (e : exception).
Arguments Return {A} a.
Arguments Raise {A} e.

Definition bind_outcome {A B} (c : outcome A) (k : A -> outcome B) : outcome B :=
  match c with
  | Return a => k a
  | Raise e => Raise e
  end.

(** ** [float()] *)

Definition to_lower (c : ascii) : ascii :=
  let n := ascii_code c in
  if (65 <=? n) && (n <=? 90) then ascii_of_N (Z.to_N (n + 32)) else c.

Definition lower_chars (cs : list ascii) : list ascii := map to_lower cs.

Definition chars_eqb (a b : list ascii) : bool :=
  String.eqb (string_of_list_ascii a) (string_of_list_ascii b).

(** Underscores are accepted between two digits only and are dropped;
    [prev] is the character before [cs], if any. *)
Fixpoint drop_underscores (cs : list ascii) (prev : option ascii)
  : option (list ascii) :=
  match cs with
  | [] =>
      match prev with
      | Some p => if Ascii.eqb p "_" then None else Some []
      | None => Some []
      end
  | c :: r =>
      if Ascii.eqb c "_" then
        match prev with
        | Some p => if is_digit p then drop_underscores r (Some c) else None
        | None => None
        end
      else
        match prev with
        | Some p =>
            if Ascii.eqb p "_" && negb (is_digit c) then None
            else option_map (cons c) (drop_underscores r (Some c))
        | None => option_map (cons c) (drop_underscores r (Some c))
        end
  end.

(** The longest prefix of digits, read as a number, its length, and the rest. *)
Fixpoint take_digits (cs : list ascii) (acc : Z) (n : Z)
  : Z * Z * list ascii :=
  match cs with
  | c :: r =>
      if is_digit c then take_digits r (acc * 10 + digit_value c) (n + 1)
      else (acc, n, cs)
  | [] => (acc, n, [])
  end.

(** [10 ^ e] for an integer [e] of either sign. *)
Definition pow10 (e : Z) : Q :=
  if 0 <=? e then inject_Z (10 ^ e)
  else Qmake 1 (Z.to_pos (10 ^ (- e))).

(** The exponent part: empty, or [e], an optional sign and digits. *)
Definition parse_exponent (cs : list ascii) : option Z :=
  match cs with
  | [] => Some 0
  | c :: r =>
      if Ascii.eqb (to_lower c) "e" then
        let '(negative, ds) :=
          match r with
          | s :: r' =>
              if Ascii.eqb s "-" then (true, r')
              else if Ascii.eqb s "+" then (false, r')
              else (false, r)
          | [] => (false, [])
          end in
        match take_digits ds 0 0 with
        | (v, n, []) =>
            if 0 <? n then Some (if negative then - v else v) else None
        | _ => None
        end
      else None
  end.

(** An unsigned decimal literal: digits, an optional point and digits (one
    digit at least), an optional exponent. *)
Definition parse_decimal (cs : list ascii) : option Q :=
  let '(ip, n1, r1) := take_digits cs 0 0 in
  let '(m, n2, r2) :=
    match r1 with
    | c :: r =>
        if Ascii.eqb c "." then take_digits r ip 0 else (ip, 0, r1)
    | [] => (ip, 0, [])
    end in
  if 0 <? n1 + n2 then
    match parse_exponent r2 with
    | Some e => Some (inject_Z m * pow10 (e - n2))%Q
    | None => None
    end
  else None.

(** An integer at or above [2^1024 - 2^970] in magnitude has no nearest
    double; [float()] raises OverflowError on it. *)
Definition double_overflow : Z := 2 ^ 1024 - 2 ^ 970.

(** The literal without its sign: [inf], [infinity] or [nan] in any case,
    or a decimal literal, read as the double nearest to it (an infinity when
    it is too large, zero when it is too small). *)
Definition parse_unsigned_float (cs : list ascii) : option pyfloat :=
  let l := lower_chars cs in
  if chars_eqb l (list_ascii_of_string "inf")
     || chars_eqb l (list_ascii_of_string "infinity") then Some PrimFloat.infinity
  else if chars_eqb l (list_ascii_of_string "nan") then Some PrimFloat.nan
  else option_map nearest_double (parse_decimal cs).

(** [float(s)] on a string; [None] stands for ValueError. *)
Definition py_float_str (s : string) : option pyfloat :=
  match drop_underscores (strip_with is_c_space (list_ascii_of_string s)) None with
  | None => None
  | Some [] => None
  | Some (c :: r) =>
      if Ascii.eqb c "-" then option_map pf_neg (parse_unsigned_float r)
      else if Ascii.eqb c "+" then parse_unsigned_float r
      else parse_unsigned_float (c :: r)
  end.

(** ** Request bodies: the value [request.get_json()] returns

    [JObj] lists the items of a [dict], one per key; [JInt] is a Python [int]
    and [JFloat] a Python [float] (the JSON reader of Python also reads
    [NaN], [Infinity] and [-Infinity]). *)

Inductive json : Type :=
| JNull
| JBool (b : bool)
| JInt (z : Z)
| JFloat (f : pyfloat)
| JStr (s : string)
| JArr (items : list json)
| JObj (fields : list (string * json)).

(** [float(v)] *)
Definition py_float (v : json) : outcome pyfloat :=
  match v with
  | JNull => Raise TypeError
  | JBool b => Return (if b then 1%float else 0%float)
  | JInt z =>
      if double_overflow <=? Z.abs z then Raise OverflowError
      else Return (nearest_double (inject_Z z))
  | JFloat f => Return f
  | JStr s =>
      match py_float_str s with
      | Some f => Return f
      | None => Raise ValueError
      end
  | JArr _ | JObj _ => Raise TypeError
  end.

(** [bool(v)] *)
Definition truthy (v : json) : bool :=
  match v with
  | JNull => false
  | JBool b => b
  | JInt z => negb (z =? 0)
  | JFloat f => negb (pf_eq f pf_zero)
  | JStr s => negb (String.eqb s "")
  | JArr items => match items with [] => false | _ => true end
  | JObj fields => match fields with [] => false | _ => true end
  end.

Fixpoint assoc_get {V : Type} (k : string) (l : list (string * V)) : option V :=
  match l with
  | [] => None
  | (k', v) :: r => if String.eqb k k' then Some v else assoc_get k r
  end.

Definition is_substring (needle hay : string) : bool :=
  match String.index 0 needle hay with
  | Some _ => true
  | None => false
  end.

Definition is_json_str (k : string) (v : json) : bool :=
  match v with
  | JStr s => String.eqb k s
  | _ => false
  end.

(** [k in data] *)
Definition py_contains (k : string) (data : json) : outcome bool :=
  match data with
  | JObj fields =>
      Return (match assoc_get k fields with Some _ => true | None => false end)
  | JArr items => Return (existsb (is_json_str k) items)
  | JStr s => Return (is_substring k s)
  | JNull | JBool _ | JInt _ | JFloat _ => Raise TypeError
  end.

(** [data[k]] for a string [k] *)
Definition py_getitem (data : json) (k : string) : outcome json :=
  match data with
  | JObj fields =>
      match assoc_get k fields with
      | Some v => Return v
      | None => Raise KeyError
      end
  | _ => Raise TypeError
  end.

(** [v.strip()] *)
Definition json_strip (v : json) : outcome string :=
  match v with
  | JStr s => Return (py_strip s)
  | _ => Raise AttributeError
  end.

(** ** Dates: [datetime] and [calendar] *)

Record datetime : Type := mk_datetime {
  dt_year : Z;
  dt_month : Z;
  dt_day : Z;
  dt_hour : Z;
  dt_minute : Z;
  dt_second : Z;
  dt_microsecond : Z
}.

(** [calendar.isleap] *)
Definition isleap (year : Z) : bool :=
  (year mod 4 =? 0) && (negb (year mod 100 =? 0) || (year mod 400 =? 0)).

(** [calendar.mdays] *)
Definition mdays : list Z := [0; 31; 28; 31; 30; 31; 30; 31; 31; 30; 31; 30; 31].

(** [calendar.monthrange(year, month)[1]], for a month in 1..12. *)
Definition monthrange_ndays (year month : Z) : Z :=
  nth (Z.to_nat month) mdays 0
  + (if (month =? 2) && isleap year then 1 else 0).

(** Integers that fit the C [int] the [datetime] constructor converts its
    arguments to. *)
Definition c_int_max : Z := 2 ^ 31 - 1.
Definition c_int_min : Z := - 2 ^ 31.
Definition fits_c_int (z : Z) : bool := (c_int_min <=? z) && (z <=? c_int_max).

Definition in_range (lo hi z : Z) : bool := (lo <=? z) && (z <=? hi).

(** [datetime(year, month, day, hour, minute, second)]: OverflowError when an
    argument does not fit a C int, ValueError when a field is out of range. *)
Definition make_datetime (year month day hour minute second : Z)
  : outcome datetime :=
  if forallb fits_c_int [year; month; day; hour; minute; second] then
    if in_range 1 9999 year && in_range 1 12 month
       && in_range 1 (monthrange_ndays year month) day
       && in_range 0 23 hour && in_range 0 59 minute && in_range 0 59 second
    then Return (mk_datetime year month day hour minute second 0)
    else Raise ValueError
  else Raise OverflowError.

(** Chronological order: the fields compared from the year down. *)
Fixpoint lex_compare (a b : list Z) : comparison :=
  match a, b with
  | x :: a', y :: b' =>
      match x ?= y with
      | Eq => lex_compare a' b'
      | c => c
      end
  | [], [] => Eq
  | [], _ :: _ => Lt
  | _ :: _, [] => Gt
  end.

Definition dt_fields (d : datetime) : list Z :=
  [dt_year d; dt_month d; dt_day d; dt_hour d; dt_minute d; dt_second d;
   dt_microsecond d].

Definition dt_compare (a b : datetime) : comparison :=
  lex_compare (dt_fields a) (dt_fields b).

Definition dt_leb (a b : datetime) : bool :=
  match dt_compare a b with
  | Gt => false
  | _ => true
  end.

(** [year, month = map(int, month_str.split('-'))]: ValueError unless there
    are exactly two components and both are integer literals. *)
Definition month_components (month_str : string) : outcome (Z * Z) :=
  match py_split "-" month_str with
  | [a; b] =>
      match py_int a, py_int b with
      | Some year, Some month => Return (year, month)
      | _, _ => Raise ValueError
      end
  | _ => Raise ValueError
  end.

(** The body of the [try] of [get_month_range]. *)
Definition month_range_try (month_str : string) : outcome (datetime * datetime) :=
  bind_outcome (month_components month_str) (fun '(year, month) =>
  bind_outcome (make_datetime year month 1 0 0 0) (fun start_date =>
  let last_day := monthrange_ndays year month in
  bind_outcome (make_datetime year month last_day 23 59 59) (fun end_date =>
  Return (start_date, end_date)))).

(** [get_month_range(month_str)]: [None] is the pair [(None, None)] that the
    handler of ValueError returns; any other exception propagates. *)
Definition get_month_range (month_str : string)
  : outcome (option (datetime * datetime)) :=
  match month_range_try month_str with
  | Return r => Return (Some r)
  | Raise ValueError => Return None
  | Raise e => Raise e
  end.

Definition digits2 (a b : ascii) : Z := digit_value a * 10 + digit_value b.

(** The month of the pattern [%m]: 10 to 12, 01 to 09, or 1 to 9. *)
Definition strptime_month (cs : list ascii) : option Z :=
  match cs with
  | [a] => if in_range 1 9 (digit_value a) && is_digit a
           then Some (digit_value a) else None
  | [a; b] =>
      if is_digit a && is_digit b && in_range 1 12 (digits2 a b)
      then Some (digits2 a b) else None
  | _ => None
  end.

(** The day of the pattern [%d]: 30 to 31, 10 to 29, 01 to 09, 1 to 9, or a
    space and 1 to 9. *)
Definition strptime_day (cs : list ascii) : option Z :=
  match cs with
  | [a] => if is_digit a && in_range 1 9 (digit_value a)
           then Some (digit_value a) else None
  | [a; b] =>
      if Ascii.eqb a " " then
        (if is_digit b && in_range 1 9 (digit_value b)
         then Some (digit_value b) else None)
      else if is_digit a && is_digit b && in_range 1 31 (digits2 a b)
      then Some (digits2 a b) else None
  | _ => None
  end.

(** [datetime.strptime(s, '%Y-%m-%d')]; [None] stands for ValueError. *)
Definition strptime_ymd (s : string) : option datetime :=
  match split_chars "-" (list_ascii_of_string s) [] with
  | [[y1; y2; y3; y4]; m; d] =>
      if forallb is_digit [y1; y2; y3; y4] then
        match strptime_month m, strptime_day d with
        | Some month, Some day =>
            let year := digits2 y1 y2 * 100 + digits2 y3 y4 in
            match make_datetime year month day 0 0 0 with
            | Return dt => Some dt
            | Raise _ => None
            end
        | _, _ => None
        end
      else None
  | _ => None
  end.

(** [parse_date(date_string)]: strptime raises TypeError, which is not
    caught here, on an argument that is not a string. *)
Definition parse_date (date_string : json) : outcome (option datetime) :=
  match date_string with
  | JStr s => Return (strptime_ymd s)
  | _ => Raise TypeError
  end.

Definition digit_char (d : Z) : ascii := ascii_of_N (Z.to_N (48 + d mod 10)).

(** [strftime('%Y-%m')] for a four-digit year. *)
Definition strftime_ym (d : datetime) : string :=
  let y := dt_year d in
  let m := dt_month d in
  string_of_list_ascii
    [digit_char (y / 1000); digit_char (y / 100); digit_char (y / 10);
     digit_char y; "-"%char; digit_char (m / 10); digit_char m].

(** [get_current_month()], the clock being read as [now]. *)
Definition get_current_month (now : datetime) : string := strftime_ym now.

(** ** The document store *)

(** A budget document and an expense document, with the fields the handlers
    write; a field a document lacks is [None]. *)
Record budget_doc : Type := mk_budget {
  b_amount : option pyfloat;
  b_month : option string;
  b_category : option string;
  b_created_at : option datetime;
  b_updated_at : option datetime
}.

Record expense_doc : Type := mk_expense {
  e_amount : option pyfloat;
  e_category : option string;
  e_date : option datetime;
  e_note : option string;
  e_created_at : option datetime;
  e_updated_at : option datetime
}.

(** A collection: its documents with their identifiers, in the order of the
    identifiers, which is the order a query without [order_by] streams them. *)
Definition collection (D : Type) : Type := list (string * D).

(** [users/{user_id}]: the two sub-collections of a user. *)
Record user_store : Type := mk_user_store {
  budgets : collection budget_doc;
  expenses : collection expense_doc
}.

Definition database : Type := string -> user_store.

Definition empty_store : user_store := mk_user_store [] [].
Definition empty_database : database := fun _ => empty_store.

Definition db_set (db : database) (user_id : string) (s : user_store) : database :=
  fun u => if String.eqb u user_id then s else db u.

Definition set_budgets (s : user_store) (c : collection budget_doc) : user_store :=
  mk_user_store c (expenses s).

Definition set_expenses (s : user_store) (c : collection expense_doc) : user_store :=
  mk_user_store (budgets s) c.

Definition coll_mem {D} (id : string) (c : collection D) : bool :=
  match assoc_get id c with Some _ => true | None => false end.

Fixpoint coll_insert {D} (id : string) (doc : D) (c : collection D) : collection D :=
  match c with
  | [] => [(id, doc)]
  | (k, d) :: r =>
      if String.ltb id k then (id, doc) :: c else (k, d) :: coll_insert id doc r
  end.

(** [collection.add(data)] with the identifier the store generated: the
    document is created, and the call fails if the identifier is taken. *)
Definition coll_add {D} (id : string) (doc : D) (c : collection D)
  : outcome (collection D) :=
  if coll_mem id c then Raise AlreadyExists else Return (coll_insert id doc c).

(** [document(id).update(...)] as a change of the stored document. *)
Fixpoint coll_update {D} (id : string) (f : D -> D) (c : collection D) : collection D :=
  match c with
  | [] => []
  | (k, d) :: r =>
      if String.eqb id k then (k, f d) :: r else (k, d) :: coll_update id f r
  end.

(** [document(id).delete()] *)
Fixpoint coll_delete {D} (id : string) (c : collection D) : collection D :=
  match c with
  | [] => []
  | (k, d) :: r => if String.eqb id k then r else (k, d) :: coll_delete id r
  end.

Definition opt_string_is (o : option string) (s : string) : bool :=
  match o with
  | Some x => String.eqb x s
  | None => false
  end.

(** [.where('month', '==', month)] *)
Definition where_month (month : string) (c : collection budget_doc)
  : collection budget_doc :=
  filter (fun kd => opt_string_is (b_month (snd kd)) month) c.

(** [.where('category', '==', category)] *)
Definition where_category (category : string) (c : collection budget_doc)
  : collection budget_doc :=
  filter (fun kd => opt_string_is (b_category (snd kd)) category) c.

Definition date_between (start_date end_date : datetime) (e : expense_doc) : bool :=
  match e_date e with
  | Some d => dt_leb start_date d && dt_leb d end_date
  | None => false
  end.

Definition date_leb (a b : string * expense_doc) : bool :=
  match e_date (snd a), e_date (snd b) with
  | Some x, Some y => dt_leb x y
  | _, _ => true
  end.

Fixpoint insert_by {A} (leb : A -> A -> bool) (x : A) (l : list A) : list A :=
  match l with
  | [] => [x]
  | y :: r => if leb x y then x :: l else y :: insert_by leb x r
  end.

(** A stable sort. *)
Definition sort_by {A} (leb : A -> A -> bool) (l : list A) : list A :=
  fold_right (insert_by leb) [] l.

(** [.where('date', '>=', start_date).where('date', '<=', end_date)]: the
    documents whose date lies in the range, by date and then by identifier. *)
Definition where_date_between (start_date end_date : datetime)
  (c : collection expense_doc) : collection expense_doc :=
  sort_by date_leb (filter (fun kd => date_between start_date end_date (snd kd)) c).

(** The same query with [order_by('date', direction=DESCENDING)]. *)
Definition where_date_between_desc (start_date end_date : datetime)
  (c : collection expense_doc) : collection expense_doc :=
  rev (where_date_between start_date end_date c).

(** ** Requests and responses *)

(** The claims of a verified token; [uid] is the subject, which
    [verify_id_token] always sets. *)
Record claims : Type := mk_claims {
  uid : string;
  email : option string
}.

Record request : Type := mk_request {
  authorization : option string;
  args_month : option string;
  json_body : json;
  request_user : option claims
}.

Definition set_request_user (req : request) (c : claims) : request :=
  mk_request (authorization req) (args_month req) (json_body req) (Some c).

(** What the handler cannot compute: two readings of the clock and the
    identifier the store gives a new document. *)
Record world : Type := mk_world {
  now_first : datetime;
  now_second : datetime;
  generated_id : string
}.

Inductive budget_status : Type :=
| no_budget
| under_budget
| over_budget.

Record summary : Type := mk_summary {
  s_month : string;
  s_total_expenses : pyfloat;
  s_total_budget : pyfloat;
  s_remaining_budget : pyfloat;
  s_budget_usage_percent : pyfloat;
  s_budget_status : budget_status;
  s_expense_count : nat;
  s_budget_count : nat
}.

Record category_data : Type := mk_category_data {
  total_amount : pyfloat;
  count : nat;
  budget : pyfloat;
  is_over_budget : bool;
  percentage : pyfloat
}.

Record pie_row : Type := mk_pie_row {
  pie_name : string;
  pie_value : pyfloat;
  pie_percentage : pyfloat
}.

Record bar_row : Type := mk_bar_row {
  bar_category : string;
  bar_expenses : pyfloat;
  bar_budget : pyfloat;
  bar_over_budget : bool
}.

Record report : Type := mk_report {
  r_month : string;
  r_expenses_by_category : list (string * category_data);
  r_top_spending_category : option (string * pyfloat);
  r_over_budget_categories_count : nat;
  r_total_expenses : pyfloat;
  r_total_categories : nat;
  r_pie_chart_data : list pie_row;
  r_bar_chart_data : list bar_row
}.

(** The JSON bodies of the responses.  A timestamp stands for its
    [isoformat()] or [strftime] rendering. *)
Inductive payload : Type :=
| PError (error : string)
| PMessage (message : string)
| PBudget (message : string) (id : string) (b : budget_doc)
| PExpense (message : string) (id : string) (e : expense_doc)
| PBudgets (l : collection budget_doc) (month : string) (total_budget : pyfloat)
           (count : nat)
| PExpenses (l : collection expense_doc) (month : string) (total_count : nat)
| PSummary (s : summary)
| PReport (r : report).

Record response : Type := mk_response {
  status : Z;
  body : payload
}.

Definition error_response (code : Z) (msg : string) : response :=
  mk_response code (PError msg).

(** A handler either returns early with a response or goes on with a value. *)
Definition check (A : Type) : Type := (response + A)%type.

Definition bind_check {A B} (c : check A) (k : A -> check B) : check B :=
  match c with
  | inl r => inl r
  | inr a => k a
  end.

Notation "x <- c ;; k" := (bind_check c (fun x => k))
  (at level 61, c at next level, right associativity).
Notation "' p <- c ;; k" := (bind_check c (fun p => k))
  (at level 61, p pattern, c at next level, right associativity).

(** An exception inside the [try] of a handler reaches its
    [except Exception] and becomes the 500 response of that handler. *)
Definition or_500 {A} (msg : string) (o : outcome A) : check A :=
  match o with
  | Return a => inr a
  | Raise _ => inl (error_response 500 msg)
  end.

Definition guard (ok : bool) (r : response) : check unit :=
  if ok then inr tt else inl r.

Definition handler : Type := request -> database -> database * response.

(** ** Authentication *)

Section Auth.

(** [auth.verify_id_token] of the identity provider: the claims of the
    token, or [None] when the call raises. *)
Variable verify_id_token : string -> option claims.

Definition verify_firebase_token (token : string) : option claims :=
  let token :=
    if py_startswith "Bearer " token then py_slice_from 7 token else token in
  verify_id_token token.

(** [require_auth(f)]; [kwargs_user_id] is [kwargs.get('user_id')]. *)
Definition require_auth (f : handler) (kwargs_user_id : option string) : handler :=
  fun req db =>
    match authorization req with
    | None => (db, error_response 401 "Authorization header missing")
    | Some auth_header =>
        if String.eqb auth_header "" then
          (db, error_response 401 "Authorization header missing")
        else
          match verify_firebase_token auth_header with
          | None => (db, error_response 401 "Invalid or expired token")
          | Some decoded_token =>
              let mismatch :=
                match kwargs_user_id with
                | Some user_id =>
                    negb (String.eqb user_id "")
                    && negb (String.eqb user_id (uid decoded_token))
                | None => false
                end in
              if mismatch then
                (db, error_response 403 "Unauthorized access to user data")
              else f (set_request_user req decoded_token) db
        end
    end.

End Auth.

(** ** Validation *)

Definition missing_field (field : string) : response :=
  error_response 400 (String.append "Missing required field: " field).

(** The loop of [set_budget] over its required fields:
    [if field not in data or not data[field]]. *)
Fixpoint require_truthy_fields (msg500 : string) (fields : list string)
  (data : json) : check unit :=
  match fields with
  | [] => inr tt
  | field :: rest =>
      present <- or_500 msg500 (py_contains field data) ;;
      _ <- guard present (missing_field field) ;;
      v <- or_500 msg500 (py_getitem data field) ;;
      _ <- guard (truthy v) (missing_field field) ;;
      require_truthy_fields msg500 rest data
  end.

(** The loop of [add_expense]: [if field not in data]. *)
Fixpoint require_fields (msg500 : string) (fields : list string)
  (data : json) : check unit :=
  match fields with
  | [] => inr tt
  | field :: rest =>
      present <- or_500 msg500 (py_contains field data) ;;
      _ <- guard present (missing_field field) ;;
      require_fields msg500 rest data
  end.

(** [try: amount = float(data['amount']); if amount <= 0: ...
     except (ValueError, TypeError): ...] *)
Definition validate_amount (msg500 : string) (data : json) : check pyfloat :=
  match bind_outcome (py_getitem data "amount") py_float with
  | Return amount =>
      if pf_le amount pf_zero
      then inl (error_response 400 "Amount must be positive")
      else inr amount
  | Raise ValueError | Raise TypeError =>
      inl (error_response 400 "Invalid amount format")
  | Raise _ => inl (error_response 500 msg500)
  end.

Definition valid_month_format (month : string) : bool :=
  negb (String.eqb month "") && Nat.eqb (List.length (py_split "-" month)) 2.

(** [month = data['month'].strip()] and the test of its format. *)
Definition validate_month (msg500 : string) (data : json) : check string :=
  month <- or_500 msg500 (bind_outcome (py_getitem data "month") json_strip) ;;
  _ <- guard (valid_month_format month)
         (error_response 400 "Invalid month format. Use YYYY-MM") ;;
  inr month.

(** [category = data['category'].strip()] and the test that it is not empty. *)
Definition validate_category (msg500 msg400 : string) (data : json) : check string :=
  category <- or_500 msg500 (bind_outcome (py_getitem data "category") json_strip) ;;
  _ <- guard (negb (String.eqb category "")) (error_response 400 msg400) ;;
  inr category.

Definition is_nil {A} (l : list A) : bool :=
  match l with [] => true | _ => false end.

(** ** Budget routes *)

Definition budget_amount_or_zero (b : budget_doc) : pyfloat :=
  match b_amount b with Some a => a | None => pf_zero end.

Definition has_field {A} (o : option A) : bool :=
  match o with Some _ => true | None => false end.

Definition opt_string_leb (a b : option string) : bool :=
  match a, b with
  | Some x, Some y => String.leb x y
  | _, _ => true
  end.

(** The two queries of [get_budgets]; a document without the field of the
    [order_by] is not returned. *)
Definition budgets_of_month (month : string) (c : collection budget_doc)
  : collection budget_doc :=
  sort_by (fun a b => opt_string_leb (b_category (snd a)) (b_category (snd b)))
          (filter (fun kd => has_field (b_category (snd kd))) (where_month month c)).

Definition budgets_by_month_desc (c : collection budget_doc)
  : collection budget_doc :=
  rev (sort_by (fun a b => opt_string_leb (b_month (snd a)) (b_month (snd b)))
               (filter (fun kd => has_field (b_month (snd kd))) c)).

(** [get_budgets]: GET /api/users/<user_id>/budgets *)
Definition get_budgets (user_id : string) : handler :=
  fun req db =>
    let budgets_ref := budgets (db user_id) in
    let budget_list :=
      match args_month req with
      | Some month =>
          if String.eqb month "" then budgets_by_month_desc budgets_ref
          else budgets_of_month month budgets_ref
      | None => budgets_by_month_desc budgets_ref
      end in
    let total_budget :=
      fold_left (fun acc kd => pf_add acc (budget_amount_or_zero (snd kd)))
                budget_list pf_zero in
    let month :=
      match args_month req with
      | Some month => if String.eqb month "" then "all" else month
      | None => "all"
      end in
    (db, mk_response 200
           (PBudgets budget_list month (py_round2 total_budget)
                     (List.length budget_list))).

(** Lines 194 to 222 of [set_budget]: the checks made on the body, giving the
    amount, the month and the category of the budget to create. *)
Definition set_budget_validate (msg500 : string) (data : json)
  : check (pyfloat * string * string) :=
  _ <- guard (truthy data) (error_response 400 "No data provided") ;;
  _ <- require_truthy_fields msg500 ["amount"; "month"; "category"] data ;;
  amount <- validate_amount msg500 data ;;
  month <- validate_month msg500 data ;;
  category <- validate_category msg500 "Category is required" data ;;
  inr (amount, month, category).

(** [set_budget]: POST /api/users/<user_id>/budgets *)
Definition set_budget (w : world) (user_id : string) : handler :=
  fun req db =>
    let msg500 := "Failed to set budget" in
    let data := json_body req in
    let budgets_ref := budgets (db user_id) in
    let steps :=
      '(amount, month, category) <- set_budget_validate msg500 data ;;
      let existing_budgets :=
        where_category category (where_month month budgets_ref) in
      _ <- guard (is_nil existing_budgets)
             (error_response 400
                "Budget already exists for this category and month") ;;
      let budget_data :=
        mk_budget (Some amount) (Some month) (Some category)
                  (Some (now_first w)) (Some (now_second w)) in
      budgets' <- or_500 msg500 (coll_add (generated_id w) budget_data budgets_ref) ;;
      inr (budgets', budget_data) in
    match steps with
    | inl r => (db, r)
    | inr (budgets', budget_data) =>
        (db_set db user_id (set_budgets (db user_id) budgets'),
         mk_response 201
           (PBudget "Budget created successfully" (generated_id w) budget_data))
    end.

(** The fields a PUT body changes. *)
Record budget_update : Type := mk_budget_update {
  u_amount : option pyfloat;
  u_category : option string;
  u_month : option string;
  u_updated_at : datetime
}.

Definition or_old {A} (new old : option A) : option A :=
  match new with
  | Some _ => new
  | None => old
  end.

Definition apply_update (u : budget_update) (b : budget_doc) : budget_doc :=
  mk_budget (or_old (u_amount u) (b_amount b))
            (or_old (u_month u) (b_month b))
            (or_old (u_category u) (b_category b))
            (b_created_at b)
            (Some (u_updated_at u)).

(** [if field in data: <validate>], giving the validated value if any. *)
Definition when_present {A} (msg500 field : string) (data : json)
  (validate : check A) : check (option A) :=
  present <- or_500 msg500 (py_contains field data) ;;
  if present then (v <- validate ;; inr (Some v)) else inr None.

(** [update_budget]: PUT /api/users/<user_id>/budgets/<budget_id> *)
Definition update_budget (w : world) (user_id budget_id : string) : handler :=
  fun req db =>
    let msg500 := "Failed to update budget" in
    let data := json_body req in
    let budgets_ref := budgets (db user_id) in
    let steps :=
      _ <- guard (truthy data) (error_response 400 "No data provided") ;;
      _ <- guard (coll_mem budget_id budgets_ref)
             (error_response 404 "Budget not found") ;;
      amount <- when_present msg500 "amount" data (validate_amount msg500 data) ;;
      category <- when_present msg500 "category" data
                    (validate_category msg500 "Category cannot be empty" data) ;;
      month <- when_present msg500 "month" data (validate_month msg500 data) ;;
      inr (mk_budget_update amount category month (now_first w)) in
    match steps with
    | inl r => (db, r)
    | inr update_data =>
        let budgets' := coll_update budget_id (apply_update update_data) budgets_ref in
        match assoc_get budget_id budgets' with
        | Some updated_data =>
            (db_set db user_id (set_budgets (db user_id) budgets'),
             mk_response 200
               (PBudget "Budget updated successfully" budget_id updated_data))
        | None => (db, error_response 500 msg500)
        end
    end.

(** [delete_budget]: DELETE /api/users/<user_id>/budgets/<budget_id> *)
Definition delete_budget (user_id budget_id : string) : handler :=
  fun req db =>
    let budgets_ref := budgets (db user_id) in
    if coll_mem budget_id budgets_ref then
      (db_set db user_id
         (set_budgets (db user_id) (coll_delete budget_id budgets_ref)),
       mk_response 200 (PMessage "Budget deleted successfully"))
    else (db, error_response 404 "Budget not found").

(** ** Expense routes *)

(** [data.get(k, default)] *)
Definition py_get (data : json) (k : string) (default : json) : outcome json :=
  match data with
  | JObj fields =>
      Return (match assoc_get k fields with Some v => v | None => default end)
  | _ => Raise AttributeError
  end.

(** [get_expenses]: GET /api/users/<user_id>/expenses *)
Definition get_expenses (w : world) (user_id : string) : handler :=
  fun req db =>
    let msg500 := "Failed to retrieve expenses" in
    let month :=
      match args_month req with
      | Some m => m
      | None => get_current_month (now_first w)
      end in
    let steps :=
      range <- or_500 msg500 (get_month_range month) ;;
      match range with
      | None => inl (error_response 400 "Invalid month format. Use YYYY-MM")
      | Some (start_date, end_date) =>
          let expense_list :=
            where_date_between_desc start_date end_date (expenses (db user_id)) in
          inr (mk_response 200
                 (PExpenses expense_list month (List.length expense_list)))
      end in
    match steps with
    | inl r => (db, r)
    | inr r => (db, r)
    end.

(** [add_expense]: POST /api/users/<user_id>/expenses *)
Definition add_expense (w : world) (user_id : string) : handler :=
  fun req db =>
    let msg500 := "Failed to add expense" in
    let data := json_body req in
    let expenses_ref := expenses (db user_id) in
    let steps :=
      _ <- require_fields msg500 ["amount"; "category"; "date"] data ;;
      amount <- validate_amount msg500 data ;;
      parsed <- or_500 msg500 (bind_outcome (py_getitem data "date") parse_date) ;;
      match parsed with
      | None => inl (error_response 400 "Invalid date format. Use YYYY-MM-DD")
      | Some expense_date =>
          category <- or_500 msg500
                        (bind_outcome (py_getitem data "category") json_strip) ;;
          note <- or_500 msg500
                    (bind_outcome (py_get data "note" (JStr "")) json_strip) ;;
          let expense_data :=
            mk_expense (Some amount) (Some category) (Some expense_date)
                       (Some note) (Some (now_first w)) (Some (now_second w)) in
          expenses' <- or_500 msg500
                         (coll_add (generated_id w) expense_data expenses_ref) ;;
          inr (expenses', expense_data)
      end in
    match steps with
    | inl r => (db, r)
    | inr (expenses', expense_data) =>
        (db_set db user_id (set_expenses (db user_id) expenses'),
         mk_response 201
           (PExpense "Expense added successfully" (generated_id w) expense_data))
    end.

(** ** Analytics routes *)

(** [doc.to_dict().get('amount', 0)] *)
Definition expense_amount (e : expense_doc) : pyfloat :=
  match e_amount e with Some a => a | None => pf_zero end.

Definition budget_amount (b : budget_doc) : pyfloat :=
  match b_amount b with Some a => a | None => pf_zero end.

(** [expense_data.get('category', 'Other')] *)
Definition expense_category (e : expense_doc) : string :=
  match e_category e with Some c => c | None => "Other" end.

(** [budget_data.get('category', 'general')] *)
Definition budget_category (b : budget_doc) : string :=
  match b_category b with Some c => c | None => "general" end.

(** The values computed by [get_summary] before the response is built. *)
Record summary_values : Type := mk_summary_values {
  total_expenses : pyfloat;
  total_budget : pyfloat;
  remaining_budget : pyfloat;
  budget_usage_percent : pyfloat;
  budget_status_of : budget_status
}.

(** Lines 470 to 491 of [get_summary]. *)
Definition summary_of (expenses : collection expense_doc)
  (budgets : collection budget_doc) : summary_values :=
  let total_expenses := py_sum (map (fun kd => expense_amount (snd kd)) expenses) in
  let total_budget := py_sum (map (fun kd => budget_amount (snd kd)) budgets) in
  let remaining_budget := pf_sub total_budget total_expenses in
  let budget_usage_percent :=
    if pf_gt total_budget pf_zero
    then pf_mul (pf_div total_expenses total_budget) pf_hundred
    else pf_zero in
  let budget_status :=
    if pf_eq total_budget pf_zero then no_budget
    else if pf_ge remaining_budget pf_zero then under_budget
    else over_budget in
  mk_summary_values total_expenses total_budget remaining_budget
                    budget_usage_percent budget_status.

(** Lines 493 to 502: the response, every amount rounded as it is written. *)
Definition summary_response (month : string) (expenses : collection expense_doc)
  (budgets : collection budget_doc) : summary :=
  let v := summary_of expenses budgets in
  mk_summary month
             (py_round2 (total_expenses v))
             (py_round2 (total_budget v))
             (py_round2 (remaining_budget v))
             (py_round2 (budget_usage_percent v))
             (budget_status_of v)
             (List.length expenses)
             (List.length budgets).

(** [get_summary]: GET /api/summary/<user_id>/<month> *)
Definition get_summary (user_id month : string) : handler :=
  fun req db =>
    let msg500 := "Failed to generate summary" in
    let steps :=
      range <- or_500 msg500 (get_month_range month) ;;
      match range with
      | None => inl (error_response 400 "Invalid month format. Use YYYY-MM")
      | Some (start_date, end_date) =>
          let expenses :=
            where_date_between start_date end_date (expenses (db user_id)) in
          let budgets := where_month month (budgets (db user_id)) in
          inr (mk_response 200 (PSummary (summary_response month expenses budgets)))
      end in
    match steps with
    | inl r => (db, r)
    | inr r => (db, r)
    end.

(** A Python [dict] with string keys, in insertion order. *)
Definition dict (V : Type) : Type := list (string * V).

Definition dict_mem {V} (k : string) (d : dict V) : bool :=
  match assoc_get k d with Some _ => true | None => false end.

(** [d[k] = v] *)
Fixpoint dict_set {V} (k : string) (v : V) (d : dict V) : dict V :=
  match d with
  | [] => [(k, v)]
  | (k', v') :: r =>
      if String.eqb k k' then (k', v) :: r else (k', v') :: dict_set k v r
  end.

(** [d.get(k, default)] *)
Definition dict_get {V} (k : string) (default : V) (d : dict V) : V :=
  match assoc_get k d with Some v => v | None => default end.

(** [d[k] = f(d[k])] for a key of [d]. *)
Fixpoint dict_modify {V} (k : string) (f : V -> V) (d : dict V) : dict V :=
  match d with
  | [] => []
  | (k', v') :: r =>
      if String.eqb k k' then (k', f v') :: r else (k', v') :: dict_modify k f r
  end.

(** Lines 527 to 532: the budget of each category, the last one winning. *)
Definition budget_lookup_of (budgets : collection budget_doc) : dict pyfloat :=
  fold_left
    (fun lookup kd => dict_set (budget_category (snd kd)) (budget_amount (snd kd)) lookup)
    budgets [].

Definition add_to_category (amount : pyfloat) (data : category_data) : category_data :=
  mk_category_data (pf_add (total_amount data) amount) (S (count data))
                   (budget data) (is_over_budget data) (percentage data).

(** One turn of the loop of lines 538 to 554. *)
Definition group_step (budget_lookup : dict pyfloat)
  (acc : dict category_data * pyfloat) (kd : string * expense_doc)
  : dict category_data * pyfloat :=
  let '(category_expenses, total_expenses) := acc in
  let category := expense_category (snd kd) in
  let amount := expense_amount (snd kd) in
  let category_expenses :=
    if dict_mem category category_expenses then category_expenses
    else category_expenses
           ++ [(category,
                mk_category_data pf_zero 0 (dict_get category pf_zero budget_lookup)
                                 false pf_zero)] in
  (dict_modify category (add_to_category amount) category_expenses,
   pf_add total_expenses amount).

Definition group_expenses (budget_lookup : dict pyfloat)
  (expenses : collection expense_doc) : dict category_data * pyfloat :=
  fold_left (group_step budget_lookup) expenses ([], pf_zero).

(** The variables of the loop of lines 565 to 596. *)
Record report_state : Type := mk_report_state {
  top_category : option string;
  top_amount : pyfloat;
  over_budget_count : nat;
  categories_done : dict category_data;
  pie_chart_data : list pie_row;
  bar_chart_data : list bar_row
}.

Definition report_state_init : report_state :=
  mk_report_state None pf_zero 0 [] [] [].

(** Line 567: the share of a category in the total. *)
Definition category_percentage (total_expenses : pyfloat) (data : category_data)
  : pyfloat :=
  if pf_gt total_expenses pf_zero
  then pf_mul (pf_div (total_amount data) total_expenses) pf_hundred
  else pf_zero.

(** Line 570: [data['budget'] > 0 and data['total_amount'] > data['budget']]. *)
Definition exceeds_budget (data : category_data) : bool :=
  pf_gt (budget data) pf_zero && pf_gt (total_amount data) (budget data).

(** The entry of a category after its turn of the loop: the flag set, the
    amount and the percentage rounded (lines 567 to 581). *)
Definition finish_category (total_expenses : pyfloat) (data : category_data)
  : category_data :=
  mk_category_data (py_round2 (total_amount data)) (count data) (budget data)
                   (if exceeds_budget data then true else is_over_budget data)
                   (py_round2 (category_percentage total_expenses data)).

(** One turn of that loop, for the entry [(category, data)]. *)
Definition report_step (total_expenses : pyfloat) (st : report_state)
  (entry : string * category_data) : report_state :=
  let '(category, data) := entry in
  let is_top := pf_gt (total_amount data) (top_amount st) in
  let data' := finish_category total_expenses data in
  mk_report_state
    (if is_top then Some category else top_category st)
    (if is_top then total_amount data else top_amount st)
    (if exceeds_budget data then S (over_budget_count st) else over_budget_count st)
    (categories_done st ++ [(category, data')])
    (pie_chart_data st
       ++ [mk_pie_row category (total_amount data') (percentage data')])
    (bar_chart_data st
       ++ [mk_bar_row category (total_amount data') (budget data')
                      (is_over_budget data')]).

(** [l.sort(key=..., reverse=True)]: descending, equal keys keeping their order. *)
Definition sort_desc {A} (key : A -> pyfloat) (l : list A) : list A :=
  sort_by (fun x y => pf_le (key y) (key x)) l.

(** Lines 527 to 614 of [get_report]. *)
Definition report_of (month : string) (expenses : collection expense_doc)
  (budgets : collection budget_doc) : report :=
  let budget_lookup := budget_lookup_of budgets in
  let '(category_expenses, total_expenses) := group_expenses budget_lookup expenses in
  let st := fold_left (report_step total_expenses) category_expenses report_state_init in
  mk_report month
    (categories_done st)
    (match top_category st with
     | Some c =>
         if String.eqb c "" then None else Some (c, py_round2 (top_amount st))
     | None => None
     end)
    (over_budget_count st)
    (py_round2 total_expenses)
    (List.length category_expenses)
    (sort_desc pie_value (pie_chart_data st))
    (sort_desc bar_expenses (bar_chart_data st)).

(** [get_report]: GET /api/report/<user_id>/<month> *)
Definition get_report (user_id month : string) : handler :=
  fun req db =>
    let msg500 := "Failed to generate report" in
    let steps :=
      range <- or_500 msg500 (get_month_range month) ;;
      match range with
      | None => inl (error_response 400 "Invalid month format. Use YYYY-MM")
      | Some (start_date, end_date) =>
          let expenses :=
            where_date_between start_date end_date (expenses (db user_id)) in
          let budgets := where_month month (budgets (db user_id)) in
          inr (mk_response 200 (PReport (report_of month expenses budgets)))
      end in
    match steps with
    | inl r => (db, r)
    | inr r => (db, r)
    end.

(** ** The protected routes *)

Inductive route : Type :=
| GetBudgets (user_id : string)
| SetBudget (user_id : string)
| UpdateBudget (user_id budget_id : string)
| DeleteBudget (user_id budget_id : string)
| GetExpenses (user_id : string)
| AddExpense (user_id : string)
| GetSummary (user_id month : string)
| GetReport (user_id month : string).

(** The [user_id] of the path. *)
Definition route_user (r : route) : string :=
  match r with
  | GetBudgets u | SetBudget u | UpdateBudget u _ | DeleteBudget u _
  | GetExpenses u | AddExpense u | GetSummary u _ | GetReport u _ => u
  end.

(** The view function of the route. *)
Definition route_handler (w : world) (r : route) : handler :=
  match r with
  | GetBudgets u => get_budgets u
  | SetBudget u => set_budget w u
  | UpdateBudget u b => update_budget w u b
  | DeleteBudget u b => delete_budget u b
  | GetExpenses u => get_expenses w u
  | AddExpense u => add_expense w u
  | GetSummary u m => get_summary u m
  | GetReport u m => get_report u m
  end.

(** The view function under [@require_auth], as the route calls it. *)
Definition protected (verify_id_token : string -> option claims) (w : world)
  (r : route) : handler :=
  require_auth verify_id_token (route_handler w r) (Some (route_user r)).

(** ** Predicates of the statements *)

(** The exact sum of a list of rationals. *)
Fixpoint Qsum (l : list Q) : Q :=
  match l with
  | [] => 0%Q
  | x :: r => (x + Qsum r)%Q
  end.

(** A finite value, and a value that is a number (not NaN). *)
Definition is_finite (x : pyfloat) : Prop := pf_is_finite x = true.

Definition is_number (x : pyfloat) : Prop := pf_is_nan x = false.

(** A number that is not negative: [0 <= x]. *)
Definition nonneg_amount (x : pyfloat) : Prop := pf_le pf_zero x = true.

Definition finite_expenses (es : collection expense_doc) : Prop :=
  Forall (fun kd => is_finite (expense_amount (snd kd))) es.

Definition finite_budgets (bs : collection budget_doc) : Prop :=
  Forall (fun kd => is_finite (budget_amount (snd kd))) bs.


(** The place of a value in the order of the doubles: its class (negative
    infinity, negative, zero, positive, positive infinity), then its exponent
    and its mantissa, both negated for a negative value.  NaN has no place. *)
Definition sf_place (f : spec_float) : option (Z * Z * Z) :=
  match f with
  | S754_nan => None
  | S754_infinity true => Some (-2, 0, 0)
  | S754_infinity false => Some (2, 0, 0)
  | S754_zero _ => Some (0, 0, 0)
  | S754_finite true m e => Some (-1, - e, Zneg m)
  | S754_finite false m e => Some (1, e, Zpos m)
  end.

Definition place (x : pyfloat) : option (Z * Z * Z) := sf_place (Prim2SF x).

Definition place_compare (a b : Z * Z * Z) : comparison :=
  let '(a1, a2, a3) := a in
  let '(b1, b2, b3) := b in
  match a1 ?= b1 with
  | Eq => match a2 ?= b2 with
          | Eq => a3 ?= b3
          | c => c
          end
  | c => c
  end.

Definition place_lt (a b : Z * Z * Z) : Prop :=
  let '(a1, a2, a3) := a in
  let '(b1, b2, b3) := b in
  a1 < b1 \/ (a1 = b1 /\ (a2 < b2 \/ (a2 = b2 /\ a3 < b3))).

Definition place_le (a b : Z * Z * Z) : Prop :=
  let '(a1, a2, a3) := a in
  let '(b1, b2, b3) := b in
  a1 < b1 \/ (a1 = b1 /\ (a2 < b2 \/ (a2 = b2 /\ a3 <= b3))).

Definition place_eq (a b : Z * Z * Z) : Prop :=
  let '(a1, a2, a3) := a in
  let '(b1, b2, b3) := b in
  a1 = b1 /\ a2 = b2 /\ a3 = b3.

(** [a] and [b] are numbers and [a < b]; [a <= b]; [a == b]. *)
Definition float_lt (a b : pyfloat) : Prop :=
  match place a, place b with
  | Some x, Some y => place_lt x y
  | _, _ => False
  end.

Definition float_le (a b : pyfloat) : Prop :=
  match place a, place b with
  | Some x, Some y => place_le x y
  | _, _ => False
  end.

Definition float_eq (a b : pyfloat) : Prop :=
  match place a, place b with
  | Some x, Some y => place_eq x y
  | _, _ => False
  end.

(** A value of sign [s] that is not NaN; a value that is not NaN; a value
    that is not NaN and not negative. *)
Definition sf_signed (s : bool) (f : spec_float) : Prop :=
  match f with
  | S754_zero s' | S754_infinity s' | S754_finite s' _ _ => s' = s
  | S754_nan => False
  end.

Definition sf_number (f : spec_float) : Prop :=
  match f with S754_nan => False | _ => True end.


(** The expenses of one category, and their amounts. *)
Definition expenses_of_category (c : string) (es : collection expense_doc)
  : collection expense_doc :=
  filter (fun kd => String.eqb (expense_category (snd kd)) c) es.

Definition expense_amounts (es : collection expense_doc) : list pyfloat :=
  map (fun kd => expense_amount (snd kd)) es.

Definition budget_amounts (bs : collection budget_doc) : list pyfloat :=
  map (fun kd => budget_amount (snd kd)) bs.

(** The double [x] is exactly the rational [q]. *)
Definition exactly (x : pyfloat) (q : Q) : Prop :=
  match exact_value x with
  | Some v => (v == q)%Q
  | None => False
  end.

(** What the grouping loop has built for one category once the expenses
    [done] have been read. *)
Definition entry_ok (budget_lookup : dict pyfloat) (done : collection expense_doc)
  (cd : string * category_data) : Prop :=
  total_amount (snd cd) = py_sum (expense_amounts (expenses_of_category (fst cd) done))
  /\ count (snd cd) = List.length (expenses_of_category (fst cd) done)
  /\ budget (snd cd) = dict_get (fst cd) pf_zero budget_lookup
  /\ is_over_budget (snd cd) = false
  /\ percentage (snd cd) = pf_zero.

(** The invariant of the grouping loop. *)
Definition group_shape (budget_lookup : dict pyfloat) (done : collection expense_doc)
  (acc : dict category_data * pyfloat) : Prop :=
  NoDup (map fst (fst acc))
  /\ (forall c, In c (map fst (fst acc))
                <-> exists kd, In kd done /\ expense_category (snd kd) = c)
  /\ snd acc = py_sum (expense_amounts done)
  /\ Forall (entry_ok budget_lookup done) (fst acc).

(** The entries of the report, from the entries of the grouping. *)
Definition finish_entries (total_expenses : pyfloat) (d : dict category_data)
  : dict category_data :=
  map (fun cd => (fst cd, finish_category total_expenses (snd cd))) d.

(** An error response with status 400 or 500. *)
Definition is_client_or_server_error (r : response) : Prop :=
  exists code msg, r = error_response code msg /\ (code = 400 \/ code = 500).

(** An amount that [float()] refuses with ValueError or TypeError, or converts
    to a value that is [<= 0]. *)
Definition amount_rejected (v : json) : Prop :=
  py_float v = Raise ValueError \/ py_float v = Raise TypeError
  \/ exists a, py_float v = Return a /\ pf_le a pf_zero = true.

(** The first of the required fields that the loop of [set_budget] finds
    missing or empty, and the first that the loop of [add_expense] finds
    missing. *)
Definition first_unusable (fields : list (string * json)) (required : list string)
  : option string :=
  find (fun k => negb (match assoc_get k fields with
                       | Some v => truthy v
                       | None => false
                       end)) required.

Definition first_absent (fields : list (string * json)) (required : list string)
  : option string :=
  find (fun k => negb (match assoc_get k fields with
                       | Some _ => true
                       | None => false
                       end)) required.

(** The message for a body whose amount is [v]: that of the first required
    field found missing, if any, and otherwise that of the amount. *)
Definition rejection_message (missing : option string) (v : json) : string :=
  match missing with
  | Some field => String.append "Missing required field: " field
  | None =>
      match py_float v with
      | Return _ => "Amount must be positive"
      | Raise _ => "Invalid amount format"
      end
  end.

(** The three messages that name the amount. *)
Definition amount_error (msg : string) : Prop :=
  msg = "Amount must be positive" \/ msg = "Invalid amount format"
  \/ msg = "Missing required field: amount".

Definition field_present (fields : list (string * json)) (k : string) : Prop :=
  exists v, assoc_get k fields = Some v.

Definition field_truthy (fields : list (string * json)) (k : string) : Prop :=
  exists v, assoc_get k fields = Some v /\ truthy v = true.

(** No stored budget, and no stored expense, has an empty category. *)
Definition budget_categories_ok (db : database) : Prop :=
  forall u id b, In (id, b) (budgets (db u)) -> b_category b <> Some "".

Definition expense_categories_ok (db : database) : Prop :=
  forall u id e, In (id, e) (expenses (db u)) -> e_category e <> Some "".

(** The calendar, as it is usually stated: a year is a leap year when it is
    divisible by 4 and not by 100, or divisible by 400; February has 29 days
    in a leap year and 28 otherwise; April, June, September and November have
    30 days; the other months have 31. *)
Definition leap_year (year : Z) : Prop :=
  (year mod 4 = 0 /\ year mod 100 <> 0) \/ year mod 400 = 0.

Definition calendar_month_length (year month : Z) : Z :=
  if month =? 2 then
    (if ((year mod 4 =? 0) && negb (year mod 100 =? 0)) || (year mod 400 =? 0)
     then 29 else 28)
  else if (month =? 4) || (month =? 6) || (month =? 9) || (month =? 11) then 30
  else 31.

(** The order of [lex_compare], as a proposition. *)
Fixpoint lex_le (a b : list Z) : Prop :=
  match a, b with
  | x :: a', y :: b' => x < y \/ (x = y /\ lex_le a' b')
  | [], _ => True
  | _ :: _, [] => False
  end.

(** The first and the last second of a month. *)
Definition month_start (year month : Z) : datetime :=
  mk_datetime year month 1 0 0 0 0.

Definition month_end (year month : Z) : datetime :=
  mk_datetime year month (calendar_month_length year month) 23 59 59 0.

(** A timestamp with fields in their ranges and no fraction of a second. *)
Definition whole_second (d : datetime) : Prop :=
  1 <= dt_day d <= calendar_month_length (dt_year d) (dt_month d)
  /\ 0 <= dt_hour d <= 23 /\ 0 <= dt_minute d <= 59 /\ 0 <= dt_second d <= 59
  /\ dt_microsecond d = 0.

(** The expenses of a collection dated within a range. *)
Definition dated_between (start_date end_date : datetime)
  (c : collection expense_doc) (kd : string * expense_doc) : Prop :=
  In kd c
  /\ exists d, e_date (snd kd) = Some d
               /\ dt_leb start_date d = true /\ dt_leb d end_date = true.

(** Every stored budget amount passed the test [amount <= 0] of the
    validation. *)
Definition budget_amounts_validated (db : database) : Prop :=
  forall u id b a,
    In (id, b) (budgets (db u)) -> b_amount b = Some a -> pf_le a pf_zero = false.

(** The last budget of a category in the stream of the budgets. *)
Definition last_budget_of (c : string) (bs : collection budget_doc)
  : option (string * budget_doc) :=
  find (fun kd => String.eqb c (budget_category (snd kd))) (rev bs).

(** The two 400 responses that the statements name. *)
Definition duplicate_budget_error : response :=
  error_response 400 "Budget already exists for this category and month".

Definition invalid_month_error : response :=
  error_response 400 "Invalid month format. Use YYYY-MM".

(** The routes that only read. *)
Definition is_read_route (r : route) : bool :=
  match r with
  | GetBudgets _ | GetExpenses _ | GetSummary _ _ | GetReport _ _ => true
  | _ => false
  end.

(** No two documents of a collection share an identifier. *)
Definition ids_unique (db : database) : Prop :=
  forall u, NoDup (map fst (budgets (db u))) /\ NoDup (map fst (expenses (db u))).

(** What [add_expense] stores: an amount that passed the validation, the
    category and the note stripped, a date at midnight. *)
Definition expense_as_validated (e : expense_doc) : Prop :=
  (exists a, e_amount e = Some a /\ pf_le a pf_zero = false)
  /\ (exists c, e_category e = Some c)
  /\ (exists d, e_date e = Some d /\ whole_second d
                /\ 1 <= dt_year d <= 9999 /\ 1 <= dt_month d <= 12
                /\ dt_hour d = 0 /\ dt_minute d = 0 /\ dt_second d = 0)
  /\ (exists n, e_note e = Some n).

(** What the budget routes store: an amount that passed the validation, a
    month of the accepted format, a category that is not empty. *)
Definition budget_as_validated (b : budget_doc) : Prop :=
  (exists a, b_amount b = Some a /\ pf_le a pf_zero = false)
  /\ (exists m, b_month b = Some m /\ valid_month_format m = true)
  /\ (exists c, b_category b = Some c /\ c <> "").

(** A database as the routes leave it. *)
Definition store_ok (db : database) : Prop :=
  ids_unique db
  /\ (forall u id b, In (id, b) (budgets (db u)) -> budget_as_validated b)
  /\ (forall u id e, In (id, e) (expenses (db u)) -> expense_as_validated e).

(** How a field of a PUT body shows in the updated budget: an absent field
    leaves the stored value, a present one replaces it by [new]. *)
Definition field_after {A} (in_body : option json) (old after : option A)
  (new : json -> A -> Prop) : Prop :=
  match in_body with
  | None => after = old
  | Some v => exists x, after = Some x /\ new v x
  end.

(** At most one budget for each month and category. *)
Definition budgets_unique (c : collection budget_doc) : Prop :=
  forall month category,
    (List.length (where_category category (where_month month c)) <= 1)%nat.

(** [a] is dated no later than [b] (both dated). *)
Definition not_later (a b : string * expense_doc) : Prop :=
  exists x y, e_date (snd a) = Some x /\ e_date (snd b) = Some y
              /\ dt_leb x y = true.

(** [b] is listed after [a] only if it is not dated later. *)
Definition newest_first (a b : string * expense_doc) : Prop := not_later b a.

Definition entry_total (cd : string * category_data) : pyfloat :=
  total_amount (snd cd).

(** [c] is the first of the entries of [l] whose total is the largest, and
    that total, [t], is positive. *)
Definition first_largest (c : string) (l : dict category_data) (t : pyfloat)
  : Prop :=
  exists l1 d l2,
    l = l1 ++ (c, d) :: l2 /\ total_amount d = t /\ pf_gt t pf_zero = true
    /\ Forall (fun e => pf_lt (entry_total e) t = true) l1
    /\ Forall (fun e => pf_le (entry_total e) t = true) l2.

(** The invariant of [top_category] and [top_amount] in the second loop of
    the report, the entries [l] having had their turn. *)
Definition top_shape (l : dict category_data) (st : report_state) : Prop :=
  match top_category st with
  | None =>
      top_amount st = pf_zero
      /\ Forall (fun e => pf_le (entry_total e) pf_zero = true) l
  | Some c => first_largest c l (top_amount st)
  end.

(** The rows the charts hold for an entry of the report. *)
Definition pie_row_of (cd : string * category_data) : pie_row :=
  mk_pie_row (fst cd) (total_amount (snd cd)) (percentage (snd cd)).

Definition bar_row_of (cd : string * category_data) : bar_row :=
  mk_bar_row (fst cd) (total_amount (snd cd)) (budget (snd cd))
             (is_over_budget (snd cd)).

(** [a] may stand before [b] in a chart: its total is not the smaller. *)
Definition not_smaller (a b : string * category_data) : Prop :=
  pf_le (entry_total b) (entry_total a) = true.

(** The number of hyphens of a string. *)
Definition hyphens (s : string) : nat :=
  count_occ ascii_dec (list_ascii_of_string s) "-"%char.

(** The orders of the two listings of [get_budgets]. *)
Definition by_category (a b : string * budget_doc) : Prop :=
  exists x y, b_category (snd a) = Some x /\ b_category (snd b) = Some y
              /\ String.leb x y = true.

Definition by_month_desc (a b : string * budget_doc) : Prop :=
  exists x y, b_month (snd a) = Some x /\ b_month (snd b) = Some y
              /\ String.leb y x = true.

Definition is_json_string (v : json) : bool :=
  match v with JStr _ => true | _ => false end.

(** A body that [add_expense] reads past its amount and that then holds a
    value of the wrong type: a date that is not a string or, the date being
    read, a category or a note that is not a string. *)
Definition wrong_type_after_amount (fields : list (string * json)) : Prop :=
  exists vd vc,
    assoc_get "date" fields = Some vd /\ assoc_get "category" fields = Some vc
    /\ (is_json_string vd = false
        \/ exists s d,
             vd = JStr s /\ strptime_ymd s = Some d
             /\ (is_json_string vc = false
                 \/ exists vn, assoc_get "note" fields = Some vn
                               /\ is_json_string vn = false)).

(** ** Sample data *)

Definition march (day : Z) : datetime := mk_datetime 2024 3 day 0 0 0 0.

Definition sample_expense (category : string) (amount : pyfloat) (day : Z)
  : expense_doc :=
  mk_expense (Some amount) (Some category) (Some (march day)) (Some "")
             (Some (march day)) (Some (march day)).

Definition sample_budget (category : string) (amount : pyfloat) : budget_doc :=
  mk_budget (Some amount) (Some "2024-03") (Some category)
            (Some (march 1)) (Some (march 1)).

(** Expenses Food 30, Food 20, Transport 25 and the budget Food 40. *)
Definition sample_expenses : collection expense_doc :=
  [("e1", sample_expense "Food" 30%float 5);
   ("e2", sample_expense "Food" 20%float 6);
   ("e3", sample_expense "Transport" 25%float 7)].

Definition sample_budgets : collection budget_doc :=
  [("b1", sample_budget "Food" 40%float)].

Definition sample_db : database :=
  db_set empty_database "alice" (mk_user_store sample_budgets sample_expenses).

Definition sample_world : world :=
  mk_world (mk_datetime 2024 3 20 10 0 0 0) (mk_datetime 2024 3 20 10 0 0 1) "doc1".

Definition body_request (data : json) : request :=
  mk_request None None data None.

(** The report expected for the sample data; 66.67 and 33.33 stand for the
    doubles nearest to them. *)
Definition sample_report : report :=
  mk_report "2024-03"
    [("Food", mk_category_data 50%float 2 40%float true 66.67%float);
     ("Transport", mk_category_data 25%float 1 0%float false 33.33%float)]
    (Some ("Food", 50%float))
    1
    75%float
    2
    [mk_pie_row "Food" 50%float 66.67%float;
     mk_pie_row "Transport" 25%float 33.33%float]
    [mk_bar_row "Food" 50%float 40%float true;
     mk_bar_row "Transport" 25%float 0%float false].

(** A well-formed body for a budget of 40 for Food in March 2024. *)
Definition sample_budget_body : json :=
  JObj [("amount", JInt 40); ("month", JStr "2024-03"); ("category", JStr " Food ")].

(** A body for an expense whose category is blank. *)
Definition blank_category_body : json :=
  JObj [("amount", JInt 10); ("category", JStr "   "); ("date", JStr "2024-03-15")].

(** An identity provider that knows one token, of the user alice. *)
Definition sample_verifier (token : string) : option claims :=
  if String.eqb token "token-alice" then Some (mk_claims "alice" None) else None.

Definition authorized_request (header : string) : request :=
  mk_request (Some header) None JNull None.

Definition month_body (month : string) : json :=
  JObj [("amount", JInt 40); ("month", JStr month); ("category", JStr "Food")].

(** A store with two budgets of March 2024, for Food and for Rent. *)
Definition two_budgets_db : database :=
  db_set empty_database "alice"
    (mk_user_store [("b1", sample_budget "Food" 40%float);
                    ("b2", sample_budget "Rent" 900%float)]
                   []).

(** Amounts near the largest double: two budgets and two expenses of 1e308,
    each a finite positive amount, whose sums are infinite. *)
Definition overflow_db : database :=
  db_set empty_database "alice"
    (mk_user_store
       [("b1", sample_budget "Food" 1e308%float);
        ("b2", sample_budget "Rent" 1e308%float)]
       [("e1", sample_expense "Food" 1e308%float 5);
        ("e2", sample_expense "Rent" 1e308%float 6)]).

(** A budget of 1e16 and an expense of 1: both are doubles, their difference
    is not. *)
Definition large_budget_db : database :=
  db_set empty_database "alice"
    (mk_user_store [("b1", sample_budget "Rent" 1e16%float)]
                   [("e1", sample_expense "Rent" 1%float 5)]).

(** Expenses of 1e16, 1 and 1 in three categories. *)
Definition large_expense_db : database :=
  db_set empty_database "alice"
    (mk_user_store []
       [("e1", sample_expense "Rent" 1e16%float 5);
        ("e2", sample_expense "Food" 1%float 6);
        ("e3", sample_expense "Bus" 1%float 7)]).

(* ================================================================== *)
(** * Part II. Properties *)
(* ================================================================== *)

(** ** The order of the doubles *)

Lemma SFcompare_place (f1 f2 : spec_float) :
  SFcompare f1 f2
  = match sf_place f1, sf_place f2 with
    | Some a, Some b => Some (place_compare a b)
    | _, _ => None
    end.
Proof.
  destruct f1 as [[|]|[|]| |[|] m1 e1], f2 as [[|]|[|]| |[|] m2 e2];
    try reflexivity; simpl.
  rewrite Z.compare_opp, (Z.compare_antisym e1 e2).
  destruct (e1 ?= e2); reflexivity.
Qed.

Lemma place_compare_spec (a b : Z * Z * Z) :
  match place_compare a b with
  | Lt => place_lt a b
  | Eq => place_eq a b
  | Gt => place_lt b a
  end.
Proof.
  destruct a as [[a1 a2] a3], b as [[b1 b2] b3]. simpl.
  destruct (Z.compare_spec a1 b1); [|lia..].
  destruct (Z.compare_spec a2 b2); [|lia..].
  destruct (Z.compare_spec a3 b3); lia.
Qed.

Lemma place_order (a b : Z * Z * Z) :
  (place_lt a b -> ~ place_eq a b /\ ~ place_lt b a /\ place_le a b)
  /\ (place_eq a b -> ~ place_lt a b /\ ~ place_lt b a /\ place_le a b)
  /\ (place_le a b <-> place_lt a b \/ place_eq a b).
Proof.
  destruct a as [[a1 a2] a3], b as [[b1 b2] b3]. simpl. lia.
Qed.

(** The comparisons of Python are the comparisons of the places. *)
Lemma pf_lt_iff (a b : pyfloat) : pf_lt a b = true <-> float_lt a b.
Proof.
  unfold pf_lt, float_lt, place. rewrite ltb_spec. unfold SFltb.
  rewrite SFcompare_place.
  destruct (sf_place (Prim2SF a)) as [x|]; [|split; [discriminate|tauto]].
  destruct (sf_place (Prim2SF b)) as [y|]; [|split; [discriminate|tauto]].
  pose proof (place_compare_spec x y) as C.
  pose proof (place_order x y) as [O1 [O2 O3]].
  pose proof (place_order y x) as [P1 _].
  destruct (place_compare x y); split; try discriminate; try reflexivity; tauto.
Qed.

Lemma pf_eq_iff (a b : pyfloat) : pf_eq a b = true <-> float_eq a b.
Proof.
  unfold pf_eq, float_eq, place. rewrite eqb_spec. unfold SFeqb.
  rewrite SFcompare_place.
  destruct (sf_place (Prim2SF a)) as [x|]; [|split; [discriminate|tauto]].
  destruct (sf_place (Prim2SF b)) as [y|]; [|split; [discriminate|tauto]].
  pose proof (place_compare_spec x y) as C.
  pose proof (place_order x y) as [O1 [O2 O3]].
  pose proof (place_order y x) as [P1 _].
  destruct (place_compare x y); split; try discriminate; try reflexivity; tauto.
Qed.

Lemma pf_le_iff (a b : pyfloat) : pf_le a b = true <-> float_le a b.
Proof.
  unfold pf_le, float_le, place. rewrite leb_spec. unfold SFleb.
  rewrite SFcompare_place.
  destruct (sf_place (Prim2SF a)) as [x|]; [|split; [discriminate|tauto]].
  destruct (sf_place (Prim2SF b)) as [y|]; [|split; [discriminate|tauto]].
  pose proof (place_compare_spec x y) as C.
  pose proof (place_order x y) as [O1 [O2 O3]].
  pose proof (place_order y x) as [P1 _].
  destruct (place_compare x y); split; try discriminate; try reflexivity; tauto.
Qed.

Lemma pf_is_nan_iff (a : pyfloat) : pf_is_nan a = false <-> place a <> None.
Proof.
  unfold pf_is_nan, is_nan. rewrite negb_false_iff.
  change ((a =? a)%float = true) with (pf_eq a a = true).
  rewrite pf_eq_iff. unfold float_eq.
  destruct (place a) as [[[x y] z]|]; simpl; intuition congruence.
Qed.

Lemma place_zero : place pf_zero = Some (0, 0, 0).
Proof. reflexivity. Qed.

(** Turns the comparisons of the goal and of the hypotheses into statements
    on places and leaves them to [lia]. *)
Ltac float_order :=
  unfold is_number, nonneg_amount, pf_gt, pf_ge in *;
  repeat match goal with
         | H : pf_lt _ _ = true |- _ => apply pf_lt_iff in H
         | H : pf_le _ _ = true |- _ => apply pf_le_iff in H
         | H : pf_eq _ _ = true |- _ => apply pf_eq_iff in H
         | H : pf_lt _ _ = false |- _ =>
             apply not_true_iff_false in H; rewrite pf_lt_iff in H
         | H : pf_le _ _ = false |- _ =>
             apply not_true_iff_false in H; rewrite pf_le_iff in H
         | H : pf_eq _ _ = false |- _ =>
             apply not_true_iff_false in H; rewrite pf_eq_iff in H
         | H : pf_is_nan _ = false |- _ => apply pf_is_nan_iff in H
         | |- pf_lt _ _ = true => apply pf_lt_iff
         | |- pf_le _ _ = true => apply pf_le_iff
         | |- pf_eq _ _ = true => apply pf_eq_iff
         | |- pf_lt _ _ = false => apply not_true_iff_false; rewrite pf_lt_iff
         | |- pf_le _ _ = false => apply not_true_iff_false; rewrite pf_le_iff
         | |- pf_eq _ _ = false => apply not_true_iff_false; rewrite pf_eq_iff
         | |- pf_is_nan _ = false => apply pf_is_nan_iff
         end;
  unfold float_lt, float_le, float_eq in *;
  rewrite ?place_zero in *;
  repeat match goal with
         | |- context [place ?a] =>
             destruct (place a) as [[[? ?] ?]|]
         | H : context [place ?a] |- _ =>
             destruct (place a) as [[[? ?] ?]|]
         end;
  cbn [place_lt place_le place_eq] in *;
  first [congruence | tauto | lia].

Lemma pf_le_numbers (a b : pyfloat) :
  pf_le a b = true -> is_number a /\ is_number b.
Proof. intro H. split; float_order. Qed.

Lemma pf_lt_false_le (a b : pyfloat) :
  is_number a -> is_number b -> pf_lt a b = false -> pf_le b a = true.
Proof. intros Ha Hb H. float_order. Qed.

Lemma pf_le_false_lt (a b : pyfloat) :
  is_number a -> is_number b -> pf_le a b = false -> pf_lt b a = true.
Proof. intros Ha Hb H. float_order. Qed.

Lemma pf_le_trans (a b c : pyfloat) :
  pf_le a b = true -> pf_le b c = true -> pf_le a c = true.
Proof. intros H1 H2. float_order. Qed.

Lemma pf_lt_le_trans (a b c : pyfloat) :
  pf_lt a b = true -> pf_le b c = true -> pf_lt a c = true.
Proof. intros H1 H2. float_order. Qed.

Lemma pf_le_lt_trans (a b c : pyfloat) :
  pf_le a b = true -> pf_lt b c = true -> pf_lt a c = true.
Proof. intros H1 H2. float_order. Qed.

Lemma pf_lt_trans (a b c : pyfloat) :
  pf_lt a b = true -> pf_lt b c = true -> pf_lt a c = true.
Proof. intros H1 H2. float_order. Qed.

Lemma pf_lt_le (a b : pyfloat) : pf_lt a b = true -> pf_le a b = true.
Proof. intro H. float_order. Qed.



Lemma pf_gt_zero_not_eq (t : pyfloat) :
  pf_gt t pf_zero = true -> pf_eq t pf_zero = false.
Proof. intro H. float_order. Qed.

(** ** What an addition and a rounding can give *)

Lemma shr_1_nonneg (mrs : shr_record) :
  0 <= shr_m mrs -> 0 <= shr_m (shr_1 mrs).
Proof.
  destruct mrs as [m r s]. simpl.
  destruct m as [|[p|p|]|[p|p|]]; simpl; lia.
Qed.

Lemma iter_shr_1_nonneg (p : positive) (mrs : shr_record) :
  0 <= shr_m mrs -> 0 <= shr_m (iter_pos shr_1 p mrs).
Proof.
  revert mrs. induction p as [p IH|p IH|]; intros mrs H; simpl.
  - apply IH, IH, shr_1_nonneg, H.
  - apply IH, IH, H.
  - apply shr_1_nonneg, H.
Qed.

Lemma shr_fexp_nonneg (m e : Z) (l : location) :
  0 <= m -> 0 <= shr_m (fst (shr_fexp prec emax m e l)).
Proof.
  intro H. unfold shr_fexp, shr.
  assert (H0 : 0 <= shr_m (shr_record_of_loc m l)).
  { destruct l as [|[| |]]; exact H. }
  destruct (fexp prec emax (Zdigits2 m + e) - e) as [|p|p]; simpl; auto.
  now apply iter_shr_1_nonneg.
Qed.

Lemma round_nearest_even_nonneg (m : Z) (l : location) :
  0 <= m -> 0 <= round_nearest_even m l.
Proof.
  intro H. destruct l as [|[| |]]; simpl; try lia.
  destruct (Z.even m); lia.
Qed.

(** Rounding a mantissa that is not negative gives a value of the sign
    asked for: a zero, a finite value or an infinity, never NaN. *)
Lemma binary_round_aux_signed (sx : bool) (mx ex : Z) (lx : location) :
  0 <= mx -> sf_signed sx (binary_round_aux prec emax sx mx ex lx).
Proof.
  intro H. unfold binary_round_aux.
  pose proof (shr_fexp_nonneg mx ex lx H) as H1.
  destruct (shr_fexp prec emax mx ex lx) as [mrs' e']. simpl in H1.
  pose proof (shr_fexp_nonneg
                (round_nearest_even (shr_m mrs') (loc_of_shr_record mrs')) e'
                loc_Exact (round_nearest_even_nonneg _ _ H1)) as H2.
  destruct (shr_fexp prec emax
              (round_nearest_even (shr_m mrs') (loc_of_shr_record mrs')) e'
              loc_Exact) as [mrs'' e'']. simpl in H2.
  destruct (shr_m mrs'') as [|m|m]; [exact eq_refl| |lia].
  destruct (e'' <=? emax - prec); exact eq_refl.
Qed.

Lemma binary_round_signed (sx : bool) (mx : positive) (ex : Z) :
  sf_signed sx (binary_round prec emax sx mx ex).
Proof.
  unfold binary_round.
  destruct (shl_align mx ex (fexp prec emax (Z.pos (digits2_pos mx) + ex)))
    as [mz ez].
  apply binary_round_aux_signed. lia.
Qed.

Lemma sf_signed_number (s : bool) (f : spec_float) : sf_signed s f -> sf_number f.
Proof. destruct f; simpl; tauto. Qed.


Lemma binary_normalize_number (m e : Z) (sz : bool) :
  sf_number (binary_normalize prec emax m e sz).
Proof.
  destruct m as [|p|p]; simpl; [exact I| |];
    eapply sf_signed_number; apply binary_round_signed.
Qed.


Lemma sf_place_number (f : spec_float) : sf_place f <> None <-> sf_number f.
Proof. destruct f as [[|]|[|]| |[|] m e]; simpl; intuition congruence. Qed.

Lemma is_number_iff (x : pyfloat) : is_number x <-> sf_number (Prim2SF x).
Proof. unfold is_number. rewrite pf_is_nan_iff. apply sf_place_number. Qed.


Lemma is_finite_number (x : pyfloat) : is_finite x -> is_number x.
Proof.
  rewrite is_number_iff. unfold is_finite, pf_is_finite.
  destruct (Prim2SF x); simpl; auto; discriminate.
Qed.

(** A number plus a finite number is a number: NaN comes only from NaN or
    from two infinities of opposite signs. *)
Lemma pf_add_number (a b : pyfloat) :
  is_number a -> is_finite b -> is_number (pf_add a b).
Proof.
  rewrite !is_number_iff. unfold is_finite, pf_is_finite, pf_add.
  rewrite add_spec. unfold SF64add, SFadd.
  destruct (Prim2SF a) as [[|]|[|]| |sa ma ea];
    destruct (Prim2SF b) as [[|]|[|]| |sb mb eb];
    simpl; try tauto; try discriminate.
  intros _ _. apply binary_normalize_number.
Qed.


Lemma pf_neg_number (x : pyfloat) : is_number x -> is_number (pf_neg x).
Proof.
  rewrite !is_number_iff. unfold pf_neg. rewrite opp_spec.
  destruct (Prim2SF x); simpl; tauto.
Qed.

Lemma ldexp_number (f : float) (e : Z) : is_number f -> is_number (Z.ldexp f e).
Proof.
  rewrite !is_number_iff. unfold Z.ldexp. rewrite ldshiftexp_spec.
  unfold SFldexp.
  destruct (Prim2SF f) as [s|s| |s m ex]; simpl; try tauto.
  intros _. eapply sf_signed_number. apply binary_round_signed.
Qed.

Lemma of_uint63_number (n : PrimInt63.int) : is_number (of_uint63 n).
Proof.
  rewrite is_number_iff, of_uint63_spec. apply binary_normalize_number.
Qed.

Lemma nearest_double_number (q : Q) : is_number (nearest_double q).
Proof.
  unfold nearest_double.
  assert (H : forall p d, is_number (nearest_double_pos p d)).
  { intros p d. unfold nearest_double_pos.
    destruct (scaled_floor p d (Z.log2 p - Z.log2 d - 52)) as [[m0 r0] d0].
    destruct (scaled_floor p d _) as [[m r] den].
    apply ldexp_number, of_uint63_number. }
  destruct (Qnum q); [reflexivity|apply H|].
  apply (pf_neg_number _ (H _ _)).
Qed.

(** [round(x, 2)] of a number is a number. *)
Lemma py_round2_number (x : pyfloat) : is_number x -> is_number (py_round2 x).
Proof.
  intro H. unfold py_round2.
  destruct (exact_value x) as [q|]; [|exact H].
  destruct (Qnum q); [exact H|apply nearest_double_number|].
  apply (pf_neg_number _ (nearest_double_number _)).
Qed.

(** ** Sums *)

Lemma Qsum_app (l1 l2 : list Q) : (Qsum (l1 ++ l2) == Qsum l1 + Qsum l2)%Q.
Proof.
  induction l1 as [|x l1 IH]; simpl.
  - lra.
  - rewrite IH. lra.
Qed.

(** [sum] makes one addition for each element, and nothing else. *)
Lemma py_sum_snoc (l : list pyfloat) (x : pyfloat) :
  py_sum (l ++ [x]) = pf_add (py_sum l) x.
Proof.
  unfold py_sum. now rewrite fold_left_app.
Qed.

Lemma fold_add_number (l : list pyfloat) (acc : pyfloat) :
  is_number acc -> Forall is_finite l -> is_number (fold_left pf_add l acc).
Proof.
  intros Ha H. revert acc Ha. induction H as [|x l Hx _ IH]; intros acc Ha.
  - exact Ha.
  - simpl. apply IH. now apply pf_add_number.
Qed.

(** The sum of finite amounts is a number: an infinity at worst. *)
Lemma py_sum_number (l : list pyfloat) : Forall is_finite l -> is_number (py_sum l).
Proof.
  apply fold_add_number. reflexivity.
Qed.



(** ** The monthly summary *)






(** C1 as stated fails when the sums overflow: with two budgets and two
    expenses of 1e308 (finite, positive amounts) both sums are infinite, the
    remaining budget is NaN and the status is over_budget, although the
    remaining budget is not below zero. *)
Lemma summary_status_fails_on_overflow :
  exists s,
    get_summary "alice" "2024-03" (body_request JNull) overflow_db
    = (overflow_db, mk_response 200 (PSummary s))
    /\ pf_same (s_total_budget s) PrimFloat.infinity = true
    /\ pf_same (s_total_expenses s) PrimFloat.infinity = true
    /\ pf_is_nan (s_remaining_budget s) = true
    /\ s_budget_status s = over_budget
    /\ pf_gt (s_total_budget s) pf_zero = true
    /\ pf_lt (s_remaining_budget s) pf_zero = false.
Proof.
  eexists. split; [reflexivity|]. vm_compute. repeat split.
Qed.



(** C2 as stated fails on doubles: with a budget of 1e16 and an expense of 1
    the two totals are reported as they are, and the remaining budget is
    reported as 1e16, not as their difference 9999999999999999, which is not
    a double. *)
Lemma remaining_not_the_exact_difference :
  exists s,
    get_summary "alice" "2024-03" (body_request JNull) large_budget_db
    = (large_budget_db, mk_response 200 (PSummary s))
    /\ exactly (s_total_budget s) (inject_Z (10 ^ 16))
    /\ exactly (s_total_expenses s) 1
    /\ exactly (s_remaining_budget s) (inject_Z (10 ^ 16))
    /\ ~ (inject_Z (10 ^ 16) == inject_Z (10 ^ 16) - 1)%Q.
Proof.
  eexists. split; [reflexivity|].
  split; [vm_compute; reflexivity|].
  split; [vm_compute; reflexivity|].
  split; [vm_compute; reflexivity|].
  intro H. vm_compute in H. discriminate.
Qed.

(** The reported remaining budget is not the difference of the two reported
    totals: with a budget of 10.004 and an expense of 0.008 the totals are
    reported as 10.0 and 0.01, the remaining budget as 10.0. *)
Example remaining_not_from_rounded_totals :
  let es := [("e", sample_expense "Food" 0.008%float 5)] in
  let bs := [("b", sample_budget "Food" 10.004%float)] in
  let r := summary_response "2024-03" es bs in
  s_total_budget r = 10%float
  /\ s_total_expenses r = 0.01%float
  /\ s_remaining_budget r = 10%float
  /\ pf_sub (s_total_budget r) (s_total_expenses r) = 9.99%float.
Proof. vm_compute. repeat split. Qed.

(** ** The category report: the grouping loop *)

Lemma dict_mem_In {V} (k : string) (d : dict V) :
  dict_mem k d = true <-> In k (map fst d).
Proof.
  unfold dict_mem. induction d as [|[k' v] d IH]; simpl.
  - split; [discriminate|tauto].
  - destruct (String.eqb k k') eqn:E.
    + apply String.eqb_eq in E. subst. split; auto.
    + apply String.eqb_neq in E. rewrite IH. split; [auto|].
      intros [H|H]; [congruence|exact H].
Qed.

Lemma dict_modify_keys {V} (k : string) (f : V -> V) (d : dict V) :
  map fst (dict_modify k f d) = map fst d.
Proof.
  induction d as [|[k' v] d IH]; simpl; [reflexivity|].
  destruct (String.eqb k k'); simpl; [reflexivity|]. now rewrite IH.
Qed.

(** Changing the entry of [k] keeps a property of all entries if the changed
    entry has it and the others keep it. *)
Lemma Forall_dict_modify {V} (P Q : string * V -> Prop) (k : string)
  (f : V -> V) (d : dict V) :
  NoDup (map fst d) ->
  Forall P d ->
  (forall k' v, P (k', v) -> k' <> k -> Q (k', v)) ->
  (forall v, P (k, v) -> Q (k, f v)) ->
  Forall Q (dict_modify k f d).
Proof.
  intros Hnd HP Hother Hsame.
  induction d as [|[k' v] d IH]; simpl; [constructor|].
  inversion Hnd as [|? ? Hnotin Hnd']; subst.
  inversion HP as [|? ? Hhead Htail]; subst.
  destruct (String.eqb k k') eqn:E.
  - apply String.eqb_eq in E. subst k'. constructor.
    + apply Hsame. exact Hhead.
    + rewrite Forall_forall in Htail |- *. intros [k2 v2] Hin.
      apply Hother; [apply Htail; exact Hin|].
      intro Heq. subst k2. apply Hnotin.
      change k with (fst (k, v2)). apply in_map. exact Hin.
  - apply String.eqb_neq in E. constructor.
    + apply Hother; [exact Hhead|congruence].
    + apply IH; assumption.
Qed.

Lemma expenses_of_category_snoc (c : string) (done : collection expense_doc)
  (kd : string * expense_doc) :
  expenses_of_category c (done ++ [kd])
  = expenses_of_category c done
    ++ (if String.eqb (expense_category (snd kd)) c then [kd] else []).
Proof.
  unfold expenses_of_category. rewrite filter_app. simpl.
  destruct (String.eqb (expense_category (snd kd)) c); reflexivity.
Qed.

Lemma expenses_of_category_absent (c : string) (done : collection expense_doc) :
  (forall kd, In kd done -> expense_category (snd kd) <> c) ->
  expenses_of_category c done = [].
Proof.
  intro H. unfold expenses_of_category. induction done as [|kd done IH]; simpl.
  - reflexivity.
  - destruct (String.eqb (expense_category (snd kd)) c) eqn:E.
    + apply String.eqb_eq in E. exfalso. apply (H kd); simpl; auto.
    + apply IH. intros kd' Hin. apply H. simpl. auto.
Qed.

Lemma entry_ok_other (bl : dict pyfloat) (done : collection expense_doc)
  (kd : string * expense_doc) (k : string) (v : category_data) :
  entry_ok bl done (k, v) -> k <> expense_category (snd kd) ->
  entry_ok bl (done ++ [kd]) (k, v).
Proof.
  unfold entry_ok. simpl. intros H Hne.
  rewrite expenses_of_category_snoc.
  assert (E : String.eqb (expense_category (snd kd)) k = false)
    by (apply String.eqb_neq; congruence).
  rewrite E, app_nil_r. exact H.
Qed.

Lemma entry_ok_same (bl : dict pyfloat) (done : collection expense_doc)
  (kd : string * expense_doc) (v : category_data) :
  entry_ok bl done (expense_category (snd kd), v) ->
  entry_ok bl (done ++ [kd])
    (expense_category (snd kd), add_to_category (expense_amount (snd kd)) v).
Proof.
  unfold entry_ok. simpl. intros [T [C [B [O P]]]].
  rewrite expenses_of_category_snoc, String.eqb_refl.
  unfold expense_amounts. rewrite map_app, length_app. cbn [map List.length].
  rewrite py_sum_snoc.
  repeat split; try assumption.
  - fold (expense_amounts (expenses_of_category (expense_category (snd kd)) done)).
    now rewrite T.
  - rewrite C. lia.
Qed.

(** One turn of the grouping loop keeps the invariant. *)
Lemma group_step_shape (bl : dict pyfloat) (done : collection expense_doc)
  (acc : dict category_data * pyfloat) (kd : string * expense_doc) :
  group_shape bl done acc ->
  group_shape bl (done ++ [kd]) (group_step bl acc kd).
Proof.
  destruct acc as [ce tot]. unfold group_shape, group_step. simpl.
  intros [Hnd [Hkeys [Htot Hent]]].
  set (c := expense_category (snd kd)).
  set (a := expense_amount (snd kd)).
  set (fresh := mk_category_data pf_zero 0 (dict_get c pf_zero bl) false pf_zero).
  set (ce1 := if dict_mem c ce then ce else ce ++ [(c, fresh)]).
  assert (Hnd1 : NoDup (map fst ce1)).
  { unfold ce1. destruct (dict_mem c ce) eqn:M; [exact Hnd|].
    rewrite map_app. simpl. apply NoDup_app; [exact Hnd|repeat constructor; auto|].
    intros k Hin [Hk|[]]. subst k. apply dict_mem_In in Hin. congruence. }
  assert (Hkeys1 : forall k, In k (map fst ce1) <-> In k (map fst ce) \/ k = c).
  { intro k. unfold ce1. destruct (dict_mem c ce) eqn:M.
    - apply dict_mem_In in M. split; [auto|]. intros [H|H]; [exact H|now subst].
    - rewrite map_app, in_app_iff. simpl. intuition. }
  assert (Hent1 : Forall (entry_ok bl done) ce1).
  { unfold ce1. destruct (dict_mem c ce) eqn:M; [exact Hent|].
    apply Forall_app. split; [exact Hent|]. constructor; [|constructor].
    unfold entry_ok. simpl.
    rewrite expenses_of_category_absent; [repeat split; reflexivity|].
    intros kd' Hin Heq.
    assert (In c (map fst ce)) by (apply Hkeys; exists kd'; auto).
    apply dict_mem_In in H. congruence. }
  split; [|split; [|split]].
  - rewrite dict_modify_keys. exact Hnd1.
  - intro k. rewrite dict_modify_keys, Hkeys1, Hkeys. split.
    + intros [[kd' [Hin Hc]]|Hk].
      * exists kd'. split; [apply in_or_app; auto|exact Hc].
      * exists kd. split; [apply in_or_app; simpl; auto|now subst].
    + intros [kd' [Hin Hc]]. apply in_app_or in Hin. destruct Hin as [Hin|[Hin|[]]].
      * left. exists kd'. auto.
      * right. subst kd'. now subst.
  - unfold expense_amounts. rewrite map_app. cbn [map]. rewrite py_sum_snoc.
    fold (expense_amounts done). now rewrite Htot.
  - apply (Forall_dict_modify (entry_ok bl done)); try assumption.
    + intros k' v H Hne. apply entry_ok_other; assumption.
    + intros v H. apply entry_ok_same. exact H.
Qed.

Lemma group_fold_shape (bl : dict pyfloat) (rest done : collection expense_doc)
  (acc : dict category_data * pyfloat) :
  group_shape bl done acc ->
  group_shape bl (done ++ rest) (fold_left (group_step bl) rest acc).
Proof.
  revert done acc. induction rest as [|kd rest IH]; intros done acc H; simpl.
  - now rewrite app_nil_r.
  - replace (done ++ kd :: rest) with ((done ++ [kd]) ++ rest)
      by (rewrite <- app_assoc; reflexivity).
    apply IH. apply group_step_shape. exact H.
Qed.

(** What the grouping loop returns. *)
Lemma group_expenses_shape (bl : dict pyfloat) (es : collection expense_doc) :
  group_shape bl es (group_expenses bl es).
Proof.
  unfold group_expenses.
  apply (group_fold_shape bl es [] ([], pf_zero)).
  unfold group_shape. simpl. repeat split.
  - constructor.
  - intros [].
  - intros [kd [[] _]].
  - constructor.
Qed.

(** ** The category report: the second loop *)

Lemma report_fold_categories (total : pyfloat) (l : dict category_data)
  (st : report_state) :
  categories_done (fold_left (report_step total) l st)
  = categories_done st ++ finish_entries total l.
Proof.
  revert st. induction l as [|[c d] l IH]; intro st; simpl.
  - now rewrite app_nil_r.
  - rewrite IH. simpl. now rewrite <- app_assoc.
Qed.

Lemma report_fold_over_count (total : pyfloat) (l : dict category_data)
  (st : report_state) :
  over_budget_count (fold_left (report_step total) l st)
  = (over_budget_count st
     + List.length (filter (fun cd => exceeds_budget (snd cd)) l))%nat.
Proof.
  revert st. induction l as [|[c d] l IH]; intro st; simpl.
  - lia.
  - rewrite IH. simpl. destruct (exceeds_budget d); simpl; lia.
Qed.

(** The entries of the report are the entries of the grouping, each one
    finished by its turn of the second loop. *)
Lemma report_entries (month : string) (es : collection expense_doc)
  (bs : collection budget_doc) :
  r_expenses_by_category (report_of month es bs)
  = finish_entries (snd (group_expenses (budget_lookup_of bs) es))
                   (fst (group_expenses (budget_lookup_of bs) es)).
Proof.
  unfold report_of.
  destruct (group_expenses (budget_lookup_of bs) es) as [ce tot]. simpl.
  now rewrite report_fold_categories.
Qed.

Lemma report_total (month : string) (es : collection expense_doc)
  (bs : collection budget_doc) :
  r_total_expenses (report_of month es bs)
  = py_round2 (snd (group_expenses (budget_lookup_of bs) es)).
Proof.
  unfold report_of.
  destruct (group_expenses (budget_lookup_of bs) es) as [ce tot]. reflexivity.
Qed.

Lemma report_over_count (month : string) (es : collection expense_doc)
  (bs : collection budget_doc) :
  r_over_budget_categories_count (report_of month es bs)
  = List.length
      (filter (fun cd => is_over_budget (snd cd))
              (r_expenses_by_category (report_of month es bs))).
Proof.
  rewrite report_entries. unfold report_of.
  pose proof (group_expenses_shape (budget_lookup_of bs) es) as [_ [_ [_ Hent]]].
  destruct (group_expenses (budget_lookup_of bs) es) as [ce tot]. simpl in *.
  rewrite report_fold_over_count. simpl.
  clear - Hent. induction Hent as [|[c d] l [_ [_ [_ [O _]]]] _ IH]; simpl.
  - reflexivity.
  - simpl in O. rewrite O. destruct (exceeds_budget d); simpl; now rewrite IH.
Qed.

Lemma finish_entries_keys (total : pyfloat) (d : dict category_data) :
  map fst (finish_entries total d) = map fst d.
Proof.
  unfold finish_entries. rewrite map_map. reflexivity.
Qed.

Lemma finish_entries_length (total : pyfloat) (d : dict category_data) :
  List.length (finish_entries total d) = List.length d.
Proof.
  unfold finish_entries. apply length_map.
Qed.

(** ** The category report: totals and percentages *)

Lemma finite_expenses_filter (c : string) (es : collection expense_doc) :
  finite_expenses es ->
  Forall is_finite (expense_amounts (expenses_of_category c es)).
Proof.
  intro H. unfold expense_amounts, expenses_of_category. apply Forall_map.
  unfold finite_expenses in H. rewrite Forall_forall in H |- *. intros kd Hin.
  apply filter_In in Hin. apply H. tauto.
Qed.

(** With finite amounts the amount of every category is a number. *)
Lemma entry_ok_number (bl : dict pyfloat) (es : collection expense_doc)
  (cd : string * category_data) :
  finite_expenses es -> entry_ok bl es cd -> is_number (total_amount (snd cd)).
Proof.
  intros Hfin [T _]. rewrite T.
  apply py_sum_number, finite_expenses_filter, Hfin.
Qed.

(** ** The category report: budgets and flags *)

Lemma dict_get_set {V} (c k : string) (v default : V) (d : dict V) :
  dict_get c default (dict_set k v d)
  = if String.eqb c k then v else dict_get c default d.
Proof.
  unfold dict_get. induction d as [|[k' v'] d IH]; simpl.
  - destruct (String.eqb c k); reflexivity.
  - destruct (String.eqb k k') eqn:E; simpl.
    + apply String.eqb_eq in E. subst k'.
      destruct (String.eqb c k); reflexivity.
    + destruct (String.eqb c k') eqn:E'.
      * apply String.eqb_eq in E'. subst k'.
        rewrite String.eqb_sym in E. now rewrite E.
      * exact IH.
Qed.

(** The budget looked up for a category is the amount of the last budget
    document of that category, and 0 when there is none. *)
Lemma budget_lookup_last (c : string) (bs : collection budget_doc) :
  dict_get c pf_zero (budget_lookup_of bs)
  = match last_budget_of c bs with
    | Some kd => budget_amount (snd kd)
    | None => pf_zero
    end.
Proof.
  unfold budget_lookup_of, last_budget_of.
  induction bs as [|b bs IH] using rev_ind.
  - reflexivity.
  - rewrite fold_left_app, rev_app_distr. simpl.
    rewrite dict_get_set.
    destruct (String.eqb c (budget_category (snd b))); [reflexivity|exact IH].
Qed.

(** Every entry of the report comes from the entry the grouping built for
    its category. *)
Lemma report_entry_origin (month : string) (es : collection expense_doc)
  (bs : collection budget_doc) (c : string) (d : category_data) :
  In (c, d) (r_expenses_by_category (report_of month es bs)) ->
  exists raw,
    In (c, raw) (fst (group_expenses (budget_lookup_of bs) es))
    /\ d = finish_category (snd (group_expenses (budget_lookup_of bs) es)) raw
    /\ entry_ok (budget_lookup_of bs) es (c, raw).
Proof.
  rewrite report_entries. unfold finish_entries. intro Hin.
  apply in_map_iff in Hin. destruct Hin as [[c' raw] [Heq Hin]].
  simpl in Heq. inversion Heq; subst. exists raw.
  split; [exact Hin|]. split; [reflexivity|].
  destruct (group_expenses_shape (budget_lookup_of bs) es) as [_ [_ [_ Hent]]].
  rewrite Forall_forall in Hent. apply (Hent _ Hin).
Qed.






(** C3 as stated fails on doubles: with expenses of 1e16, 1 and 1 in three
    categories the total of the report is 1e16, because 1e16 + 1 is 1e16 in
    doubles, while the amounts of the categories are 1e16, 1 and 1: their sum
    exceeds the total by 2, far more than the two-decimal rounding of three
    amounts can explain. *)
Lemma category_amounts_exceed_total :
  exists r,
    get_report "alice" "2024-03" (body_request JNull) large_expense_db
    = (large_expense_db, mk_response 200 (PReport r))
    /\ map (fun cd => (fst cd, total_amount (snd cd))) (r_expenses_by_category r)
       = [("Rent", 1e16%float); ("Food", 1%float); ("Bus", 1%float)]
    /\ r_total_expenses r = 1e16%float
    /\ exactly 1e16%float (inject_Z (10 ^ 16))
    /\ exactly 1%float 1
    /\ ~ (Qabs (Qsum [inject_Z (10 ^ 16); 1; 1] - inject_Z (10 ^ 16))
          <= 3 * (5 # 1000))%Q.
Proof.
  eexists. split; [reflexivity|].
  split; [vm_compute; reflexivity|].
  split; [vm_compute; reflexivity|].
  split; [vm_compute; reflexivity|].
  split; [vm_compute; reflexivity|].
  intro H. vm_compute in H. apply H. reflexivity.
Qed.

(** The same happens to the percentages when the total overflows: with two
    expenses of 1e308 in two categories the total is infinite and both
    percentages are 0. *)
Example percentages_of_an_infinite_total :
  map (fun cd => (fst cd, percentage (snd cd)))
      (r_expenses_by_category
         (report_of "2024-03" (expenses (overflow_db "alice")) []))
  = [("Food", 0%float); ("Rent", 0%float)].
Proof. vm_compute. reflexivity. Qed.

(** The flag after the second loop, for an entry the grouping built. *)
Lemma finish_category_flag (total : pyfloat) (raw : category_data) :
  is_over_budget raw = false ->
  is_over_budget (finish_category total raw) = true
  <-> pf_gt (budget (finish_category total raw)) pf_zero = true
      /\ pf_gt (total_amount raw) (budget (finish_category total raw)) = true.
Proof.
  intro O. unfold finish_category. cbn [is_over_budget budget].
  rewrite O. unfold exceeds_budget. rewrite <- andb_true_iff.
  destruct (pf_gt (budget raw) pf_zero && pf_gt (total_amount raw) (budget raw));
    tauto.
Qed.

(** A budget for Food and expenses for Transport only: no Food in the report. *)
Example budget_without_expense_not_reported :
  map fst (r_expenses_by_category
             (report_of "2024-03" [("e3", sample_expense "Transport" 25%float 7)]
                        sample_budgets))
  = ["Transport"].
Proof. reflexivity. Qed.

(** C4. On the expenses Food 30, Food 20, Transport 25 with the budget
    Food 40, get_report gives Food (total 50, count 2, budget 40, over budget,
    66.67 percent) and Transport (total 25, count 1, budget 0, not over
    budget, 33.33 percent), Food as the top category with 50, and one category
    over budget.  In every report a category is flagged over budget iff its
    budget is positive and the sum of its expenses, before rounding, exceeds
    it; the categories of the report are those of the expenses, so a category
    that has a budget and no expense is not in it. *)
Theorem report_example_and_over_budget :
  report_of "2024-03" sample_expenses sample_budgets = sample_report
  /\ snd (get_report "alice" "2024-03" (body_request JNull) sample_db)
     = mk_response 200 (PReport sample_report)
  /\ (forall month es bs c d,
        In (c, d) (r_expenses_by_category (report_of month es bs)) ->
        exists raw,
          In (c, raw) (fst (group_expenses (budget_lookup_of bs) es))
          /\ total_amount raw = py_sum (expense_amounts (expenses_of_category c es))
          /\ total_amount d = py_round2 (total_amount raw)
          /\ count d = List.length (expenses_of_category c es)
          /\ budget d = match last_budget_of c bs with
                        | Some kd => budget_amount (snd kd)
                        | None => pf_zero
                        end
          /\ (is_over_budget d = true
              <-> pf_gt (budget d) pf_zero = true
                  /\ pf_gt (total_amount raw) (budget d) = true))
  /\ (forall month es bs,
        r_over_budget_categories_count (report_of month es bs)
        = List.length (filter (fun cd => is_over_budget (snd cd))
                              (r_expenses_by_category (report_of month es bs))))
  /\ (forall month es bs c,
        In c (map fst (r_expenses_by_category (report_of month es bs)))
        <-> exists kd, In kd es /\ expense_category (snd kd) = c)
  /\ (forall month es bs c,
        (forall kd, In kd es -> expense_category (snd kd) <> c) ->
        ~ In c (map fst (r_expenses_by_category (report_of month es bs)))).
Proof.
  assert (Hkeys : forall month es bs c,
             In c (map fst (r_expenses_by_category (report_of month es bs)))
             <-> exists kd, In kd es /\ expense_category (snd kd) = c).
  { intros month es bs c. rewrite report_entries, finish_entries_keys.
    destruct (group_expenses_shape (budget_lookup_of bs) es) as [_ [Hk _]].
    apply Hk. }
  split; [vm_compute; reflexivity|].
  split; [vm_compute; reflexivity|].
  split; [|split; [|split]].
  - intros month es bs c d Hin.
    destruct (report_entry_origin month es bs c d Hin)
      as [raw [Hraw [Hd [T [C [B [O _]]]]]]].
    simpl in T, C, B, O. exists raw. subst d.
    split; [exact Hraw|]. split; [exact T|]. split; [reflexivity|].
    split; [exact C|].
    split; [cbn [budget finish_category]; now rewrite B, budget_lookup_last|].
    apply finish_category_flag. exact O.
  - intros. apply report_over_count.
  - exact Hkeys.
  - intros month es bs c Hnone Hin. apply Hkeys in Hin.
    destruct Hin as [kd [Hin Hc]]. exact (Hnone kd Hin Hc).
Qed.

(** ** Budget creation: uniqueness *)

Lemma opt_string_is_iff (o : option string) (s : string) :
  opt_string_is o s = true <-> o = Some s.
Proof.
  destruct o as [x|]; simpl.
  - rewrite String.eqb_eq. split; congruence.
  - split; discriminate.
Qed.

(** The query of [set_budget] returns exactly the budgets whose month and
    category are the strings asked for. *)
Lemma where_month_category_In (month category : string)
  (c : collection budget_doc) (kd : string * budget_doc) :
  In kd (where_category category (where_month month c))
  <-> In kd c /\ b_month (snd kd) = Some month
      /\ b_category (snd kd) = Some category.
Proof.
  unfold where_category, where_month.
  rewrite !filter_In, !opt_string_is_iff. tauto.
Qed.

Lemma is_nil_false_In {A} (l : list A) (x : A) : In x l -> is_nil l = false.
Proof.
  destruct l; simpl; [contradiction|reflexivity].
Qed.

Lemma is_nil_true {A} (l : list A) : is_nil l = true <-> l = [].
Proof.
  destruct l; simpl; split; congruence.
Qed.

Lemma In_coll_insert {D} (id : string) (doc : D) (c : collection D) :
  In (id, doc) (coll_insert id doc c).
Proof.
  induction c as [|[k d] c IH]; simpl; [auto|].
  destruct (String.ltb id k); simpl; auto.
Qed.

Lemma In_coll_insert_iff {D} (id : string) (doc : D) (c : collection D)
  (kd : string * D) :
  In kd (coll_insert id doc c) <-> kd = (id, doc) \/ In kd c.
Proof.
  induction c as [|[k d] c IH]; simpl.
  - intuition.
  - destruct (String.ltb id k); simpl; [intuition|].
    rewrite IH. intuition.
Qed.

Lemma db_set_same (db : database) (u : string) (s : user_store) :
  db_set db u s u = s.
Proof.
  unfold db_set. now rewrite String.eqb_refl.
Qed.

Lemma db_set_other (db : database) (u u' : string) (s : user_store) :
  u' <> u -> db_set db u s u' = db u'.
Proof.
  intro H. unfold db_set. apply String.eqb_neq in H. now rewrite H.
Qed.

(** The query of [set_budget] is not empty when the collection holds a
    budget of that month and category. *)
Lemma existing_budget_found (month category : string)
  (c : collection budget_doc) (id : string) (b : budget_doc) :
  In (id, b) c ->
  b_month b = Some month ->
  b_category b = Some category ->
  is_nil (where_category category (where_month month c)) = false.
Proof.
  intros Hin Hm Hc. apply (is_nil_false_In _ (id, b)).
  apply where_month_category_In. auto.
Qed.

(** C5. If the store of the user holds a budget whose month and category are
    the month and the category of a request that passes validation, set_budget
    answers with the duplicate error (status 400) and returns the database
    unchanged: the existence check, by equality on both fields, comes before
    the write. *)
Theorem set_budget_duplicate_conflict (w : world) (user_id : string)
  (req : request) (db : database) (amount : pyfloat) (month category : string)
  (id : string) (b : budget_doc) :
  set_budget_validate "Failed to set budget" (json_body req)
    = inr (amount, month, category) ->
  In (id, b) (budgets (db user_id)) ->
  b_month b = Some month ->
  b_category b = Some category ->
  set_budget w user_id req db = (db, duplicate_budget_error).
Proof.
  intros Hval Hin Hm Hc. unfold set_budget. rewrite Hval.
  cbn [bind_check].
  rewrite (existing_budget_found month category (budgets (db user_id)) id b Hin Hm Hc).
  reflexivity.
Qed.

Lemma set_budget_duplicate_conflict_witness :
  set_budget sample_world "alice" (body_request sample_budget_body) sample_db
  = (sample_db, duplicate_budget_error).
Proof.
  apply (set_budget_duplicate_conflict sample_world "alice"
           (body_request sample_budget_body) sample_db
           40%float "2024-03" "Food" "b1" (sample_budget "Food" 40%float)).
  - reflexivity.
  - simpl. left. reflexivity.
  - reflexivity.
  - reflexivity.
Defined.

(** ** Validation: what the checks return *)

Ltac break_match_in H :=
  match type of H with
  | context [match ?x with _ => _ end] =>
      lazymatch x with
      | context [match _ with _ => _ end] => fail
      | _ => destruct x eqn:?
      end
  end.

Ltac check_cases H :=
  repeat (unfold bind_check, or_500, guard, bind_outcome in H;
          first [discriminate H | break_match_in H]).

Lemma require_truthy_fields_inl (msg500 : string) (fields : list string)
  (data : json) (r : response) :
  require_truthy_fields msg500 fields data = inl r ->
  is_client_or_server_error r.
Proof.
  induction fields as [|f fields IH]; simpl; intro H; [discriminate|].
  check_cases H; try (apply IH; exact H);
    inversion H; subst; unfold is_client_or_server_error, missing_field; eauto.
Qed.

Ltac solve_error :=
  unfold is_client_or_server_error, missing_field; eauto.

Lemma validate_amount_inl (msg500 : string) (data : json) (r : response) :
  validate_amount msg500 data = inl r -> is_client_or_server_error r.
Proof.
  unfold validate_amount. intro H.
  check_cases H; inversion H; subst; solve_error.
Qed.

Lemma validate_month_inl (msg500 : string) (data : json) (r : response) :
  validate_month msg500 data = inl r -> is_client_or_server_error r.
Proof.
  unfold validate_month. intro H.
  check_cases H; inversion H; subst; solve_error.
Qed.

Lemma validate_category_inl (msg500 msg400 : string) (data : json) (r : response) :
  validate_category msg500 msg400 data = inl r -> is_client_or_server_error r.
Proof.
  unfold validate_category. intro H.
  check_cases H; inversion H; subst; solve_error.
Qed.

Lemma set_budget_validate_inl (msg500 : string) (data : json) (r : response) :
  set_budget_validate msg500 data = inl r -> is_client_or_server_error r.
Proof.
  unfold set_budget_validate. intro H.
  destruct (truthy data); cbn [guard bind_check] in H;
    [|inversion H; subst; solve_error].
  destruct (require_truthy_fields msg500 ["amount"; "month"; "category"] data)
    as [r1|[]] eqn:R; cbn [bind_check] in H.
  { inversion H; subst. eapply require_truthy_fields_inl. exact R. }
  destruct (validate_amount msg500 data) as [r1|amount] eqn:A; cbn [bind_check] in H.
  { inversion H; subst. eapply validate_amount_inl. exact A. }
  destruct (validate_month msg500 data) as [r1|month] eqn:M; cbn [bind_check] in H.
  { inversion H; subst. eapply validate_month_inl. exact M. }
  destruct (validate_category msg500 "Category is required" data)
    as [r1|category] eqn:C; cbn [bind_check] in H.
  { inversion H; subst. eapply validate_category_inl. exact C. }
  discriminate.
Qed.

Lemma error_status_not_created (r : response) :
  is_client_or_server_error r -> status r <> 201.
Proof.
  intros [code [msg [E [H|H]]]]; subst; simpl; discriminate.
Qed.

(** A budget is created exactly when the body passes validation, no stored
    budget has the same month and category, and the identifier is free. *)
Lemma set_budget_created_iff (w : world) (user_id : string) (req : request)
  (db : database) :
  status (snd (set_budget w user_id req db)) = 201
  <-> exists amount month category,
        set_budget_validate "Failed to set budget" (json_body req)
          = inr (amount, month, category)
        /\ (forall kd, In kd (budgets (db user_id)) ->
                       ~ (b_month (snd kd) = Some month
                          /\ b_category (snd kd) = Some category))
        /\ coll_mem (generated_id w) (budgets (db user_id)) = false.
Proof.
  unfold set_budget.
  destruct (set_budget_validate "Failed to set budget" (json_body req))
    as [r|[[amount month] category]] eqn:V.
  - cbn [bind_check snd]. split.
    + intro H. exfalso.
      exact (error_status_not_created r (set_budget_validate_inl _ _ _ V) H).
    + intros [a [m [c [H _]]]]. discriminate.
  - cbn [bind_check].
    destruct (is_nil (where_category category
                        (where_month month (budgets (db user_id))))) eqn:N.
    + cbn [guard bind_check]. unfold coll_add.
      destruct (coll_mem (generated_id w) (budgets (db user_id))) eqn:M.
      * cbn. split; [discriminate|].
        intros [a [m [c [_ [_ H]]]]]. discriminate.
      * cbn. split; [|reflexivity]. intros _.
        exists amount, month, category. split; [reflexivity|].
        split; [|reflexivity].
        intros kd Hin [Hm Hc]. apply is_nil_true in N.
        assert (In kd (where_category category
                         (where_month month (budgets (db user_id)))))
          by (apply where_month_category_In; auto).
        rewrite N in H. contradiction.
    + cbn. split; [discriminate|].
      intros [a [m [c [E [Hno _]]]]]. inversion E; subst. exfalso.
      destruct (where_category c (where_month m (budgets (db user_id))))
        as [|kd l] eqn:W; [discriminate|].
      assert (Hin : In kd (where_category c (where_month m (budgets (db user_id)))))
        by (rewrite W; simpl; auto).
      apply where_month_category_In in Hin. destruct Hin as [Hin Hmc].
      exact (Hno kd Hin Hmc).
Qed.

(** Whatever the request, [set_budget] either creates one budget, written
    with the validated fields, or leaves the database as it was. *)
Lemma set_budget_effect (w : world) (user_id : string) (req : request)
  (db : database) :
  (exists amount month category,
     set_budget_validate "Failed to set budget" (json_body req)
       = inr (amount, month, category)
     /\ status (snd (set_budget w user_id req db)) = 201
     /\ fst (set_budget w user_id req db)
        = db_set db user_id
            (set_budgets (db user_id)
               (coll_insert (generated_id w)
                  (mk_budget (Some amount) (Some month) (Some category)
                             (Some (now_first w)) (Some (now_second w)))
                  (budgets (db user_id)))))
  \/ (fst (set_budget w user_id req db) = db
      /\ is_client_or_server_error (snd (set_budget w user_id req db))).
Proof.
  unfold set_budget.
  destruct (set_budget_validate "Failed to set budget" (json_body req))
    as [r|[[amount month] category]] eqn:V.
  - right. cbn [bind_check fst snd]. split; [reflexivity|].
    apply (set_budget_validate_inl _ _ _ V).
  - cbn [bind_check].
    destruct (is_nil (where_category category
                        (where_month month (budgets (db user_id))))).
    + cbn [guard bind_check]. unfold coll_add.
      destruct (coll_mem (generated_id w) (budgets (db user_id))).
      * right. cbn. split; [reflexivity|solve_error].
      * left. exists amount, month, category. cbn. auto.
    + right. cbn. split; [reflexivity|solve_error].
Qed.

(** Creating the same budget a second time fails with the duplicate error. *)
Lemma set_budget_twice_conflict (w1 w2 : world) (user_id : string)
  (req : request) (db : database) :
  status (snd (set_budget w1 user_id req db)) = 201 ->
  set_budget w2 user_id req (fst (set_budget w1 user_id req db))
  = (fst (set_budget w1 user_id req db), duplicate_budget_error).
Proof.
  intro H.
  destruct (set_budget_effect w1 user_id req db)
    as [[amount [month [category [V [_ E]]]]]|[_ Herr]].
  - rewrite E. unfold set_budget at 1. rewrite V. cbn [bind_check].
    rewrite db_set_same. cbn [budgets set_budgets].
    rewrite (existing_budget_found month category _ (generated_id w1)
               (mk_budget (Some amount) (Some month) (Some category)
                          (Some (now_first w1)) (Some (now_second w1)))
               (In_coll_insert _ _ _) eq_refl eq_refl).
    reflexivity.
  - exfalso. exact (error_status_not_created _ Herr H).
Qed.

(** The check is by equality of strings and within the store of the user:
    a budget for "food" does not conflict with one for "Food", nor does a
    budget of another user. *)
Example set_budget_other_category_or_user :
  status (snd (set_budget sample_world "alice"
                 (body_request
                    (JObj [("amount", JInt 40); ("month", JStr "2024-03");
                           ("category", JStr "food")]))
                 sample_db)) = 201
  /\ status (snd (set_budget sample_world "bob"
                    (body_request sample_budget_body) sample_db)) = 201.
Proof. split; reflexivity. Qed.

(** ** Amounts *)

(** C6 (amended). For a body that is a JSON object whose amount is refused by
    float() with ValueError or TypeError, or converts to a value <= 0: both
    set_budget and add_expense answer with a 400 error and return the database
    unchanged.  The message is that of the first required field that is
    missing (for set_budget: missing or empty), in the order of the loop over
    the required fields, and that of the amount when none is; so it names the
    amount when the other required fields are there (for set_budget: there
    and not empty). *)
Theorem invalid_amount_rejected (w : world) (user_id : string) (req : request)
  (db : database) (fields : list (string * json)) (v : json) :
  json_body req = JObj fields ->
  assoc_get "amount" fields = Some v ->
  amount_rejected v ->
  (exists msg,
     set_budget w user_id req db = (db, error_response 400 msg)
     /\ msg = rejection_message
                (first_unusable fields ["amount"; "month"; "category"]) v
     /\ (field_truthy fields "month" -> field_truthy fields "category" ->
         amount_error msg))
  /\ (exists msg,
        add_expense w user_id req db = (db, error_response 400 msg)
        /\ msg = rejection_message
                   (first_absent fields ["amount"; "category"; "date"]) v
        /\ (field_present fields "category" -> field_present fields "date" ->
            amount_error msg)).
Proof.
  intros Hb Ha Hrej. split.
  - unfold set_budget, set_budget_validate. rewrite Hb.
    assert (T : truthy (JObj fields) = true).
    { destruct fields; [discriminate|reflexivity]. }
    rewrite T. unfold validate_amount, first_unusable, rejection_message.
    cbn [guard bind_check require_truthy_fields or_500 py_contains py_getitem
         bind_outcome find].
    rewrite Ha.
    cbn [guard bind_check or_500 bind_outcome negb].
    destruct (truthy v) eqn:Tv.
    2:{ cbn. eexists. split; [reflexivity|]. split; [reflexivity|]. intros.
        unfold amount_error. auto. }
    cbn [guard bind_check or_500 bind_outcome negb].
    destruct (assoc_get "month" fields) as [vm|] eqn:Hm.
    2:{ cbn. eexists. split; [reflexivity|]. split; [reflexivity|].
        intros [x [Hx _]]. congruence. }
    cbn [guard bind_check or_500 bind_outcome].
    destruct (truthy vm) eqn:Tm.
    2:{ cbn. eexists. split; [reflexivity|]. split; [reflexivity|].
        intros [x [Hx Hx']]. congruence. }
    cbn [guard bind_check or_500 bind_outcome negb].
    destruct (assoc_get "category" fields) as [vc|] eqn:Hc.
    2:{ cbn. eexists. split; [reflexivity|]. split; [reflexivity|].
        intros _ [x [Hx _]]. congruence. }
    cbn [guard bind_check or_500 bind_outcome].
    destruct (truthy vc) eqn:Tc.
    2:{ cbn. eexists. split; [reflexivity|]. split; [reflexivity|].
        intros _ [x [Hx Hx']]. congruence. }
    cbn [guard bind_check or_500 bind_outcome negb].
    destruct Hrej as [E|[E|[a [E L]]]]; rewrite E; try rewrite L;
      cbn [bind_check]; eexists; (split; [reflexivity|]);
      (split; [reflexivity|]); intros; unfold amount_error; auto.
  - unfold add_expense. rewrite Hb.
    unfold validate_amount, first_absent, rejection_message.
    cbn [guard bind_check require_fields or_500 py_contains py_getitem
         bind_outcome find].
    rewrite Ha.
    cbn [guard bind_check or_500 bind_outcome negb].
    destruct (assoc_get "category" fields) as [vc|] eqn:Hc.
    2:{ cbn. eexists. split; [reflexivity|]. split; [reflexivity|].
        intros [x Hx]. congruence. }
    cbn [guard bind_check or_500 bind_outcome negb].
    destruct (assoc_get "date" fields) as [vd|] eqn:Hd.
    2:{ cbn. eexists. split; [reflexivity|]. split; [reflexivity|].
        intros _ [x Hx]. congruence. }
    cbn [guard bind_check or_500 bind_outcome negb].
    destruct Hrej as [E|[E|[a [E L]]]]; rewrite E; try rewrite L;
      cbn [bind_check]; eexists; (split; [reflexivity|]);
      (split; [reflexivity|]); intros; unfold amount_error; auto.
Qed.

Lemma invalid_amount_rejected_witness :
  set_budget sample_world "alice"
    (body_request (JObj [("amount", JStr "abc"); ("month", JStr "2024-03");
                         ("category", JStr "Food")]))
    sample_db
  = (sample_db, error_response 400 "Invalid amount format")
  /\ add_expense sample_world "alice"
       (body_request (JObj [("amount", JStr "abc"); ("note", JStr "x")]))
       sample_db
     = (sample_db, error_response 400 "Missing required field: category").
Proof.
  split.
  - destruct (invalid_amount_rejected sample_world "alice"
                (body_request (JObj [("amount", JStr "abc"); ("month", JStr "2024-03");
                                     ("category", JStr "Food")]))
                sample_db
                [("amount", JStr "abc"); ("month", JStr "2024-03");
                 ("category", JStr "Food")]
                (JStr "abc"))
      as [[msg [E [M _]]] _].
    + reflexivity.
    + reflexivity.
    + left. reflexivity.
    + rewrite E, M. reflexivity.
  - destruct (invalid_amount_rejected sample_world "alice"
                (body_request (JObj [("amount", JStr "abc"); ("note", JStr "x")]))
                sample_db
                [("amount", JStr "abc"); ("note", JStr "x")]
                (JStr "abc"))
      as [_ [msg [E [M _]]]].
    + reflexivity.
    + reflexivity.
    + left. reflexivity.
    + rewrite E, M. reflexivity.
Defined.

(** C6 as stated fails: a body with the amount -5 and no month is refused by
    set_budget with a message that names the month, not the amount. *)
Lemma invalid_amount_error_names_other_field :
  ~ (forall (w : world) (user_id : string) (req : request) (db : database)
            (fields : list (string * json)) (v : json),
        json_body req = JObj fields ->
        assoc_get "amount" fields = Some v ->
        amount_rejected v ->
        exists msg,
          set_budget w user_id req db = (db, error_response 400 msg)
          /\ amount_error msg).
Proof.
  intro H.
  destruct (H sample_world "alice" (body_request (JObj [("amount", JInt (-5))]))
              empty_database [("amount", JInt (-5))] (JInt (-5))
              eq_refl eq_refl) as [msg [E A]].
  - right. right. exists (-5)%float. split; reflexivity.
  - vm_compute in E. inversion E; subst.
    destruct A as [A|[A|A]]; discriminate.
Qed.

(** What the amended statement leaves out.  "nan" converts to NaN, which is
    not [<= 0]: the budget is created and NaN is stored.  An integer beyond
    the range of doubles makes float() raise OverflowError, which the handler
    of the amount does not catch: the answer is 500. *)
Example set_budget_stores_nan :
  let req := body_request (JObj [("amount", JStr "nan"); ("month", JStr "2024-04");
                                 ("category", JStr "Food")]) in
  status (snd (set_budget sample_world "alice" req sample_db)) = 201
  /\ In ("doc1", mk_budget (Some PrimFloat.nan) (Some "2024-04") (Some "Food")
                           (Some (now_first sample_world))
                           (Some (now_second sample_world)))
        (budgets (fst (set_budget sample_world "alice" req sample_db) "alice")).
Proof. vm_compute. split; [reflexivity|]. right. left. reflexivity. Qed.

Example add_expense_huge_negative_amount :
  let req := body_request (JObj [("amount", JInt (- 10 ^ 400));
                                 ("category", JStr "Food");
                                 ("date", JStr "2024-03-15")]) in
  add_expense sample_world "alice" req sample_db
  = (sample_db, error_response 500 "Failed to add expense").
Proof. vm_compute. reflexivity. Qed.

(** ** Categories *)

Lemma validate_category_inr (msg500 msg400 : string) (data : json) (c : string) :
  validate_category msg500 msg400 data = inr c ->
  c <> ""
  /\ exists s, py_getitem data "category" = Return (JStr s) /\ c = py_strip s.
Proof.
  unfold validate_category, json_strip. intro H.
  check_cases H; inversion H; subst.
  split.
  - intro E. rewrite E in *. discriminate.
  - eexists. split; reflexivity.
Qed.

Lemma set_budget_validate_inr (msg500 : string) (data : json)
  (amount : pyfloat) (month category : string) :
  set_budget_validate msg500 data = inr (amount, month, category) ->
  validate_amount msg500 data = inr amount
  /\ validate_month msg500 data = inr month
  /\ validate_category msg500 "Category is required" data = inr category.
Proof.
  unfold set_budget_validate. intro H.
  destruct (guard (truthy data) (error_response 400 "No data provided"));
    [discriminate|].
  cbn [bind_check] in H.
  destruct (require_truthy_fields msg500 ["amount"; "month"; "category"] data);
    [discriminate|].
  cbn [bind_check] in H.
  destruct (validate_amount msg500 data); [discriminate|].
  cbn [bind_check] in H.
  destruct (validate_month msg500 data); [discriminate|].
  cbn [bind_check] in H.
  destruct (validate_category msg500 "Category is required" data); [discriminate|].
  cbn [bind_check] in H. inversion H. auto.
Qed.

(** [set_budget] refuses a category that is blank, and writes nothing. *)
Lemma set_budget_blank_category (w : world) (user_id : string) (req : request)
  (db : database) (fields : list (string * json)) (s : string) :
  json_body req = JObj fields ->
  assoc_get "category" fields = Some (JStr s) ->
  py_strip s = "" ->
  fst (set_budget w user_id req db) = db
  /\ is_client_or_server_error (snd (set_budget w user_id req db)).
Proof.
  intros Hb Hc Hs.
  destruct (set_budget_effect w user_id req db)
    as [[amount [month [category [V _]]]]|H]; [|exact H].
  exfalso. apply set_budget_validate_inr in V. destruct V as [_ [_ V]].
  apply validate_category_inr in V. destruct V as [Hne [s' [G E]]].
  rewrite Hb in G. simpl in G. rewrite Hc in G. inversion G; subst.
  contradiction.
Qed.

Lemma In_coll_update {D} (id : string) (f : D -> D) (c : collection D)
  (kd : string * D) :
  In kd (coll_update id f c) ->
  In kd c \/ exists d, In (id, d) c /\ kd = (id, f d).
Proof.
  induction c as [|[k d] c IH]; simpl; [tauto|].
  destruct (String.eqb id k) eqn:E; simpl.
  - apply String.eqb_eq in E. subst k. intros [H|H]; [|auto].
    right. exists d. auto.
  - intros [H|H]; [auto|]. destruct (IH H) as [H'|[d' [H1 H2]]]; [auto|].
    right. exists d'. auto.
Qed.

Lemma In_coll_delete {D} (id : string) (c : collection D) (kd : string * D) :
  In kd (coll_delete id c) -> In kd c.
Proof.
  induction c as [|[k d] c IH]; simpl; [tauto|].
  destruct (String.eqb id k); simpl; intuition.
Qed.

(** What [update_budget] does to the database: nothing, or one change of one
    budget by fields that passed validation. *)
Lemma update_budget_effect (w : world) (user_id budget_id : string)
  (req : request) (db : database) :
  fst (update_budget w user_id budget_id req db) = db
  \/ exists u : budget_update,
       fst (update_budget w user_id budget_id req db)
       = db_set db user_id
           (set_budgets (db user_id)
              (coll_update budget_id (apply_update u) (budgets (db user_id))))
       /\ (forall c, u_category u = Some c -> c <> "")
       /\ (forall a, u_amount u = Some a -> pf_le a pf_zero = false).
Proof.
  unfold update_budget.
  match goal with
  | |- context [match ?steps with inl _ => _ | inr _ => _ end] =>
      destruct steps as [r|u] eqn:S
  end.
  - left. reflexivity.
  - destruct (assoc_get budget_id
                (coll_update budget_id (apply_update u) (budgets (db user_id))));
      [|left; reflexivity].
    right. exists u. split; [reflexivity|].
    destruct (guard (truthy (json_body req))
                (error_response 400 "No data provided")); [discriminate|].
    cbn [bind_check] in S.
    destruct (guard (coll_mem budget_id (budgets (db user_id)))
                (error_response 404 "Budget not found")); [discriminate|].
    cbn [bind_check] in S.
    destruct (when_present "Failed to update budget" "amount" (json_body req)
                (validate_amount "Failed to update budget" (json_body req)))
      as [|oa] eqn:A; [discriminate|].
    cbn [bind_check] in S.
    destruct (when_present "Failed to update budget" "category" (json_body req)
                (validate_category "Failed to update budget"
                   "Category cannot be empty" (json_body req)))
      as [|oc] eqn:C; [discriminate|].
    cbn [bind_check] in S.
    destruct (when_present "Failed to update budget" "month" (json_body req)
                (validate_month "Failed to update budget" (json_body req)))
      as [|om] eqn:M; [discriminate|].
    cbn [bind_check] in S. inversion S; subst. simpl. split.
    + intros c Hc. subst oc. unfold when_present in C.
      destruct (or_500 "Failed to update budget"
                  (py_contains "category" (json_body req))) as [|[]];
        cbn [bind_check] in C; try discriminate.
      destruct (validate_category "Failed to update budget"
                  "Category cannot be empty" (json_body req)) eqn:V;
        cbn [bind_check] in C; [discriminate|].
      inversion C; subst. apply validate_category_inr in V. tauto.
    + intros a Ha. subst oa. unfold when_present in A.
      destruct (or_500 "Failed to update budget"
                  (py_contains "amount" (json_body req))) as [|[]];
        cbn [bind_check] in A; try discriminate.
      destruct (validate_amount "Failed to update budget" (json_body req)) eqn:V;
        cbn [bind_check] in A; [discriminate|].
      inversion A; subst. unfold validate_amount in V.
      check_cases V; inversion V; subst; assumption.
Qed.

Lemma apply_update_category (u : budget_update) (b : budget_doc) :
  (forall c, u_category u = Some c -> c <> "") ->
  b_category b <> Some "" ->
  b_category (apply_update u b) <> Some "".
Proof.
  intros Hu Hb. unfold apply_update, or_old. simpl.
  destruct (u_category u) as [c|] eqn:E; [|exact Hb].
  intro H. inversion H. exact (Hu c eq_refl H1).
Qed.

(** The three budget routes keep every stored budget category non-empty. *)
Lemma budget_routes_keep_categories (w : world) (user_id budget_id : string)
  (req : request) (db : database) :
  budget_categories_ok db ->
  budget_categories_ok (fst (set_budget w user_id req db))
  /\ budget_categories_ok (fst (update_budget w user_id budget_id req db))
  /\ budget_categories_ok (fst (delete_budget user_id budget_id req db)).
Proof.
  intro Hok. split; [|split].
  - destruct (set_budget_effect w user_id req db)
      as [[amount [month [category [V [_ E]]]]]|[E _]]; rewrite E; [|exact Hok].
    apply set_budget_validate_inr in V. destruct V as [_ [_ V]].
    apply validate_category_inr in V. destruct V as [Hne _].
    intros u id b Hin. unfold db_set in Hin.
    destruct (String.eqb u user_id) eqn:Eu; [|exact (Hok u id b Hin)].
    simpl in Hin. apply In_coll_insert_iff in Hin. destruct Hin as [Hin|Hin].
    + inversion Hin; subst. simpl. congruence.
    + exact (Hok user_id id b Hin).
  - destruct (update_budget_effect w user_id budget_id req db)
      as [E|[u [E [Hc _]]]]; rewrite E; [exact Hok|].
    intros u' id b Hin. unfold db_set in Hin.
    destruct (String.eqb u' user_id) eqn:Eu; [|exact (Hok u' id b Hin)].
    simpl in Hin. apply In_coll_update in Hin.
    destruct Hin as [Hin|[d [Hin Heq]]].
    + exact (Hok user_id id b Hin).
    + inversion Heq; subst. apply apply_update_category; [exact Hc|].
      exact (Hok user_id budget_id d Hin).
  - unfold delete_budget.
    destruct (coll_mem budget_id (budgets (db user_id))); [|exact Hok].
    simpl. intros u id b Hin. unfold db_set in Hin.
    destruct (String.eqb u user_id) eqn:Eu; [|exact (Hok u id b Hin)].
    simpl in Hin. apply In_coll_delete in Hin. exact (Hok user_id id b Hin).
Qed.

Lemma validate_amount_inr (msg500 : string) (data : json) (a : pyfloat) :
  validate_amount msg500 data = inr a -> pf_le a pf_zero = false.
Proof.
  unfold validate_amount. intro H.
  check_cases H; inversion H; subst; assumption.
Qed.

(** The budget routes only store amounts that passed the validation: a
    finite stored amount is positive. *)
Lemma budget_routes_keep_amounts (w : world) (user_id budget_id : string)
  (req : request) (db : database) :
  budget_amounts_validated db ->
  budget_amounts_validated (fst (set_budget w user_id req db))
  /\ budget_amounts_validated (fst (update_budget w user_id budget_id req db))
  /\ budget_amounts_validated (fst (delete_budget user_id budget_id req db)).
Proof.
  intro Hok. split; [|split].
  - destruct (set_budget_effect w user_id req db)
      as [[amount [month [category [V [_ E]]]]]|[E _]]; rewrite E; [|exact Hok].
    apply set_budget_validate_inr in V. destruct V as [V _].
    apply validate_amount_inr in V.
    intros u id b a Hin Ha. unfold db_set in Hin.
    destruct (String.eqb u user_id) eqn:Eu; [|exact (Hok u id b a Hin Ha)].
    simpl in Hin. apply In_coll_insert_iff in Hin. destruct Hin as [Hin|Hin].
    + inversion Hin; subst. simpl in Ha. inversion Ha; subst. exact V.
    + exact (Hok user_id id b a Hin Ha).
  - destruct (update_budget_effect w user_id budget_id req db)
      as [E|[u [E [_ Hu]]]]; rewrite E; [exact Hok|].
    intros u' id b a Hin Ha. unfold db_set in Hin.
    destruct (String.eqb u' user_id) eqn:Eu; [|exact (Hok u' id b a Hin Ha)].
    simpl in Hin. apply In_coll_update in Hin.
    destruct Hin as [Hin|[d [Hin Heq]]].
    + exact (Hok user_id id b a Hin Ha).
    + inversion Heq; subst. unfold apply_update, or_old in Ha. simpl in Ha.
      destruct (u_amount u) as [a'|] eqn:Eu'.
      * inversion Ha; subst. apply Hu. reflexivity.
      * exact (Hok user_id budget_id d a Hin Ha).
  - unfold delete_budget.
    destruct (coll_mem budget_id (budgets (db user_id))); [|exact Hok].
    simpl. intros u id b a Hin Ha. unfold db_set in Hin.
    destruct (String.eqb u user_id) eqn:Eu; [|exact (Hok u id b a Hin Ha)].
    simpl in Hin. apply In_coll_delete in Hin. exact (Hok user_id id b a Hin Ha).
Qed.

(** C7 fails on add_expense: the body amount 10, category "   " (blank),
    date 2024-03-15 is accepted with status 201 and an expense whose category
    is the empty string is stored, where set_budget and update_budget refuse a
    blank category. *)
Theorem add_expense_stores_blank_category :
  add_expense sample_world "alice" (body_request blank_category_body) empty_database
  = (db_set empty_database "alice"
       (mk_user_store []
          [("doc1",
            mk_expense (Some 10%float) (Some "") (Some (mk_datetime 2024 3 15 0 0 0 0))
                       (Some "") (Some (now_first sample_world))
                       (Some (now_second sample_world)))]),
     mk_response 201
       (PExpense "Expense added successfully" "doc1"
          (mk_expense (Some 10%float) (Some "") (Some (mk_datetime 2024 3 15 0 0 0 0))
                      (Some "") (Some (now_first sample_world))
                      (Some (now_second sample_world)))))
  /\ expense_categories_ok empty_database
  /\ ~ expense_categories_ok
         (fst (add_expense sample_world "alice" (body_request blank_category_body)
                 empty_database)).
Proof.
  split; [vm_compute; reflexivity|]. split.
  - intros u id e Hin. simpl in Hin. contradiction.
  - intro H. apply (H "alice" "doc1"
                      (mk_expense (Some 10%float) (Some "")
                         (Some (mk_datetime 2024 3 15 0 0 0 0))
                         (Some "") (Some (now_first sample_world))
                         (Some (now_second sample_world)))).
    + vm_compute. left. reflexivity.
    + reflexivity.
Qed.

(** ** Months *)

Lemma monthrange_is_calendar (year month : Z) :
  1 <= month <= 12 ->
  monthrange_ndays year month = calendar_month_length year month.
Proof.
  intro H. unfold monthrange_ndays, calendar_month_length, isleap.
  assert (C : month = 1 \/ month = 2 \/ month = 3 \/ month = 4 \/ month = 5
              \/ month = 6 \/ month = 7 \/ month = 8 \/ month = 9 \/ month = 10
              \/ month = 11 \/ month = 12) by lia.
  destruct C as [C|[C|[C|[C|[C|[C|[C|[C|[C|[C|[C|C]]]]]]]]]]]; subst month;
    try reflexivity.
  simpl.
  destruct (Z.eqb_spec (year mod 4) 0), (Z.eqb_spec (year mod 100) 0),
    (Z.eqb_spec (year mod 400) 0); try reflexivity; exfalso;
    Z.div_mod_to_equations; lia.
Qed.

Lemma calendar_month_length_bounds (year month : Z) :
  28 <= calendar_month_length year month <= 31.
Proof.
  unfold calendar_month_length.
  destruct (month =? 2).
  - destruct ((year mod 4 =? 0) && negb (year mod 100 =? 0) || (year mod 400 =? 0));
      lia.
  - destruct ((month =? 4) || (month =? 6) || (month =? 9) || (month =? 11)); lia.
Qed.

Lemma february_length (year : Z) :
  (leap_year year -> calendar_month_length year 2 = 29)
  /\ (~ leap_year year -> calendar_month_length year 2 = 28).
Proof.
  unfold leap_year, calendar_month_length. simpl.
  destruct (Z.eqb_spec (year mod 4) 0), (Z.eqb_spec (year mod 100) 0),
    (Z.eqb_spec (year mod 400) 0); simpl; split; intro H; try reflexivity;
    exfalso; tauto.
Qed.

(** February of 2024 and 2000 has 29 days, of 2023 and 1900 it has 28. *)
Example february_examples :
  monthrange_ndays 2024 2 = 29 /\ monthrange_ndays 2000 2 = 29
  /\ monthrange_ndays 2023 2 = 28 /\ monthrange_ndays 1900 2 = 28.
Proof. repeat split. Qed.

(** For a year in 1..9999 and a month in 1..12 the range is the first second
    of the first day and the last second of the last day. *)
Lemma month_range_try_valid (month_str : string) (year month : Z) :
  month_components month_str = Return (year, month) ->
  1 <= year <= 9999 -> 1 <= month <= 12 ->
  month_range_try month_str
  = Return (month_start year month, month_end year month).
Proof.
  intros Hc Hy Hm. unfold month_range_try. rewrite Hc. cbn [bind_outcome].
  pose proof (calendar_month_length_bounds year month) as Hb.
  rewrite (monthrange_is_calendar year month Hm).
  unfold make_datetime, fits_c_int, in_range, c_int_min, c_int_max.
  rewrite (monthrange_is_calendar year month Hm).
  cbn [forallb].
  repeat match goal with
         | |- context [?a <=? ?b] =>
             lazymatch goal with
             | H : (a <=? b) = true |- _ => fail
             | _ => let E := fresh "E" in
                    assert (E : (a <=? b) = true) by (apply Z.leb_le; lia);
                    rewrite !E
             end
         end.
  reflexivity.
Qed.

Lemma lex_compare_le (a b : list Z) : lex_compare a b <> Gt <-> lex_le a b.
Proof.
  revert b. induction a as [|x a IH]; intros [|y b]; simpl.
  - split; [auto|discriminate].
  - split; [auto|discriminate].
  - split; [congruence|tauto].
  - destruct (Z.compare_spec x y) as [E|L|G].
    + rewrite IH. split; [auto|]. intros [H|[_ H]]; [lia|exact H].
    + split; [auto|discriminate].
    + split; [congruence|lia].
Qed.

Lemma dt_leb_le (a b : datetime) :
  dt_leb a b = true <-> lex_le (dt_fields a) (dt_fields b).
Proof.
  unfold dt_leb, dt_compare. rewrite <- lex_compare_le.
  destruct (lex_compare (dt_fields a) (dt_fields b)); split; congruence.
Qed.

(** A whole-second timestamp lies in the range of a month exactly when it is
    of that year and month. *)
Lemma in_month_range_iff (year month : Z) (d : datetime) :
  whole_second d ->
  dt_leb (month_start year month) d = true /\ dt_leb d (month_end year month) = true
  <-> dt_year d = year /\ dt_month d = month.
Proof.
  intros [Hd [Hh [Hmi [Hs Hu]]]]. rewrite !dt_leb_le.
  destruct d as [y m dd h mi s us].
  unfold dt_fields, month_start, month_end. simpl in *.
  split.
  - intros [H1 H2]. lia.
  - intros [H1 H2]. subst y m. lia.
Qed.

Lemma In_insert_by {A} (leb : A -> A -> bool) (x y : A) (l : list A) :
  In y (insert_by leb x l) <-> y = x \/ In y l.
Proof.
  induction l as [|z l IH]; simpl.
  - intuition.
  - destruct (leb x z); simpl; [intuition|]. rewrite IH. intuition.
Qed.

Lemma In_sort_by {A} (leb : A -> A -> bool) (y : A) (l : list A) :
  In y (sort_by leb l) <-> In y l.
Proof.
  unfold sort_by. induction l as [|x l IH]; simpl; [tauto|].
  rewrite In_insert_by, IH. intuition.
Qed.

(** The range query returns the documents dated within the range. *)
Lemma where_date_between_In (start_date end_date : datetime)
  (c : collection expense_doc) (kd : string * expense_doc) :
  In kd (where_date_between start_date end_date c)
  <-> dated_between start_date end_date c kd.
Proof.
  unfold where_date_between, dated_between, date_between.
  rewrite In_sort_by, filter_In.
  destruct (e_date (snd kd)) as [d|].
  - rewrite andb_true_iff. split.
    + intros [H1 [H2 H3]]. split; [exact H1|]. exists d. auto.
    + intros [H1 [d' [E [H2 H3]]]]. inversion E; subst. auto.
  - split; [intros [_ H]; discriminate|].
    intros [_ [d [E _]]]. discriminate.
Qed.

Lemma where_date_between_desc_In (start_date end_date : datetime)
  (c : collection expense_doc) (kd : string * expense_doc) :
  In kd (where_date_between_desc start_date end_date c)
  <-> dated_between start_date end_date c kd.
Proof.
  unfold where_date_between_desc. rewrite <- in_rev.
  apply where_date_between_In.
Qed.

(** A date read by [parse_date] is a whole-second timestamp (midnight). *)
Lemma make_datetime_whole_second (year month day hour minute second : Z)
  (d : datetime) :
  make_datetime year month day hour minute second = Return d ->
  whole_second d.
Proof.
  unfold make_datetime, in_range. intro H.
  destruct (forallb fits_c_int [year; month; day; hour; minute; second]);
    [|discriminate].
  match type of H with
  | (if ?c then _ else _) = _ => destruct c eqn:C; [|discriminate]
  end.
  inversion H; subst. clear H.
  repeat rewrite andb_true_iff in C. repeat rewrite Z.leb_le in C.
  unfold whole_second. simpl.
  rewrite <- (monthrange_is_calendar year month) by lia. lia.
Qed.

Lemma strptime_whole_second (s : string) (d : datetime) :
  strptime_ymd s = Some d -> whole_second d.
Proof.
  unfold strptime_ymd. intro H.
  repeat match type of H with
         | context [match ?x with _ => _ end] =>
             lazymatch x with
             | context [match _ with _ => _ end] => fail
             | make_datetime _ _ _ _ _ _ => fail
             | _ => destruct x eqn:?; try discriminate H
             end
         end.
  match type of H with
  | context [make_datetime ?y ?m ?dd ?h ?mi ?se] =>
      destruct (make_datetime y m dd h mi se) eqn:M; [|discriminate]
  end.
  inversion H; subst. eapply make_datetime_whole_second. exact M.
Qed.

(** C8. For a month string whose two components read as a year in 1..9999
    and a month in 1..12, get_month_range returns the first day of that month
    at 00:00:00 and its last day at 23:59:59, the last day being the length of
    the month in the calendar (28 to 31, leap years counted); get_expenses,
    get_summary and get_report answer from exactly the expenses dated within
    that range, which for whole-second timestamps are those of that year and
    month. *)
Theorem month_range_is_calendar_month (month_str : string) (year month : Z) :
  month_components month_str = Return (year, month) ->
  1 <= year <= 9999 ->
  1 <= month <= 12 ->
  get_month_range month_str
  = Return (Some (month_start year month, month_end year month))
  /\ monthrange_ndays year month = calendar_month_length year month
  /\ 28 <= calendar_month_length year month <= 31
  /\ (forall w user_id req db,
        args_month req = Some month_str ->
        get_expenses w user_id req db
        = (db,
           mk_response 200
             (PExpenses
                (where_date_between_desc (month_start year month)
                   (month_end year month) (expenses (db user_id)))
                month_str
                (List.length
                   (where_date_between_desc (month_start year month)
                      (month_end year month) (expenses (db user_id)))))))
  /\ (forall user_id req db,
        get_summary user_id month_str req db
        = (db,
           mk_response 200
             (PSummary
                (summary_response month_str
                   (where_date_between (month_start year month)
                      (month_end year month) (expenses (db user_id)))
                   (where_month month_str (budgets (db user_id)))))))
  /\ (forall user_id req db,
        get_report user_id month_str req db
        = (db,
           mk_response 200
             (PReport
                (report_of month_str
                   (where_date_between (month_start year month)
                      (month_end year month) (expenses (db user_id)))
                   (where_month month_str (budgets (db user_id)))))))
  /\ (forall c kd,
        (In kd (where_date_between (month_start year month) (month_end year month) c)
         <-> dated_between (month_start year month) (month_end year month) c kd)
        /\ (In kd (where_date_between_desc (month_start year month)
                     (month_end year month) c)
            <-> dated_between (month_start year month) (month_end year month) c kd))
  /\ (forall d,
        whole_second d ->
        dt_leb (month_start year month) d = true
        /\ dt_leb d (month_end year month) = true
        <-> dt_year d = year /\ dt_month d = month).
Proof.
  intros Hc Hy Hm.
  assert (R : get_month_range month_str
              = Return (Some (month_start year month, month_end year month))).
  { unfold get_month_range.
    now rewrite (month_range_try_valid month_str year month Hc Hy Hm). }
  split; [exact R|].
  split; [apply monthrange_is_calendar; exact Hm|].
  split; [apply calendar_month_length_bounds|].
  split; [|split; [|split; [|split]]].
  - intros w user_id req db Ha. unfold get_expenses. rewrite Ha, R. reflexivity.
  - intros user_id req db. unfold get_summary. rewrite R. reflexivity.
  - intros user_id req db. unfold get_report. rewrite R. reflexivity.
  - intros c kd. split.
    + apply where_date_between_In.
    + apply where_date_between_desc_In.
  - intros d Hd. apply in_month_range_iff. exact Hd.
Qed.

Lemma month_range_is_calendar_month_witness :
  get_month_range "2024-02"
  = Return (Some (mk_datetime 2024 2 1 0 0 0 0, mk_datetime 2024 2 29 23 59 59 0)).
Proof.
  destruct (month_range_is_calendar_month "2024-02" 2024 2) as [H _].
  - reflexivity.
  - lia.
  - lia.
  - exact H.
Defined.

(** ** Authentication *)

Section Authorization.

Variable verify_id_token : string -> option claims.

(** One "Bearer " prefix is removed before the token is verified. *)
Lemma verify_strips_bearer (token : string) :
  verify_firebase_token verify_id_token (String.append "Bearer " token)
  = verify_id_token token.
Proof.
  unfold verify_firebase_token, py_startswith, py_slice_from. simpl.
  assert (E : String.prefix "" token = true) by (destruct token; reflexivity).
  now rewrite E, string_of_list_ascii_of_string.
Qed.

Lemma verify_without_bearer (token : string) :
  py_startswith "Bearer " token = false ->
  verify_firebase_token verify_id_token token = verify_id_token token.
Proof.
  unfold verify_firebase_token. now intros ->.
Qed.

(** C9. On every protected route (the user id of a path is never empty):
    the "Bearer " prefix of the Authorization header, if any, is removed
    before verification; a missing or empty header, and a token the identity
    provider does not verify, give 401; a verified token whose uid is not the
    user id of the path gives 403; otherwise the view function runs on the
    request with the verified claims attached.  In the three failing cases the
    database is returned unchanged and the view function has no part in the
    answer. *)
Theorem require_auth_outcomes (w : world) (r : route) (req : request) (db : database) :
  route_user r <> "" ->
  (forall token,
     verify_firebase_token verify_id_token (String.append "Bearer " token)
     = verify_id_token token)
  /\ (forall token,
        py_startswith "Bearer " token = false ->
        verify_firebase_token verify_id_token token = verify_id_token token)
  /\ (authorization req = None \/ authorization req = Some "" ->
      protected verify_id_token w r req db
      = (db, error_response 401 "Authorization header missing"))
  /\ (forall header,
        authorization req = Some header -> header <> "" ->
        verify_firebase_token verify_id_token header = None ->
        protected verify_id_token w r req db
        = (db, error_response 401 "Invalid or expired token"))
  /\ (forall header decoded,
        authorization req = Some header -> header <> "" ->
        verify_firebase_token verify_id_token header = Some decoded ->
        uid decoded <> route_user r ->
        protected verify_id_token w r req db
        = (db, error_response 403 "Unauthorized access to user data"))
  /\ (forall header decoded,
        authorization req = Some header -> header <> "" ->
        verify_firebase_token verify_id_token header = Some decoded ->
        uid decoded = route_user r ->
        protected verify_id_token w r req db
        = route_handler w r (set_request_user req decoded) db
        /\ request_user (set_request_user req decoded) = Some decoded).
Proof.
  intro Hu.
  split; [apply verify_strips_bearer|].
  split; [apply verify_without_bearer|].
  unfold protected, require_auth.
  split; [|split; [|split]].
  - intros [H|H]; rewrite H; reflexivity.
  - intros header Ha Hne Hv. rewrite Ha.
    apply String.eqb_neq in Hne. rewrite Hne, Hv. reflexivity.
  - intros header decoded Ha Hne Hv Hd. rewrite Ha.
    apply String.eqb_neq in Hne. rewrite Hne, Hv.
    apply String.eqb_neq in Hu. rewrite Hu.
    assert (E : String.eqb (route_user r) (uid decoded) = false)
      by (apply String.eqb_neq; congruence).
    rewrite E. reflexivity.
  - intros header decoded Ha Hne Hv Hd. rewrite Ha.
    apply String.eqb_neq in Hne. rewrite Hne, Hv.
    rewrite <- Hd, String.eqb_refl, andb_false_r. split; reflexivity.
Qed.

End Authorization.

Lemma require_auth_outcomes_witness :
  protected sample_verifier sample_world (GetSummary "alice" "2024-03")
    (authorized_request "Bearer token-alice") sample_db
  = get_summary "alice" "2024-03"
      (set_request_user (authorized_request "Bearer token-alice")
         (mk_claims "alice" None))
      sample_db
  /\ protected sample_verifier sample_world (GetSummary "bob" "2024-03")
       (authorized_request "Bearer token-alice") sample_db
     = (sample_db, error_response 403 "Unauthorized access to user data").
Proof.
  split.
  - destruct (require_auth_outcomes sample_verifier sample_world (GetSummary "alice" "2024-03")
                (authorized_request "Bearer token-alice") sample_db)
      as [_ [_ [_ [_ [_ H]]]]].
    + discriminate.
    + destruct (H "Bearer token-alice" (mk_claims "alice" None)) as [E _].
      * reflexivity.
      * discriminate.
      * reflexivity.
      * reflexivity.
      * exact E.
  - destruct (require_auth_outcomes sample_verifier sample_world (GetSummary "bob" "2024-03")
                (authorized_request "Bearer token-alice") sample_db)
      as [_ [_ [_ [_ [H _]]]]].
    + discriminate.
    + apply (H "Bearer token-alice" (mk_claims "alice" None)).
      * reflexivity.
      * discriminate.
      * reflexivity.
      * discriminate.
Defined.

(** ** Month strings at write time and at read time *)

(** [set_budget] stores any month that has exactly one dash: "2024-13" and
    "ab-cd" are stored as they are. *)
Example set_budget_stores_any_two_part_month :
  (let out := set_budget sample_world "alice"
                (body_request (month_body "2024-13")) empty_database in
   status (snd out) = 201
   /\ map (fun kd => b_month (snd kd)) (budgets (fst out "alice")) = [Some "2024-13"])
  /\ (let out := set_budget sample_world "alice"
                   (body_request (month_body "ab-cd")) empty_database in
      status (snd out) = 201
      /\ map (fun kd => b_month (snd kd)) (budgets (fst out "alice")) = [Some "ab-cd"]).
Proof. vm_compute. repeat split. Qed.

(** The three GET routes answer 400, without a query, when get_month_range
    returns (None, None), and 500 when it raises. *)
Lemma month_not_a_range (w : world) (user_id month : string) (req : request)
  (db : database) :
  (get_month_range month = Return None ->
   get_summary user_id month req db = (db, invalid_month_error)
   /\ get_report user_id month req db = (db, invalid_month_error)
   /\ (args_month req = Some month ->
       get_expenses w user_id req db = (db, invalid_month_error)))
  /\ (forall e, get_month_range month = Raise e ->
      get_summary user_id month req db
      = (db, error_response 500 "Failed to generate summary")
      /\ get_report user_id month req db
         = (db, error_response 500 "Failed to generate report")
      /\ (args_month req = Some month ->
          get_expenses w user_id req db
          = (db, error_response 500 "Failed to retrieve expenses"))).
Proof.
  unfold get_summary, get_report, get_expenses. split.
  - intro H. rewrite H. repeat split. intro Ha. rewrite Ha, H. reflexivity.
  - intros e H. rewrite H. repeat split. intro Ha. rewrite Ha, H. reflexivity.
Qed.

Lemma make_datetime_first_day (year month : Z) :
  make_datetime year month 1 0 0 0
  = if fits_c_int year && fits_c_int month then
      if in_range 1 9999 year && in_range 1 12 month
         && in_range 1 (monthrange_ndays year month) 1
      then Return (mk_datetime year month 1 0 0 0 0)
      else Raise ValueError
    else Raise OverflowError.
Proof.
  unfold make_datetime. cbn [forallb].
  change (fits_c_int 1) with true. change (fits_c_int 0) with true.
  change (in_range 0 23 0) with true. change (in_range 0 59 0) with true.
  rewrite !andb_true_r. reflexivity.
Qed.

Lemma fits_c_int_false (z : Z) :
  fits_c_int z = false <-> z < c_int_min \/ c_int_max < z.
Proof.
  unfold fits_c_int. rewrite andb_false_iff, !Z.leb_gt. tauto.
Qed.

Lemma in_range_true (lo hi z : Z) : in_range lo hi z = true <-> lo <= z <= hi.
Proof.
  unfold in_range. rewrite andb_true_iff, !Z.leb_le. tauto.
Qed.

(** get_month_range gives a range only for a year in 1..9999 and a month in
    1..12; it raises when a component does not fit a C int. *)
Lemma get_month_range_cases (month_str : string) :
  (exists year month,
     month_components month_str = Return (year, month)
     /\ 1 <= year <= 9999 /\ 1 <= month <= 12
     /\ get_month_range month_str
        = Return (Some (month_start year month, month_end year month)))
  \/ (exists year month,
        month_components month_str = Return (year, month)
        /\ (c_int_max < year \/ c_int_max < month \/ year < c_int_min
            \/ month < c_int_min)
        /\ get_month_range month_str = Raise OverflowError)
  \/ ((month_components month_str = Raise ValueError
       \/ exists year month,
            month_components month_str = Return (year, month)
            /\ ~ (1 <= year <= 9999 /\ 1 <= month <= 12))
      /\ get_month_range month_str = Return None).
Proof.
  destruct (month_components month_str) as [[year month]|e] eqn:C.
  - destruct (fits_c_int year && fits_c_int month) eqn:F.
    + destruct (in_range 1 9999 year && in_range 1 12 month) eqn:R.
      * left. exists year, month.
        apply andb_true_iff in R. destruct R as [Ry Rm].
        apply in_range_true in Ry. apply in_range_true in Rm.
        repeat split; try lia.
        unfold get_month_range.
        now rewrite (month_range_try_valid month_str year month C).
      * right. right. split.
        { right. exists year, month. split; [reflexivity|].
          intros [Hy Hm]. apply in_range_true in Hy. apply in_range_true in Hm.
          rewrite Hy, Hm in R. discriminate. }
        unfold get_month_range, month_range_try. rewrite C.
        cbn [bind_outcome]. rewrite make_datetime_first_day, F, R. reflexivity.
    + right. left. exists year, month. split; [reflexivity|]. split.
      * apply andb_false_iff in F.
        destruct F as [F|F]; apply fits_c_int_false in F; lia.
      * unfold get_month_range, month_range_try. rewrite C.
        cbn [bind_outcome]. rewrite make_datetime_first_day, F. reflexivity.
  - right. right.
    assert (e = ValueError).
    { pose proof C as C'. unfold month_components in C'.
      repeat match type of C' with
             | context [match ?x with _ => _ end] =>
                 lazymatch x with
                 | context [match _ with _ => _ end] => fail
                 | _ => destruct x eqn:?; try discriminate C'
                 end
             end; inversion C'; reflexivity. }
    subst e. split; [left; reflexivity|].
    unfold get_month_range, month_range_try. rewrite C. reflexivity.
Qed.

(** A summary or a report is only ever produced for a month that
    get_month_range turns into a range, and from the budgets stored under
    that very string: a budget stored under another month string, or under one
    that is not a month of the calendar, is in no summary and in no report. *)
Lemma summary_only_for_calendar_months (user_id month : string) (req : request)
  (db : database) :
  status (snd (get_summary user_id month req db)) = 200
  \/ status (snd (get_report user_id month req db)) = 200 ->
  exists y m,
    month_components month = Return (y, m)
    /\ 1 <= y <= 9999 /\ 1 <= m <= 12
    /\ snd (get_summary user_id month req db)
       = mk_response 200
           (PSummary
              (summary_response month
                 (where_date_between (month_start y m) (month_end y m)
                    (expenses (db user_id)))
                 (where_month month (budgets (db user_id)))))
    /\ snd (get_report user_id month req db)
       = mk_response 200
           (PReport
              (report_of month
                 (where_date_between (month_start y m) (month_end y m)
                    (expenses (db user_id)))
                 (where_month month (budgets (db user_id)))))
    /\ forall kd, In kd (where_month month (budgets (db user_id))) ->
                  b_month (snd kd) = Some month.
Proof.
  intro H.
  destruct (get_month_range_cases month)
    as [[y [m [C [Hy [Hm R]]]]]|[[y [m [C [_ R]]]]|[_ R]]].
  - exists y, m. split; [exact C|]. split; [exact Hy|]. split; [exact Hm|].
    unfold get_summary, get_report. rewrite R. cbn.
    split; [reflexivity|]. split; [reflexivity|].
    intros kd Hin. unfold where_month in Hin. apply filter_In in Hin.
    apply opt_string_is_iff. tauto.
  - exfalso. unfold get_summary, get_report in H. rewrite R in H.
    cbn in H. destruct H; discriminate.
  - exfalso. unfold get_summary, get_report in H. rewrite R in H.
    cbn in H. destruct H; discriminate.
Qed.

(** C10 fails at the month "2147483648-01": both components read as integers
    (2147483648 and 1) that form no date, yet the year does not fit the C int
    of the datetime constructor, which raises OverflowError; get_month_range
    catches ValueError only, so get_summary, get_report and get_expenses
    answer 500, not 400, while set_budget stores a budget under that month. *)
Theorem overflowing_month_is_500 :
  month_components "2147483648-01" = Return (2147483648, 1)
  /\ get_month_range "2147483648-01" = Raise OverflowError
  /\ get_summary "alice" "2147483648-01" (body_request JNull) sample_db
     = (sample_db, error_response 500 "Failed to generate summary")
  /\ get_report "alice" "2147483648-01" (body_request JNull) sample_db
     = (sample_db, error_response 500 "Failed to generate report")
  /\ get_expenses sample_world "alice"
       (mk_request None (Some "2147483648-01") JNull None) sample_db
     = (sample_db, error_response 500 "Failed to retrieve expenses")
  /\ status (snd (set_budget sample_world "alice"
                    (body_request (month_body "2147483648-01")) sample_db)) = 201
  /\ get_summary "alice" "2147483647-01" (body_request JNull) sample_db
     = (sample_db, invalid_month_error).
Proof. vm_compute. repeat split. Qed.

(* ================================================================== *)
(** * Part III. Further properties of the routes *)
(* ================================================================== *)

(** ** Collections *)

Lemma coll_mem_In {D} (id : string) (c : collection D) :
  coll_mem id c = true <-> In id (map fst c).
Proof. exact (dict_mem_In id c). Qed.

Lemma coll_mem_false {D} (id : string) (c : collection D) :
  coll_mem id c = false <-> ~ In id (map fst c).
Proof.
  rewrite <- coll_mem_In. destruct (coll_mem id c); split; congruence.
Qed.

Lemma coll_insert_keys {D} (id : string) (doc : D) (c : collection D) (k : string) :
  In k (map fst (coll_insert id doc c)) <-> k = id \/ In k (map fst c).
Proof.
  induction c as [|[k' d] c IH]; simpl.
  - intuition.
  - destruct (String.ltb id k'); simpl; [intuition|]. rewrite IH. intuition.
Qed.

Lemma NoDup_coll_insert {D} (id : string) (doc : D) (c : collection D) :
  ~ In id (map fst c) -> NoDup (map fst c) ->
  NoDup (map fst (coll_insert id doc c)).
Proof.
  induction c as [|[k d] c IH]; simpl; intros Hnot Hnd.
  - repeat constructor. auto.
  - destruct (String.ltb id k); simpl.
    + constructor; [simpl; exact Hnot|exact Hnd].
    + inversion Hnd; subst. constructor.
      * rewrite coll_insert_keys. intuition.
      * apply IH; [intuition|assumption].
Qed.

Lemma coll_update_keys {D} (id : string) (f : D -> D) (c : collection D) :
  map fst (coll_update id f c) = map fst c.
Proof.
  induction c as [|[k d] c IH]; simpl; [reflexivity|].
  destruct (String.eqb id k); simpl; [reflexivity|]. now rewrite IH.
Qed.

Lemma coll_delete_In {D} (id : string) (c : collection D) (kd : string * D) :
  NoDup (map fst c) ->
  In kd (coll_delete id c) <-> In kd c /\ fst kd <> id.
Proof.
  induction c as [|[k d] c IH]; simpl; intro Hnd; [tauto|].
  inversion Hnd as [|? ? Hnot Hnd']; subst.
  destruct (String.eqb id k) eqn:E.
  - apply String.eqb_eq in E. subst k. split.
    + intro H. split; [auto|]. intro Heq. apply Hnot. rewrite <- Heq.
      apply in_map. exact H.
    + intros [[H|H] Hne]; [subst kd; simpl in Hne; congruence|exact H].
  - apply String.eqb_neq in E. simpl. rewrite (IH Hnd'). split.
    + intros [H|[H Hne]]; [subst kd; simpl; split; [auto|congruence]|auto].
    + intros [[H|H] Hne]; auto.
Qed.

Lemma NoDup_coll_delete {D} (id : string) (c : collection D) :
  NoDup (map fst c) -> NoDup (map fst (coll_delete id c)).
Proof.
  induction c as [|[k d] c IH]; simpl; intro Hnd; [constructor|].
  inversion Hnd as [|? ? Hnot Hnd']; subst.
  destruct (String.eqb id k); [exact Hnd'|]. simpl. constructor.
  - intro Hin. apply Hnot. apply in_map_iff in Hin.
    destruct Hin as [kd [Hk Hin]]. apply (coll_delete_In id c kd Hnd') in Hin.
    rewrite <- Hk. apply in_map. tauto.
  - apply IH. exact Hnd'.
Qed.

Lemma assoc_get_In {D} (id : string) (c : collection D) (d : D) :
  assoc_get id c = Some d -> In (id, d) c.
Proof.
  induction c as [|[k d'] c IH]; simpl; [discriminate|].
  destruct (String.eqb id k) eqn:E.
  - apply String.eqb_eq in E. subst k. intro H. inversion H. auto.
  - auto.
Qed.

Lemma In_assoc_get {D} (id : string) (c : collection D) (d : D) :
  NoDup (map fst c) -> In (id, d) c -> assoc_get id c = Some d.
Proof.
  induction c as [|[k d'] c IH]; simpl; intros Hnd Hin; [contradiction|].
  inversion Hnd as [|? ? Hnot Hnd']; subst.
  destruct Hin as [H|H].
  - inversion H; subst. now rewrite String.eqb_refl.
  - destruct (String.eqb id k) eqn:E.
    + apply String.eqb_eq in E. subst k. exfalso. apply Hnot.
      change id with (fst (id, d)). apply in_map. exact H.
    + apply IH; assumption.
Qed.

Lemma assoc_get_update_same {D} (id : string) (f : D -> D) (c : collection D) :
  assoc_get id (coll_update id f c) = option_map f (assoc_get id c).
Proof.
  induction c as [|[k d] c IH]; simpl; [reflexivity|].
  destruct (String.eqb id k) eqn:E; simpl; rewrite E; [reflexivity|exact IH].
Qed.

Lemma assoc_get_update_other {D} (id k : string) (f : D -> D) (c : collection D) :
  k <> id -> assoc_get k (coll_update id f c) = assoc_get k c.
Proof.
  intro Hne. induction c as [|[k' d] c IH]; simpl; [reflexivity|].
  destruct (String.eqb id k') eqn:E; simpl.
  - apply String.eqb_eq in E. subst k'.
    apply String.eqb_neq in Hne. now rewrite Hne.
  - destruct (String.eqb k k'); [reflexivity|exact IH].
Qed.

(** ** What the expense route writes *)

Lemma make_datetime_fields (year month day hour minute second : Z) (d : datetime) :
  make_datetime year month day hour minute second = Return d ->
  d = mk_datetime year month day hour minute second 0
  /\ 1 <= year <= 9999 /\ 1 <= month <= 12.
Proof.
  unfold make_datetime, in_range. intro H.
  destruct (forallb fits_c_int [year; month; day; hour; minute; second]);
    [|discriminate].
  match type of H with
  | (if ?c then _ else _) = _ => destruct c eqn:C; [|discriminate]
  end.
  inversion H; subst. clear H.
  repeat rewrite andb_true_iff in C. repeat rewrite Z.leb_le in C.
  split; [reflexivity|lia].
Qed.

Lemma strptime_midnight (s : string) (d : datetime) :
  strptime_ymd s = Some d ->
  whole_second d /\ 1 <= dt_year d <= 9999 /\ 1 <= dt_month d <= 12
  /\ dt_hour d = 0 /\ dt_minute d = 0 /\ dt_second d = 0.
Proof.
  intro H. split; [exact (strptime_whole_second s d H)|].
  unfold strptime_ymd in H.
  repeat match type of H with
         | context [match ?x with _ => _ end] =>
             lazymatch x with
             | context [match _ with _ => _ end] => fail
             | make_datetime _ _ _ _ _ _ => fail
             | _ => destruct x eqn:?; try discriminate H
             end
         end.
  match type of H with
  | context [make_datetime ?y ?m ?dd ?h ?mi ?se] =>
      destruct (make_datetime y m dd h mi se) eqn:M; [|discriminate]
  end.
  inversion H; subst. apply make_datetime_fields in M.
  destruct M as [E [Hy Hm]]. subst d. simpl. repeat split; lia.
Qed.

(** Whatever the request, [add_expense] either stores one expense built from
    validated fields, under an identifier that was free, or leaves the
    database as it was and answers with an error. *)
Lemma add_expense_effect (w : world) (user_id : string) (req : request)
  (db : database) :
  (exists e,
     expense_as_validated e
     /\ coll_mem (generated_id w) (expenses (db user_id)) = false
     /\ add_expense w user_id req db
        = (db_set db user_id
             (set_expenses (db user_id)
                (coll_insert (generated_id w) e (expenses (db user_id)))),
           mk_response 201
             (PExpense "Expense added successfully" (generated_id w) e)))
  \/ (fst (add_expense w user_id req db) = db
      /\ is_client_or_server_error (snd (add_expense w user_id req db))).
Proof.
  unfold add_expense.
  match goal with
  | |- context [match ?steps with inl _ => _ | inr _ => _ end] =>
      destruct steps as [r|[expenses' e]] eqn:S
  end.
  - right. split; [reflexivity|]. simpl.
    destruct (require_fields "Failed to add expense" ["amount"; "category"; "date"]
                (json_body req)) as [r1|[]] eqn:R; cbn [bind_check] in S.
    { inversion S; subst. clear S. revert R. simpl. intro R.
      check_cases R; inversion R; subst; solve_error. }
    destruct (validate_amount "Failed to add expense" (json_body req))
      as [r1|amount] eqn:A; cbn [bind_check] in S.
    { inversion S; subst. eapply validate_amount_inl. exact A. }
    unfold coll_add, parse_date, json_strip, py_get in S.
    check_cases S; inversion S; subst; solve_error.
  - left. exists e.
    destruct (require_fields "Failed to add expense" ["amount"; "category"; "date"]
                (json_body req)) as [r1|[]]; cbn [bind_check] in S;
      [discriminate|].
    destruct (validate_amount "Failed to add expense" (json_body req))
      as [r1|amount] eqn:A; cbn [bind_check] in S; [discriminate|].
    apply validate_amount_inr in A.
    unfold coll_add, parse_date, json_strip, py_get in S.
    check_cases S; inversion S; subst.
    all: split; [|split; reflexivity].
    all: unfold expense_as_validated; simpl.
    all: match goal with
         | H : strptime_ymd _ = Some ?d |- _ =>
             destruct (strptime_midnight _ _ H) as [? [? [? [? [? ?]]]]]
         end.
    all: repeat split; eauto 10.
Qed.

(** ** Who can change what *)

Lemma get_expenses_reads (w : world) (user_id : string) (req : request)
  (db : database) : fst (get_expenses w user_id req db) = db.
Proof.
  unfold get_expenses.
  match goal with
  | |- context [match ?steps with inl _ => _ | inr _ => _ end] => destruct steps
  end; reflexivity.
Qed.

Lemma get_summary_reads (user_id month : string) (req : request)
  (db : database) : fst (get_summary user_id month req db) = db.
Proof.
  unfold get_summary.
  match goal with
  | |- context [match ?steps with inl _ => _ | inr _ => _ end] => destruct steps
  end; reflexivity.
Qed.

Lemma get_report_reads (user_id month : string) (req : request)
  (db : database) : fst (get_report user_id month req db) = db.
Proof.
  unfold get_report.
  match goal with
  | |- context [match ?steps with inl _ => _ | inr _ => _ end] => destruct steps
  end; reflexivity.
Qed.

Lemma read_route_reads (w : world) (r : route) (req : request) (db : database) :
  is_read_route r = true -> fst (route_handler w r req db) = db.
Proof.
  destruct r; simpl; intro H; try discriminate.
  - reflexivity.
  - apply get_expenses_reads.
  - apply get_summary_reads.
  - apply get_report_reads.
Qed.

(** A view function only touches the store of the user of its path. *)
Lemma route_handler_frame (w : world) (r : route) (req : request)
  (db : database) (u : string) :
  u <> route_user r -> fst (route_handler w r req db) u = db u.
Proof.
  intro Hne. destruct r; simpl in *.
  - reflexivity.
  - destruct (set_budget_effect w user_id req db)
      as [[a [m [c [_ [_ E]]]]]|[E _]]; rewrite E;
      [apply db_set_other; exact Hne|reflexivity].
  - destruct (update_budget_effect w user_id budget_id req db)
      as [E|[up [E _]]]; rewrite E;
      [reflexivity|apply db_set_other; exact Hne].
  - unfold delete_budget.
    destruct (coll_mem budget_id (budgets (db user_id))); simpl;
      [apply db_set_other; exact Hne|reflexivity].
  - now rewrite get_expenses_reads.
  - destruct (add_expense_effect w user_id req db) as [[e [_ [_ E]]]|[E _]];
      rewrite E; [simpl; apply db_set_other; exact Hne|reflexivity].
  - now rewrite get_summary_reads.
  - now rewrite get_report_reads.
Qed.

Section Ownership.

Variable verify_id_token : string -> option claims.

(** The wrapper either answers by itself and returns the database as it
    was, or hands a request with verified claims to the view function. *)
Lemma protected_cases (w : world) (r : route) (req : request) (db : database) :
  (exists code msg,
     protected verify_id_token w r req db = (db, error_response code msg)
     /\ (code = 401 \/ code = 403))
  \/ (exists header decoded,
        authorization req = Some header
        /\ verify_firebase_token verify_id_token header = Some decoded
        /\ (route_user r = "" \/ uid decoded = route_user r)
        /\ protected verify_id_token w r req db
           = route_handler w r (set_request_user req decoded) db).
Proof.
  unfold protected, require_auth.
  destruct (authorization req) as [header|] eqn:Ha; [|left; eauto].
  destruct (String.eqb header ""); [left; eauto|].
  destruct (verify_firebase_token verify_id_token header) as [decoded|] eqn:Hv;
    [|left; eauto].
  destruct (String.eqb (route_user r) "") eqn:E1.
  - simpl. right. exists header, decoded. apply String.eqb_eq in E1.
    repeat split; auto.
  - destruct (String.eqb (route_user r) (uid decoded)) eqn:E2; simpl.
    + right. exists header, decoded. apply String.eqb_eq in E2.
      repeat split; auto.
    + left. eauto.
Qed.

(** X1. On a protected route (the user id of the path is not empty) the
    store of every other user is returned as it was, and the database is
    changed only by a write route called with a token that the identity
    provider verifies for the user of the path. *)
Theorem only_owner_writes_own_store (w : world) (r : route) (req : request)
  (db : database) :
  route_user r <> "" ->
  (forall u, u <> route_user r ->
             fst (protected verify_id_token w r req db) u = db u)
  /\ (fst (protected verify_id_token w r req db) <> db ->
      is_read_route r = false
      /\ exists header decoded,
           authorization req = Some header
           /\ verify_firebase_token verify_id_token header = Some decoded
           /\ uid decoded = route_user r).
Proof.
  intro Hu.
  destruct (protected_cases w r req db)
    as [[code [msg [E _]]]|[header [decoded [Ha [Hv [Hd E]]]]]]; rewrite E.
  - split; [reflexivity|]. intro H. exfalso. apply H. reflexivity.
  - split.
    + intros u Hne. apply route_handler_frame. exact Hne.
    + intro Hch. split.
      * destruct (is_read_route r) eqn:R; [|reflexivity].
        exfalso. apply Hch. apply read_route_reads. exact R.
      * exists header, decoded. destruct Hd as [Hd|Hd]; [contradiction|].
        auto.
Qed.

End Ownership.

Lemma only_owner_writes_own_store_witness :
  fst (protected sample_verifier sample_world (SetBudget "alice")
         (mk_request (Some "Bearer token-alice") None (month_body "2024-05") None)
         sample_db) "bob"
  = sample_db "bob".
Proof.
  destruct (only_owner_writes_own_store sample_verifier sample_world
              (SetBudget "alice")
              (mk_request (Some "Bearer token-alice") None (month_body "2024-05") None)
              sample_db) as [H _].
  - simpl. discriminate.
  - apply H. discriminate.
Defined.

(** ** The shape of what is stored *)

Lemma validate_month_inr (msg500 : string) (data : json) (m : string) :
  validate_month msg500 data = inr m ->
  valid_month_format m = true
  /\ exists s, py_getitem data "month" = Return (JStr s) /\ m = py_strip s.
Proof.
  unfold validate_month, json_strip. intro H.
  check_cases H; inversion H; subst.
  split; [assumption|]. eexists. split; reflexivity.
Qed.

Lemma store_ok_db_set (db : database) (u : string) (s : user_store) :
  store_ok db ->
  NoDup (map fst (budgets s)) -> NoDup (map fst (expenses s)) ->
  (forall id b, In (id, b) (budgets s) -> budget_as_validated b) ->
  (forall id e, In (id, e) (expenses s) -> expense_as_validated e) ->
  store_ok (db_set db u s).
Proof.
  intros [Hid [Hb He]] Nb Ne Vb Ve. unfold store_ok, ids_unique, db_set.
  split; [|split].
  - intro u'. destruct (String.eqb u' u); [auto|apply Hid].
  - intros u' id b. destruct (String.eqb u' u); [apply Vb|apply Hb].
  - intros u' id e. destruct (String.eqb u' u); [apply Ve|apply He].
Qed.

Lemma apply_update_validated (u : budget_update) (b : budget_doc) :
  (forall c, u_category u = Some c -> c <> "") ->
  (forall a, u_amount u = Some a -> pf_le a pf_zero = false) ->
  (forall m, u_month u = Some m -> valid_month_format m = true) ->
  budget_as_validated b -> budget_as_validated (apply_update u b).
Proof.
  intros Hc Ha Hm [[a [Ea La]] [[m [Em Vm]] [c [Ec Nc]]]].
  unfold budget_as_validated, apply_update, or_old. simpl.
  split; [|split].
  - destruct (u_amount u) as [a'|] eqn:E; eauto.
  - destruct (u_month u) as [m'|] eqn:E; eauto.
  - destruct (u_category u) as [c'|] eqn:E; eauto.
Qed.

(** The month that [update_budget] writes has the accepted format. *)
Lemma update_budget_month (w : world) (user_id budget_id : string)
  (req : request) (db : database) :
  fst (update_budget w user_id budget_id req db) = db
  \/ exists u : budget_update,
       fst (update_budget w user_id budget_id req db)
       = db_set db user_id
           (set_budgets (db user_id)
              (coll_update budget_id (apply_update u) (budgets (db user_id))))
       /\ (forall c, u_category u = Some c -> c <> "")
       /\ (forall a, u_amount u = Some a -> pf_le a pf_zero = false)
       /\ (forall m, u_month u = Some m -> valid_month_format m = true).
Proof.
  unfold update_budget.
  match goal with
  | |- context [match ?steps with inl _ => _ | inr _ => _ end] =>
      destruct steps as [r|u] eqn:S
  end.
  - left. reflexivity.
  - destruct (assoc_get budget_id
                (coll_update budget_id (apply_update u) (budgets (db user_id))));
      [|left; reflexivity].
    right. exists u. split; [reflexivity|].
    destruct (guard (truthy (json_body req))
                (error_response 400 "No data provided")); [discriminate|].
    cbn [bind_check] in S.
    destruct (guard (coll_mem budget_id (budgets (db user_id)))
                (error_response 404 "Budget not found")); [discriminate|].
    cbn [bind_check] in S.
    destruct (when_present "Failed to update budget" "amount" (json_body req)
                (validate_amount "Failed to update budget" (json_body req)))
      as [|oa] eqn:A; [discriminate|].
    cbn [bind_check] in S.
    destruct (when_present "Failed to update budget" "category" (json_body req)
                (validate_category "Failed to update budget"
                   "Category cannot be empty" (json_body req)))
      as [|oc] eqn:C; [discriminate|].
    cbn [bind_check] in S.
    destruct (when_present "Failed to update budget" "month" (json_body req)
                (validate_month "Failed to update budget" (json_body req)))
      as [|om] eqn:M; [discriminate|].
    cbn [bind_check] in S. inversion S; subst. simpl. split; [|split].
    + intros c Hc. subst oc. unfold when_present in C.
      destruct (or_500 "Failed to update budget"
                  (py_contains "category" (json_body req))) as [|[]];
        cbn [bind_check] in C; try discriminate.
      destruct (validate_category "Failed to update budget"
                  "Category cannot be empty" (json_body req)) eqn:V;
        cbn [bind_check] in C; [discriminate|].
      inversion C; subst. apply validate_category_inr in V. tauto.
    + intros a Ha. subst oa. unfold when_present in A.
      destruct (or_500 "Failed to update budget"
                  (py_contains "amount" (json_body req))) as [|[]];
        cbn [bind_check] in A; try discriminate.
      destruct (validate_amount "Failed to update budget" (json_body req)) eqn:V;
        cbn [bind_check] in A; [discriminate|].
      inversion A; subst. eapply validate_amount_inr. exact V.
    + intros m Hm. subst om. unfold when_present in M.
      destruct (or_500 "Failed to update budget"
                  (py_contains "month" (json_body req))) as [|[]];
        cbn [bind_check] in M; try discriminate.
      destruct (validate_month "Failed to update budget" (json_body req)) eqn:V;
        cbn [bind_check] in M; [discriminate|].
      inversion M; subst. apply validate_month_inr in V. tauto.
Qed.

Lemma route_handler_keeps_store_ok (w : world) (r : route) (req : request)
  (db : database) :
  store_ok db -> store_ok (fst (route_handler w r req db)).
Proof.
  intro Hok. pose proof Hok as [Hid [Hb He]].
  destruct r; simpl.
  - exact Hok.
  - destruct (set_budget_effect w user_id req db)
      as [[a [m [c [V [St E]]]]]|[E _]]; rewrite E; [|exact Hok].
    apply set_budget_created_iff in St.
    destruct St as [a' [m' [c' [V' [_ Hfree]]]]].
    apply set_budget_validate_inr in V. destruct V as [Va [Vm Vc]].
    apply validate_amount_inr in Va. apply validate_month_inr in Vm.
    apply validate_category_inr in Vc.
    apply store_ok_db_set; try assumption; simpl.
    + apply NoDup_coll_insert; [now apply coll_mem_false|apply Hid].
    + apply Hid.
    + intros id b Hin. apply In_coll_insert_iff in Hin. destruct Hin as [Hin|Hin].
      * inversion Hin; subst. unfold budget_as_validated. simpl.
        destruct Vm as [Vm _]. destruct Vc as [Vc _].
        split; [exists a; auto|]. split; [exists m; auto|exists c; auto].
      * exact (Hb user_id id b Hin).
    + apply He.
  - destruct (update_budget_month w user_id budget_id req db)
      as [E|[u [E [Hc [Ha Hm]]]]]; rewrite E; [exact Hok|].
    apply store_ok_db_set; try assumption; simpl.
    + rewrite coll_update_keys. apply Hid.
    + apply Hid.
    + intros id b Hin. apply In_coll_update in Hin.
      destruct Hin as [Hin|[d [Hin Heq]]]; [exact (Hb user_id id b Hin)|].
      inversion Heq; subst. apply apply_update_validated; try assumption.
      exact (Hb user_id budget_id d Hin).
    + apply He.
  - unfold delete_budget.
    destruct (coll_mem budget_id (budgets (db user_id))); [|exact Hok].
    simpl. apply store_ok_db_set; try assumption; simpl.
    + apply NoDup_coll_delete. apply Hid.
    + apply Hid.
    + intros id b Hin. apply In_coll_delete in Hin. exact (Hb user_id id b Hin).
    + apply He.
  - now rewrite get_expenses_reads.
  - destruct (add_expense_effect w user_id req db) as [[e [Ve [Hfree E]]]|[E _]];
      rewrite E; [|exact Hok].
    simpl. apply store_ok_db_set; try assumption; simpl.
    + apply Hid.
    + apply NoDup_coll_insert; [now apply coll_mem_false|apply Hid].
    + apply Hb.
    + intros id e' Hin. apply In_coll_insert_iff in Hin. destruct Hin as [Hin|Hin].
      * inversion Hin; subst. exact Ve.
      * exact (He user_id id e' Hin).
  - now rewrite get_summary_reads.
  - now rewrite get_report_reads.
Qed.

(** X2. Every protected route keeps the database well formed: identifiers
    stay unique within a collection, every stored budget has an amount that
    passed the validation, a month of the accepted format and a category that
    is not empty, and every stored expense has a validated amount, a category,
    a note and a date at midnight of a real day. *)
Theorem routes_keep_store_ok (verify_id_token : string -> option claims)
  (w : world) (r : route) (req : request) (db : database) :
  store_ok db ->
  store_ok (fst (protected verify_id_token w r req db)).
Proof.
  intro Hok.
  destruct (protected_cases verify_id_token w r req db)
    as [[code [msg [E _]]]|[header [decoded [_ [_ [_ E]]]]]]; rewrite E.
  - exact Hok.
  - apply route_handler_keeps_store_ok. exact Hok.
Qed.

Lemma routes_keep_store_ok_witness :
  store_ok (fst (protected sample_verifier sample_world (AddExpense "alice")
                   (mk_request (Some "token-alice") None blank_category_body None)
                   empty_database)).
Proof.
  apply routes_keep_store_ok.
  unfold store_ok, ids_unique, empty_database. simpl.
  repeat split; try constructor; intros; contradiction.
Defined.

(** ** Deleting and updating a budget *)

(** X3. With unique identifiers, deleting a stored budget answers 200, removes
    that budget and nothing else, and a second delete of the same identifier
    answers 404; deleting an identifier that is not stored answers 404 and
    changes nothing. *)
Theorem delete_budget_removes_one (user_id budget_id : string) (req : request)
  (db : database) :
  NoDup (map fst (budgets (db user_id))) ->
  (coll_mem budget_id (budgets (db user_id)) = true ->
   snd (delete_budget user_id budget_id req db)
   = mk_response 200 (PMessage "Budget deleted successfully")
   /\ (forall kd,
         In kd (budgets (fst (delete_budget user_id budget_id req db) user_id))
         <-> In kd (budgets (db user_id)) /\ fst kd <> budget_id)
   /\ expenses (fst (delete_budget user_id budget_id req db) user_id)
      = expenses (db user_id)
   /\ delete_budget user_id budget_id req
        (fst (delete_budget user_id budget_id req db))
      = (fst (delete_budget user_id budget_id req db),
         error_response 404 "Budget not found"))
  /\ (coll_mem budget_id (budgets (db user_id)) = false ->
      delete_budget user_id budget_id req db
      = (db, error_response 404 "Budget not found")).
Proof.
  intro Hnd. split; intro Hm.
  - assert (Eout : delete_budget user_id budget_id req db
                   = (db_set db user_id
                        (set_budgets (db user_id)
                           (coll_delete budget_id (budgets (db user_id)))),
                      mk_response 200 (PMessage "Budget deleted successfully"))).
    { unfold delete_budget. rewrite Hm. reflexivity. }
    rewrite Eout. cbn [fst snd]. rewrite db_set_same.
    cbn [budgets expenses set_budgets].
    split; [reflexivity|]. split; [|split; [reflexivity|]].
    + intro kd. apply coll_delete_In. exact Hnd.
    + unfold delete_budget. rewrite db_set_same. cbn [budgets set_budgets].
      assert (E : coll_mem budget_id (coll_delete budget_id (budgets (db user_id)))
                  = false).
      { apply coll_mem_false. intro Hin. apply in_map_iff in Hin.
        destruct Hin as [kd [Hk Hin]].
        apply (coll_delete_In budget_id _ kd Hnd) in Hin. tauto. }
      rewrite E. reflexivity.
  - unfold delete_budget. rewrite Hm. reflexivity.
Qed.

Lemma delete_budget_removes_one_witness :
  delete_budget "alice" "b1" (body_request JNull)
    (fst (delete_budget "alice" "b1" (body_request JNull) sample_db))
  = (fst (delete_budget "alice" "b1" (body_request JNull) sample_db),
     error_response 404 "Budget not found").
Proof.
  destruct (delete_budget_removes_one "alice" "b1" (body_request JNull) sample_db)
    as [H _].
  - simpl. repeat constructor. simpl. tauto.
  - apply H. reflexivity.
Defined.

Lemma when_present_obj {A} (msg500 k : string) (fields : list (string * json))
  (validate : check A) :
  when_present msg500 k (JObj fields) validate
  = match assoc_get k fields with
    | Some _ => bind_check validate (fun v => inr (Some v))
    | None => inr None
    end.
Proof.
  unfold when_present. simpl. destruct (assoc_get k fields); reflexivity.
Qed.

Lemma validate_amount_obj (msg500 : string) (fields : list (string * json))
  (v : json) (a : pyfloat) :
  assoc_get "amount" fields = Some v ->
  validate_amount msg500 (JObj fields) = inr a ->
  py_float v = Return a /\ pf_le a pf_zero = false.
Proof.
  unfold validate_amount. simpl. intros -> H. simpl in H.
  destruct (py_float v) as [x|[]]; try discriminate.
  destruct (pf_le x pf_zero) eqn:L; [discriminate|].
  inversion H; subst. auto.
Qed.

(** X4. A PUT that succeeds changes the budget of the given identifier only,
    and in it only the fields that the body carries: an absent field keeps
    its stored value, a present amount, category or month is replaced by the
    validated value (the strings stripped), created_at is kept and updated_at
    is set to the time of the request. *)
Theorem update_budget_partial (w : world) (user_id budget_id : string)
  (req : request) (db : database) (fields : list (string * json))
  (b : budget_doc) :
  json_body req = JObj fields ->
  assoc_get budget_id (budgets (db user_id)) = Some b ->
  status (snd (update_budget w user_id budget_id req db)) = 200 ->
  exists b',
    snd (update_budget w user_id budget_id req db)
    = mk_response 200 (PBudget "Budget updated successfully" budget_id b')
    /\ assoc_get budget_id
         (budgets (fst (update_budget w user_id budget_id req db) user_id))
       = Some b'
    /\ (forall k, k <> budget_id ->
          assoc_get k
            (budgets (fst (update_budget w user_id budget_id req db) user_id))
          = assoc_get k (budgets (db user_id)))
    /\ expenses (fst (update_budget w user_id budget_id req db) user_id)
       = expenses (db user_id)
    /\ b_created_at b' = b_created_at b
    /\ b_updated_at b' = Some (now_first w)
    /\ field_after (assoc_get "amount" fields) (b_amount b) (b_amount b')
         (fun v a => py_float v = Return a /\ pf_le a pf_zero = false)
    /\ field_after (assoc_get "category" fields) (b_category b) (b_category b')
         (fun v c => exists s, v = JStr s /\ c = py_strip s /\ c <> "")
    /\ field_after (assoc_get "month" fields) (b_month b) (b_month b')
         (fun v m => exists s, v = JStr s /\ m = py_strip s
                               /\ valid_month_format m = true).
Proof.
  intros Hb Hget Hst. revert Hst. unfold update_budget. rewrite Hb.
  rewrite !when_present_obj.
  destruct (truthy (JObj fields)); cbn [guard bind_check];
    [|simpl; discriminate].
  assert (Hm : coll_mem budget_id (budgets (db user_id)) = true).
  { unfold coll_mem. now rewrite Hget. }
  rewrite Hm. cbn [guard bind_check].
  assert (Va : forall r, validate_amount "Failed to update budget" (JObj fields)
                         = inl r -> status r <> 200).
  { intros r H. apply validate_amount_inl in H.
    destruct H as [code [msg [E [C|C]]]]; subst; simpl; discriminate. }
  assert (Vc : forall r, validate_category "Failed to update budget"
                           "Category cannot be empty" (JObj fields)
                         = inl r -> status r <> 200).
  { intros r H. apply validate_category_inl in H.
    destruct H as [code [msg [E [C|C]]]]; subst; simpl; discriminate. }
  assert (Vm : forall r, validate_month "Failed to update budget" (JObj fields)
                         = inl r -> status r <> 200).
  { intros r H. apply validate_month_inl in H.
    destruct H as [code [msg [E [C|C]]]]; subst; simpl; discriminate. }
  destruct (assoc_get "amount" fields) as [va|] eqn:Ea;
    [destruct (validate_amount "Failed to update budget" (JObj fields))
       as [r|a] eqn:Ha;
     [intro H; exfalso; exact (Va r eq_refl H)|
      apply (validate_amount_obj _ _ va a Ea) in Ha]|];
  cbn [bind_check];
  (destruct (assoc_get "category" fields) as [vc|] eqn:Ec;
    [destruct (validate_category "Failed to update budget"
                 "Category cannot be empty" (JObj fields)) as [r|c] eqn:Hc;
     [intro H; exfalso; exact (Vc r eq_refl H)|
      apply validate_category_inr in Hc; simpl in Hc; rewrite Ec in Hc;
      destruct Hc as [Hne [s [Hs Hc]]]; inversion Hs; subst vc]|]);
  cbn [bind_check];
  (destruct (assoc_get "month" fields) as [vm|] eqn:Em;
    [destruct (validate_month "Failed to update budget" (JObj fields))
       as [r|m] eqn:Hmo;
     [intro H; exfalso; exact (Vm r eq_refl H)|
      apply validate_month_inr in Hmo; simpl in Hmo; rewrite Em in Hmo;
      destruct Hmo as [Hfmt [s' [Hs' Hmo]]]; inversion Hs'; subst vm]|]);
  cbn [bind_check];
  rewrite assoc_get_update_same, Hget; cbn [option_map fst snd]; intros _;
  eexists; (split; [reflexivity|]);
  rewrite db_set_same; cbn [budgets expenses set_budgets];
  rewrite assoc_get_update_same, Hget; cbn [option_map];
  (split; [reflexivity|]);
  (split; [intros k Hk; apply assoc_get_update_other; exact Hk|]);
  unfold field_after, apply_update, or_old; simpl;
  repeat split; eauto 10.
Qed.

Lemma update_budget_partial_witness :
  exists b',
    snd (update_budget sample_world "alice" "b1"
           (body_request (JObj [("amount", JInt 55)])) sample_db)
    = mk_response 200 (PBudget "Budget updated successfully" "b1" b')
    /\ b_category b' = Some "Food".
Proof.
  destruct (update_budget_partial sample_world "alice" "b1"
              (body_request (JObj [("amount", JInt 55)])) sample_db
              [("amount", JInt 55)] (sample_budget "Food" 40%float))
    as [b' [E [_ [_ [_ [_ [_ [_ [C _]]]]]]]]].
  - reflexivity.
  - reflexivity.
  - reflexivity.
  - exists b'. split; [exact E|exact C].
Defined.


(** ** One budget for a month and a category *)

Lemma filter_coll_insert_length {D} (p : string * D -> bool) (id : string)
  (doc : D) (c : collection D) :
  List.length (filter p (coll_insert id doc c))
  = ((if p (id, doc) then 1 else 0) + List.length (filter p c))%nat.
Proof.
  induction c as [|[k d] c IH]; simpl.
  - destruct (p (id, doc)); reflexivity.
  - destruct (String.ltb id k); simpl.
    + destruct (p (id, doc)); simpl; reflexivity.
    + destruct (p (k, d)); simpl; rewrite IH; lia.
Qed.

Lemma where_both_filter (month category : string) (c : collection budget_doc) :
  where_category category (where_month month c)
  = filter (fun kd => opt_string_is (b_month (snd kd)) month
                      && opt_string_is (b_category (snd kd)) category) c.
Proof.
  unfold where_category, where_month.
  induction c as [|kd c IH]; simpl; [reflexivity|].
  destruct (opt_string_is (b_month (snd kd)) month); simpl.
  - destruct (opt_string_is (b_category (snd kd)) category); simpl;
      now rewrite IH.
  - exact IH.
Qed.

Lemma singleton_of_length {A} (l : list A) (x : A) :
  List.length l = 1%nat -> In x l -> l = [x].
Proof.
  destruct l as [|y [|z l]]; simpl; try discriminate.
  intros _ [H|[]]. now subst.
Qed.

(** X5. When set_budget answers 201, the new budget is afterwards the only
    budget of the user with its month and category, a store that had at most
    one budget for each month and category still has, and get_budgets for
    that month lists the new budget. *)
Theorem set_budget_creates_the_only_one (w : world) (user_id : string)
  (req req' : request) (db : database) :
  status (snd (set_budget w user_id req db)) = 201 ->
  exists amount month category,
    let doc := mk_budget (Some amount) (Some month) (Some category)
                         (Some (now_first w)) (Some (now_second w)) in
    let db' := fst (set_budget w user_id req db) in
    set_budget_validate "Failed to set budget" (json_body req)
    = inr (amount, month, category)
    /\ snd (set_budget w user_id req db)
       = mk_response 201
           (PBudget "Budget created successfully" (generated_id w) doc)
    /\ where_category category (where_month month (budgets (db' user_id)))
       = [(generated_id w, doc)]
    /\ (budgets_unique (budgets (db user_id)) ->
        budgets_unique (budgets (db' user_id)))
    /\ (args_month req' = Some month ->
        exists l total n,
          get_budgets user_id req' db'
          = (db', mk_response 200 (PBudgets l month total n))
          /\ In (generated_id w, doc) l).
Proof.
  intro Hst.
  pose proof (proj1 (set_budget_created_iff w user_id req db) Hst)
    as [amount [month [category [V [Hnone Hfree]]]]].
  exists amount, month, category. cbn zeta.
  assert (E : set_budget w user_id req db
              = (db_set db user_id
                   (set_budgets (db user_id)
                      (coll_insert (generated_id w)
                         (mk_budget (Some amount) (Some month) (Some category)
                                    (Some (now_first w)) (Some (now_second w)))
                         (budgets (db user_id)))),
                 mk_response 201
                   (PBudget "Budget created successfully" (generated_id w)
                      (mk_budget (Some amount) (Some month) (Some category)
                                 (Some (now_first w)) (Some (now_second w)))))).
  { unfold set_budget. rewrite V. cbn [bind_check].
    destruct (where_category category (where_month month (budgets (db user_id))))
      as [|kd l] eqn:W.
    - cbn [is_nil guard bind_check]. unfold coll_add. rewrite Hfree. reflexivity.
    - exfalso. assert (Hin : In kd (kd :: l)) by (simpl; auto).
      rewrite <- W in Hin. apply where_month_category_In in Hin.
      destruct Hin as [Hin Hmc]. exact (Hnone kd Hin Hmc). }
  rewrite E. cbn [fst snd]. rewrite db_set_same. cbn [budgets set_budgets].
  set (doc := mk_budget (Some amount) (Some month) (Some category)
                        (Some (now_first w)) (Some (now_second w))).
  assert (Hold : where_category category (where_month month (budgets (db user_id)))
                 = []).
  { destruct (where_category category (where_month month (budgets (db user_id))))
      as [|kd l] eqn:W; [reflexivity|].
    exfalso. assert (Hin : In kd (kd :: l)) by (simpl; auto).
    rewrite <- W in Hin. apply where_month_category_In in Hin.
    destruct Hin as [Hin Hmc]. exact (Hnone kd Hin Hmc). }
  split; [exact V|]. split; [reflexivity|]. split; [|split].
  - apply singleton_of_length.
    + rewrite where_both_filter, filter_coll_insert_length, <- where_both_filter.
      rewrite Hold. simpl. now rewrite !String.eqb_refl.
    + apply where_month_category_In. split; [apply In_coll_insert|].
      split; reflexivity.
  - intros Hu m c.
    rewrite where_both_filter, filter_coll_insert_length, <- where_both_filter.
    cbn [snd b_month b_category doc opt_string_is].
    destruct (String.eqb month m) eqn:Em; [|simpl; apply Hu].
    destruct (String.eqb category c) eqn:Ec; [|simpl; apply Hu].
    apply String.eqb_eq in Em. apply String.eqb_eq in Ec. subst m c.
    rewrite Hold. simpl. lia.
  - intro Ha. unfold get_budgets. rewrite Ha, db_set_same.
    cbn [budgets set_budgets].
    apply set_budget_validate_inr in V. destruct V as [_ [Vm _]].
    apply validate_month_inr in Vm. destruct Vm as [Vm _].
    unfold valid_month_format in Vm. apply andb_true_iff in Vm.
    destruct Vm as [Vm _]. apply negb_true_iff in Vm. rewrite Vm.
    eexists. eexists. eexists. split; [reflexivity|].
    unfold budgets_of_month. apply In_sort_by. apply filter_In. split.
    + unfold where_month. apply filter_In. split; [apply In_coll_insert|].
      simpl. apply String.eqb_refl.
    + reflexivity.
Qed.

Lemma set_budget_creates_the_only_one_witness :
  exists amount month category,
    where_category category
      (where_month month
         (budgets (fst (set_budget sample_world "alice"
                          (body_request (month_body "2024-05")) sample_db) "alice")))
    = [("doc1", mk_budget (Some amount) (Some month) (Some category)
                          (Some (now_first sample_world))
                          (Some (now_second sample_world)))].
Proof.
  destruct (set_budget_creates_the_only_one sample_world "alice"
              (body_request (month_body "2024-05")) (body_request JNull) sample_db)
    as [amount [month [category [_ [_ [H _]]]]]].
  - reflexivity.
  - exists amount, month, category. exact H.
Defined.

(** X6. update_budget makes no such check: a PUT that gives a budget the
    month and the category of another stored budget answers 200 and leaves two
    budgets with the same month and category. *)
Theorem update_budget_can_duplicate (w : world) (user_id id1 id2 : string)
  (db : database) (b1 b2 : budget_doc) (month category : string) :
  id1 <> id2 ->
  assoc_get id1 (budgets (db user_id)) = Some b1 ->
  assoc_get id2 (budgets (db user_id)) = Some b2 ->
  b_month b1 = Some month ->
  b_category b1 = Some category ->
  py_strip month = month ->
  valid_month_format month = true ->
  py_strip category = category ->
  category <> "" ->
  status (snd (update_budget w user_id id2
                 (body_request (JObj [("category", JStr category);
                                      ("month", JStr month)]))
                 db)) = 200
  /\ ~ budgets_unique
         (budgets (fst (update_budget w user_id id2
                          (body_request (JObj [("category", JStr category);
                                               ("month", JStr month)]))
                          db) user_id)).
Proof.
  intros Hne H1 H2 Hm Hc Sm Vm Sc Nc.
  assert (M2 : coll_mem id2 (budgets (db user_id)) = true)
    by (unfold coll_mem; now rewrite H2).
  assert (Nc' : String.eqb category "" = false) by (now apply String.eqb_neq).
  assert (E : update_budget w user_id id2
                (body_request (JObj [("category", JStr category);
                                     ("month", JStr month)])) db
              = (db_set db user_id
                   (set_budgets (db user_id)
                      (coll_update id2
                         (apply_update
                            (mk_budget_update None (Some category) (Some month)
                                              (now_first w)))
                         (budgets (db user_id)))),
                 mk_response 200
                   (PBudget "Budget updated successfully" id2
                      (apply_update
                         (mk_budget_update None (Some category) (Some month)
                                           (now_first w)) b2)))).
  { unfold update_budget, body_request. cbn [json_body truthy guard bind_check].
    rewrite M2. cbn [guard bind_check].
    rewrite !when_present_obj. simpl assoc_get. cbn [bind_check].
    unfold validate_category, validate_month. simpl.
    rewrite Sc, Sm, Nc', Vm. simpl.
    rewrite assoc_get_update_same, H2. reflexivity. }
  rewrite E. cbn [fst snd status]. split; [reflexivity|].
  rewrite db_set_same. cbn [budgets set_budgets].
  intro Hu. specialize (Hu month category).
  set (c' := coll_update id2 _ (budgets (db user_id))) in *.
  assert (I1 : In (id1, b1) (where_category category (where_month month c'))).
  { apply where_month_category_In. split; [|auto].
    apply assoc_get_In. unfold c'. rewrite assoc_get_update_other; auto. }
  assert (I2 : In (id2, apply_update
                          (mk_budget_update None (Some category) (Some month)
                                            (now_first w)) b2)
                  (where_category category (where_month month c'))).
  { apply where_month_category_In. split; [|split; reflexivity].
    apply assoc_get_In. unfold c'. rewrite assoc_get_update_same, H2. reflexivity. }
  destruct (where_category category (where_month month c')) as [|x [|y l]];
    simpl in *; try lia; try contradiction.
  destruct I1 as [I1|[]]. destruct I2 as [I2|[]]. subst x. inversion I2.
  contradiction.
Qed.

Lemma update_budget_can_duplicate_witness :
  status (snd (update_budget sample_world "alice" "b2"
                 (body_request (JObj [("category", JStr "Food");
                                      ("month", JStr "2024-03")]))
                 two_budgets_db)) = 200.
Proof.
  refine (proj1 (update_budget_can_duplicate sample_world "alice" "b1" "b2"
                   two_budgets_db (sample_budget "Food" 40%float)
                   (sample_budget "Rent" 900%float) "2024-03" "Food"
                   _ _ _ _ _ _ _ _ _)).
  - discriminate.
  - reflexivity.
  - reflexivity.
  - reflexivity.
  - reflexivity.
  - reflexivity.
  - reflexivity.
  - reflexivity.
  - discriminate.
Defined.

(** ** Sorting *)

Section SortBy.

Variable A : Type.
Variable leb : A -> A -> bool.
Variable P : A -> Prop.
Hypothesis leb_total : forall x y, P x -> P y -> leb x y = false -> leb y x = true.
Hypothesis leb_trans :
  forall x y z, P x -> P y -> P z -> leb x y = true -> leb y z = true ->
                leb x z = true.

Lemma insert_by_sorted (x : A) (l : list A) :
  P x -> Forall P l ->
  StronglySorted (fun a b => leb a b = true) l ->
  StronglySorted (fun a b => leb a b = true) (insert_by leb x l).
Proof.
  intros Px Pl Hs. induction l as [|y l IH]; simpl.
  - repeat constructor.
  - inversion Pl as [|? ? Py Pl']; subst.
    inversion Hs as [|? ? Hs' Hy]; subst.
    destruct (leb x y) eqn:E.
    + constructor; [exact Hs|]. constructor; [exact E|].
      rewrite Forall_forall in Hy, Pl' |- *. intros z Hz.
      apply (leb_trans x y z); auto.
    + constructor; [apply IH; assumption|].
      rewrite Forall_forall in Hy |- *. intros z Hz.
      apply In_insert_by in Hz. destruct Hz as [Hz|Hz].
      * subst z. apply leb_total; assumption.
      * apply Hy. exact Hz.
Qed.

Lemma sort_by_Forall (Q : A -> Prop) (l : list A) :
  Forall Q l -> Forall Q (sort_by leb l).
Proof.
  intro H. rewrite Forall_forall in H |- *. intros x Hx.
  apply In_sort_by in Hx. auto.
Qed.

Lemma sort_by_sorted (l : list A) :
  Forall P l -> StronglySorted (fun a b => leb a b = true) (sort_by leb l).
Proof.
  unfold sort_by. induction 1 as [|x l Px Pl IH]; simpl.
  - constructor.
  - apply insert_by_sorted; [exact Px| |exact IH].
    apply (sort_by_Forall P). exact Pl.
Qed.

Lemma insert_by_Permutation (x : A) (l : list A) :
  Permutation (insert_by leb x l) (x :: l).
Proof.
  induction l as [|y l IH]; simpl; [reflexivity|].
  destruct (leb x y); [reflexivity|].
  rewrite IH. apply perm_swap.
Qed.

Lemma sort_by_Permutation (l : list A) : Permutation (sort_by leb l) l.
Proof.
  unfold sort_by. induction l as [|x l IH]; simpl; [reflexivity|].
  rewrite insert_by_Permutation. now constructor.
Qed.

(** Where an insertion puts its element. *)
Lemma insert_by_split (x : A) (l : list A) :
  exists l1 l2, l = l1 ++ l2 /\ insert_by leb x l = l1 ++ x :: l2.
Proof.
  induction l as [|y l [l1 [l2 [E1 E2]]]]; simpl.
  - exists [], []. split; reflexivity.
  - destruct (leb x y).
    + exists [], (y :: l). split; reflexivity.
    + exists (y :: l1), l2. simpl. rewrite E2. split; [now rewrite E1|reflexivity].
Qed.

(** An insertion into a sorted list goes the same way with one element of
    the list taken out. *)
Lemma insert_by_around (y x : A) (l1 l2 : list A) :
  P y -> Forall P (l1 ++ x :: l2) ->
  StronglySorted (fun a b => leb a b = true) (l1 ++ x :: l2) ->
  exists k1 k2, insert_by leb y (l1 ++ l2) = k1 ++ k2
                /\ insert_by leb y (l1 ++ x :: l2) = k1 ++ x :: k2.
Proof.
  intros Py. induction l1 as [|z l1 IH]; simpl; intros Pl Hs.
  - inversion Pl as [|? ? Px Pl2]; subst.
    inversion Hs as [|? ? Hs2 Hx]; subst.
    destruct (leb y x) eqn:E.
    + exists [y], l2. split; [|reflexivity].
      destruct l2 as [|z r]; [reflexivity|]. simpl.
      inversion Hx; subst. inversion Pl2; subst.
      rewrite (leb_trans y x z); auto.
    + exists [], (insert_by leb y l2). split; reflexivity.
  - inversion Pl as [|? ? Pz Pl']; subst.
    inversion Hs as [|? ? Hs' Hz]; subst.
    destruct (leb y z).
    + exists (y :: z :: l1), l2. split; reflexivity.
    + destruct (IH Pl' Hs') as [k1 [k2 [E1 E2]]].
      exists (z :: k1), k2. simpl. rewrite E1, E2. split; reflexivity.
Qed.

(** The sort leaves the other elements where they are when one more element
    is given to it. *)
Lemma sort_by_one_more (a b : list A) (x : A) :
  Forall P (a ++ x :: b) ->
  exists l1 l2, sort_by leb (a ++ b) = l1 ++ l2
                /\ sort_by leb (a ++ x :: b) = l1 ++ x :: l2.
Proof.
  induction a as [|y a IH]; simpl; intro H.
  - destruct (insert_by_split x (sort_by leb b)) as [l1 [l2 [E1 E2]]].
    exists l1, l2. split; assumption.
  - inversion H as [|? ? Py H']; subst.
    destruct (IH H') as [l1 [l2 [E1 E2]]].
    fold (sort_by leb (a ++ b)). fold (sort_by leb (a ++ x :: b)).
    rewrite E1, E2. apply insert_by_around; [exact Py| |].
    + rewrite <- E2. apply sort_by_Forall. exact H'.
    + rewrite <- E2. apply sort_by_sorted. exact H'.
Qed.

End SortBy.

Lemma StronglySorted_snoc {A} (R : A -> A -> Prop) (l : list A) (x : A) :
  StronglySorted R l -> Forall (fun y => R y x) l ->
  StronglySorted R (l ++ [x]).
Proof.
  induction 1 as [|y l Hs IH Hy]; intro Hx; simpl.
  - repeat constructor.
  - inversion Hx; subst. constructor; [apply IH; assumption|].
    apply Forall_app. split; [exact Hy|]. repeat constructor. assumption.
Qed.

Lemma StronglySorted_rev {A} (R : A -> A -> Prop) (l : list A) :
  StronglySorted R l -> StronglySorted (fun a b => R b a) (rev l).
Proof.
  induction 1 as [|y l Hs IH Hy]; simpl; [constructor|].
  apply StronglySorted_snoc; [exact IH|].
  rewrite Forall_forall in Hy |- *. intros z Hz. apply in_rev in Hz. auto.
Qed.

Lemma StronglySorted_impl {A} (R R' : A -> A -> Prop) (Q : A -> Prop) (l : list A) :
  (forall a b, Q a -> Q b -> R a b -> R' a b) ->
  Forall Q l -> StronglySorted R l -> StronglySorted R' l.
Proof.
  intros Himp Hq. induction 1 as [|y l Hs IH Hy]; [constructor|].
  inversion Hq as [|? ? Qy Ql]; subst.
  constructor; [apply IH; exact Ql|].
  rewrite Forall_forall in Hy, Ql |- *. intros z Hz. apply Himp; auto.
Qed.

(** ** The order of timestamps *)

Lemma lex_le_total (a b : list Z) : lex_le a b \/ lex_le b a.
Proof.
  revert b. induction a as [|x a IH]; intros [|y b]; simpl; auto.
  destruct (Z.lt_trichotomy x y) as [H|[H|H]]; auto.
  destruct (IH b) as [L|L].
  - left. right. split; assumption.
  - right. right. split; [lia|assumption].
Qed.

Lemma lex_le_trans (a b c : list Z) : lex_le a b -> lex_le b c -> lex_le a c.
Proof.
  revert b c. induction a as [|x a IH]; intros [|y b] [|z c]; simpl; auto;
    try tauto.
  intros [H1|[H1 H1']] [H2|[H2 H2']]; try (left; lia).
  right. split; [lia|]. apply (IH b c); assumption.
Qed.

Lemma dt_leb_total (a b : datetime) : dt_leb a b = false -> dt_leb b a = true.
Proof.
  intro H. apply dt_leb_le.
  destruct (lex_le_total (dt_fields a) (dt_fields b)) as [L|L]; [|exact L].
  apply dt_leb_le in L. congruence.
Qed.

Lemma dt_leb_trans (a b c : datetime) :
  dt_leb a b = true -> dt_leb b c = true -> dt_leb a c = true.
Proof.
  rewrite !dt_leb_le. apply lex_le_trans.
Qed.

Lemma dt_leb_refl (a : datetime) : dt_leb a a = true.
Proof.
  destruct (dt_leb a a) eqn:E; [reflexivity|].
  pose proof (dt_leb_total a a E). congruence.
Qed.

(** The range query streams its documents from the oldest to the newest. *)
Lemma where_date_between_sorted (start_date end_date : datetime)
  (c : collection expense_doc) :
  StronglySorted not_later (where_date_between start_date end_date c).
Proof.
  unfold where_date_between.
  set (l := filter (fun kd => date_between start_date end_date (snd kd)) c).
  assert (Hd : Forall (fun kd => exists d, e_date (snd kd) = Some d) l).
  { apply Forall_forall. intros kd Hin. apply filter_In in Hin.
    destruct Hin as [_ Hin]. unfold date_between in Hin.
    destruct (e_date (snd kd)) as [d|]; [eauto|discriminate]. }
  apply (StronglySorted_impl (fun a b => date_leb a b = true) not_later
           (fun kd => exists d, e_date (snd kd) = Some d)).
  - intros a b [x Hx] [y Hy] H. unfold date_leb in H. rewrite Hx, Hy in H.
    exists x, y. auto.
  - apply sort_by_Forall. exact Hd.
  - apply (sort_by_sorted _ date_leb
             (fun kd => exists d, e_date (snd kd) = Some d)).
    + intros a b [x Hx] [y Hy]. unfold date_leb. rewrite Hx, Hy.
      apply dt_leb_total.
    + intros a b c' [x Hx] [y Hy] [z Hz]. unfold date_leb.
      rewrite Hx, Hy, Hz. apply dt_leb_trans.
    + exact Hd.
Qed.

(** X7. For a month that get_month_range turns into a range, get_expenses
    answers 200 with the expenses of the user dated within the range, each
    once, from the newest to the oldest, and with their number as
    total_count. *)
Theorem get_expenses_newest_first (w : world) (user_id month : string)
  (req : request) (db : database) (start_date end_date : datetime) :
  args_month req = Some month ->
  get_month_range month = Return (Some (start_date, end_date)) ->
  exists l,
    get_expenses w user_id req db
    = (db, mk_response 200 (PExpenses l month (List.length l)))
    /\ Permutation l
         (filter (fun kd => date_between start_date end_date (snd kd))
                 (expenses (db user_id)))
    /\ StronglySorted newest_first l.
Proof.
  intros Ha Hr. unfold get_expenses. rewrite Ha, Hr. cbn [or_500 bind_check].
  eexists. split; [reflexivity|]. split.
  - unfold where_date_between_desc, where_date_between.
    rewrite <- Permutation_rev. apply sort_by_Permutation.
  - unfold where_date_between_desc, newest_first.
    apply StronglySorted_rev. apply where_date_between_sorted.
Qed.

Lemma get_expenses_newest_first_witness :
  exists l,
    get_expenses sample_world "alice" (mk_request None (Some "2024-03") JNull None)
      sample_db
    = (sample_db, mk_response 200 (PExpenses l "2024-03" (List.length l)))
    /\ StronglySorted newest_first l.
Proof.
  destruct (get_expenses_newest_first sample_world "alice" "2024-03"
              (mk_request None (Some "2024-03") JNull None) sample_db
              (month_start 2024 3) (month_end 2024 3))
    as [l [E [_ S]]].
  - reflexivity.
  - reflexivity.
  - exists l. split; [exact E|exact S].
Defined.

(** ** Creating and listing expenses *)

Lemma py_getitem_obj (fields : list (string * json)) (k : string) (v : json) :
  py_getitem (JObj fields) k = Return v -> assoc_get k fields = Some v.
Proof.
  simpl. destruct (assoc_get k fields); [|discriminate].
  intro H. inversion H. reflexivity.
Qed.

(** What a successful [add_expense] read from the body and stored. *)
Lemma add_expense_created (w : world) (user_id : string) (req : request)
  (db : database) :
  status (snd (add_expense w user_id req db)) = 201 ->
  exists fields va a s d c note,
    json_body req = JObj fields
    /\ assoc_get "amount" fields = Some va
    /\ py_float va = Return a /\ pf_le a pf_zero = false
    /\ assoc_get "date" fields = Some (JStr s) /\ strptime_ymd s = Some d
    /\ assoc_get "category" fields = Some (JStr c)
    /\ ((assoc_get "note" fields = None /\ note = "")
        \/ exists n, assoc_get "note" fields = Some (JStr n) /\ note = py_strip n)
    /\ coll_mem (generated_id w) (expenses (db user_id)) = false
    /\ add_expense w user_id req db
       = (db_set db user_id
            (set_expenses (db user_id)
               (coll_insert (generated_id w)
                  (mk_expense (Some a) (Some (py_strip c)) (Some d) (Some note)
                              (Some (now_first w)) (Some (now_second w)))
                  (expenses (db user_id)))),
          mk_response 201
            (PExpense "Expense added successfully" (generated_id w)
               (mk_expense (Some a) (Some (py_strip c)) (Some d) (Some note)
                           (Some (now_first w)) (Some (now_second w))))).
Proof.
  intro Hst.
  destruct (add_expense_effect w user_id req db) as [[e0 [_ [_ E0]]]|[_ Herr]];
    [clear Hst|exfalso; exact (error_status_not_created _ Herr Hst)].
  revert E0. unfold add_expense.
  match goal with
  | |- context [match ?steps with inl _ => _ | inr _ => _ end] =>
      destruct steps as [r|[expenses' e]] eqn:S
  end.
  { intro H. inversion H. exfalso.
    match goal with
    | H1 : db = db_set _ _ _ |- _ => clear H1
    end.
    subst r.
    destruct (require_fields "Failed to add expense" ["amount"; "category"; "date"]
                (json_body req)) as [r1|[]] eqn:R; cbn [bind_check] in S.
    { inversion S; subst. clear S. revert R. simpl. intro R.
      check_cases R; inversion R. }
    destruct (validate_amount "Failed to add expense" (json_body req))
      as [r1|amount] eqn:A; cbn [bind_check] in S.
    { inversion S; subst. apply validate_amount_inl in A.
      destruct A as [code [msg [A [C|C]]]]; inversion A; subst; discriminate. }
    unfold coll_add, parse_date, json_strip, py_get in S.
    check_cases S; inversion S. }
  intros _.
  destruct (require_fields "Failed to add expense" ["amount"; "category"; "date"]
              (json_body req)) as [r1|[]]; cbn [bind_check] in S;
    [discriminate|].
  destruct (validate_amount "Failed to add expense" (json_body req))
    as [r1|amount] eqn:A; cbn [bind_check] in S; [discriminate|].
  unfold coll_add, parse_date, json_strip, py_get in S.
  check_cases S; inversion S; subst;
    match goal with
    | H : json_body req = JObj ?f |- _ => try rewrite H in A; exists f
    end;
    unfold validate_amount in A; check_cases A; inversion A; subst;
    repeat match goal with
           | H : py_getitem (JObj _) _ = Return _ |- _ =>
               apply py_getitem_obj in H
           end;
    do 6 eexists;
    (split; [reflexivity|]);
    (split; [eassumption|]);
    (split; [eassumption|]);
    (split; [assumption|]);
    (split; [eassumption|]);
    (split; [eassumption|]);
    (split; [eassumption|]);
    (split; [|split; reflexivity]).
  - right. eexists. split; [eassumption|reflexivity].
  - left. split; [assumption|reflexivity].
Qed.

(** X8. An expense that add_expense accepted (201) is stored with the date
    its body gave, read as midnight of that day, and get_expenses lists it for
    a month exactly when that month is the year and month of the date. *)
Theorem add_expense_then_listed (w w' : world) (user_id : string)
  (req req' : request) (db : database) (month : string) (y m : Z) :
  status (snd (add_expense w user_id req db)) = 201 ->
  args_month req' = Some month ->
  month_components month = Return (y, m) ->
  1 <= y <= 9999 ->
  1 <= m <= 12 ->
  exists fields s d e l,
    json_body req = JObj fields
    /\ assoc_get "date" fields = Some (JStr s)
    /\ strptime_ymd s = Some d
    /\ e_date e = Some d
    /\ dt_hour d = 0 /\ dt_minute d = 0 /\ dt_second d = 0
    /\ snd (add_expense w user_id req db)
       = mk_response 201
           (PExpense "Expense added successfully" (generated_id w) e)
    /\ get_expenses w' user_id req' (fst (add_expense w user_id req db))
       = (fst (add_expense w user_id req db),
          mk_response 200 (PExpenses l month (List.length l)))
    /\ (In (generated_id w, e) l <-> dt_year d = y /\ dt_month d = m).
Proof.
  intros Hst Ha Hc Hy Hm.
  destruct (add_expense_created w user_id req db Hst)
    as [fields [va [a [s [d [c [note [Hb [_ [_ [_ [Hd [Hs [_ [_ [_ E]]]]]]]]]]]]]]]].
  destruct (strptime_midnight s d Hs) as [Hw [_ [_ [H0 [H1 H2]]]]].
  exists fields, s, d.
  exists (mk_expense (Some a) (Some (py_strip c)) (Some d) (Some note)
                     (Some (now_first w)) (Some (now_second w))).
  eexists.
  rewrite E. cbn [fst snd].
  split; [exact Hb|]. split; [exact Hd|]. split; [exact Hs|].
  split; [reflexivity|].
  split; [exact H0|]. split; [exact H1|]. split; [exact H2|].
  split; [reflexivity|].
  assert (R : get_month_range month
              = Return (Some (month_start y m, month_end y m))).
  { unfold get_month_range.
    now rewrite (month_range_try_valid month y m Hc Hy Hm). }
  unfold get_expenses. rewrite Ha, R. cbn [or_500 bind_check].
  split; [reflexivity|].
  rewrite db_set_same. cbn [expenses set_expenses].
  rewrite where_date_between_desc_In. unfold dated_between. cbn [snd e_date].
  rewrite <- (in_month_range_iff y m d Hw). split.
  - intros [_ [d' [Ed H]]]. inversion Ed; subst. exact H.
  - intro H. split; [apply In_coll_insert|]. exists d. tauto.
Qed.

Lemma add_expense_then_listed_witness :
  exists l,
    get_expenses sample_world "alice" (mk_request None (Some "2024-03") JNull None)
      (fst (add_expense sample_world "alice"
              (body_request
                 (JObj [("amount", JInt 12); ("category", JStr "Food");
                        ("date", JStr "2024-03-15")]))
              sample_db))
    = (fst (add_expense sample_world "alice"
              (body_request
                 (JObj [("amount", JInt 12); ("category", JStr "Food");
                        ("date", JStr "2024-03-15")]))
              sample_db),
       mk_response 200 (PExpenses l "2024-03" (List.length l))).
Proof.
  destruct (add_expense_then_listed sample_world sample_world "alice"
              (body_request
                 (JObj [("amount", JInt 12); ("category", JStr "Food");
                        ("date", JStr "2024-03-15")]))
              (mk_request None (Some "2024-03") JNull None)
              sample_db "2024-03" 2024 3)
    as [fields [s [d [e [l [_ [_ [_ [_ [_ [_ [_ [_ [E _]]]]]]]]]]]]]].
  - reflexivity.
  - reflexivity.
  - reflexivity.
  - lia.
  - lia.
  - exists l. exact E.
Defined.

(** ** The month of the clock *)

Lemma digit_char_spec (k : Z) :
  is_digit (digit_char k) = true /\ digit_value (digit_char k) = k mod 10.
Proof.
  unfold digit_char. pose proof (Z.mod_pos_bound k 10 ltac:(lia)) as H.
  set (r := k mod 10) in *.
  assert (C : r = 0 \/ r = 1 \/ r = 2 \/ r = 3 \/ r = 4 \/ r = 5 \/ r = 6
              \/ r = 7 \/ r = 8 \/ r = 9) by lia.
  destruct C as [C|[C|[C|[C|[C|[C|[C|[C|[C|C]]]]]]]]]; rewrite C;
    split; reflexivity.
Qed.

(** A digit is neither a sign nor white space. *)
Lemma is_digit_not_special (c : ascii) :
  is_digit c = true ->
  Ascii.eqb c "-" = false /\ Ascii.eqb c "+" = false /\ is_c_space c = false.
Proof.
  intro H. repeat split.
  - destruct (Ascii.eqb_spec c "-"); [subst; discriminate|reflexivity].
  - destruct (Ascii.eqb_spec c "+"); [subst; discriminate|reflexivity].
  - unfold is_digit in H. unfold is_c_space.
    apply andb_true_iff in H. destruct H as [H1 H2].
    apply Z.leb_le in H1. apply Z.leb_le in H2.
    destruct (Z.leb_spec 9 (ascii_code c)); destruct (Z.leb_spec (ascii_code c) 13);
      destruct (Z.eqb_spec (ascii_code c) 32); simpl; try reflexivity; lia.
Qed.

Lemma digits_underscored_digits (l : list ascii) :
  Forall (fun c => is_digit c = true) l ->
  forall acc seen, l <> [] \/ seen = true ->
  digits_underscored l acc seen
  = Some (fold_left (fun acc c => acc * 10 + digit_value c) l acc).
Proof.
  induction 1 as [|x l Hx Hl IH]; intros acc seen Hs; simpl.
  - destruct Hs as [Hs|Hs]; [congruence|]. now rewrite Hs.
  - rewrite Hx. apply IH. now right.
Qed.

Lemma strip_digits (c : ascii) (r : list ascii) :
  Forall (fun c => is_digit c = true) (c :: r) ->
  strip_with is_c_space (c :: r) = c :: r.
Proof.
  intro Hd. unfold strip_with.
  assert (Hc : is_c_space c = false).
  { inversion Hd; subst. now apply is_digit_not_special. }
  simpl drop_while at 2. rewrite Hc.
  destruct (rev (c :: r)) as [|c' r'] eqn:R.
  { apply (f_equal (@List.length ascii)) in R. rewrite length_rev in R. discriminate. }
  assert (I : In c' (c :: r)). { apply in_rev. rewrite R. simpl; auto. }
  rewrite Forall_forall in Hd.
  simpl. rewrite (proj2 (proj2 (is_digit_not_special c' (Hd c' I)))).
  rewrite <- R. apply rev_involutive.
Qed.

(** [int()] of a string of digits, no more of them than the conversion
    accepts, is its decimal value. *)
Lemma py_int_digits (cs : list ascii) :
  cs <> [] -> Forall (fun c => is_digit c = true) cs ->
  (List.length cs <= int_max_str_digits)%nat ->
  py_int (string_of_list_ascii cs)
  = Some (fold_left (fun acc c => acc * 10 + digit_value c) cs 0).
Proof.
  intros Hne Hd Hlen. unfold py_int. rewrite list_ascii_of_string_of_list_ascii.
  destruct cs as [|c r]; [congruence|].
  rewrite (strip_digits c r Hd).
  inversion Hd as [|? ? Hc Hr]; subst.
  destruct (is_digit_not_special c Hc) as [E1 [E2 _]]. rewrite E1, E2.
  assert (L : Nat.ltb int_max_str_digits (List.length (filter is_digit (c :: r)))
              = false).
  { apply Nat.ltb_ge. pose proof (filter_length_le is_digit (c :: r)). lia. }
  rewrite L.
  apply digits_underscored_digits; [assumption|left; discriminate].
Qed.

Lemma split_chars_no_sep (sep : ascii) (cs : list ascii) :
  Forall (fun c => Ascii.eqb c sep = false) cs ->
  forall cur, split_chars sep cs cur = [rev cur ++ cs].
Proof.
  induction 1 as [|x l Hx Hl IH]; intro cur; simpl.
  - now rewrite app_nil_r.
  - rewrite Hx, IH. simpl. now rewrite <- app_assoc.
Qed.

Lemma split_chars_app (sep : ascii) (a b : list ascii) :
  Forall (fun c => Ascii.eqb c sep = false) a ->
  forall cur, split_chars sep (a ++ sep :: b) cur
              = (rev cur ++ a) :: split_chars sep b [].
Proof.
  induction 1 as [|x l Hx Hl IH]; intro cur; simpl.
  - rewrite Ascii.eqb_refl. now rewrite app_nil_r.
  - rewrite Hx, IH. simpl. now rewrite <- app_assoc.
Qed.

(** Reading back what [strftime('%Y-%m')] wrote gives the year and the month
    of the timestamp. *)
Lemma month_components_strftime (d : datetime) :
  1000 <= dt_year d <= 9999 -> 1 <= dt_month d <= 12 ->
  month_components (strftime_ym d) = Return (dt_year d, dt_month d).
Proof.
  intros Hy Hm. unfold month_components, strftime_ym, py_split.
  rewrite list_ascii_of_string_of_list_ascii.
  set (y := dt_year d) in *. set (m := dt_month d) in *.
  pose proof (digit_char_spec (y / 1000)) as [D1 V1].
  pose proof (digit_char_spec (y / 100)) as [D2 V2].
  pose proof (digit_char_spec (y / 10)) as [D3 V3].
  pose proof (digit_char_spec y) as [D4 V4].
  pose proof (digit_char_spec (m / 10)) as [D5 V5].
  pose proof (digit_char_spec m) as [D6 V6].
  change [digit_char (y / 1000); digit_char (y / 100); digit_char (y / 10);
          digit_char y; "-"%char; digit_char (m / 10); digit_char m]
    with ([digit_char (y / 1000); digit_char (y / 100); digit_char (y / 10);
           digit_char y] ++ "-"%char :: [digit_char (m / 10); digit_char m]).
  rewrite split_chars_app.
  2:{ repeat constructor; now apply is_digit_not_special. }
  rewrite split_chars_no_sep.
  2:{ repeat constructor; now apply is_digit_not_special. }
  cbn [map rev app].
  rewrite !py_int_digits; try discriminate; try (repeat constructor; assumption);
    try (cbn [List.length]; unfold int_max_str_digits; lia).
  cbn [fold_left]. rewrite V1, V2, V3, V4, V5, V6.
  f_equal. f_equal; Z.div_mod_to_equations; lia.
Qed.

(** X9.  Without a month in the query string, and the clock standing in a
    year of four digits, GET expenses never answers the 400 of a bad month:
    the month it writes from the clock reads back as the year and the month of
    the clock, and the answer is 200 with the expenses of that calendar month,
    the newest first, under the month as written. *)
Theorem get_expenses_defaults_to_clock_month (w : world) (user_id : string)
  (req : request) (db : database) :
  args_month req = None ->
  1000 <= dt_year (now_first w) <= 9999 ->
  1 <= dt_month (now_first w) <= 12 ->
  let year := dt_year (now_first w) in
  let month := dt_month (now_first w) in
  let listed :=
    where_date_between_desc (month_start year month) (month_end year month)
                            (expenses (db user_id)) in
  month_components (get_current_month (now_first w)) = Return (year, month)
  /\ get_expenses w user_id req db
     = (db, mk_response 200
              (PExpenses listed (get_current_month (now_first w))
                         (List.length listed))).
Proof.
  intros Ha Hy Hm year month listed.
  pose proof (month_components_strftime (now_first w) Hy Hm) as Hc.
  split; [exact Hc|].
  unfold get_expenses, get_current_month. rewrite Ha. unfold get_month_range.
  rewrite (month_range_try_valid _ year month Hc); [|lia|exact Hm].
  reflexivity.
Qed.

Lemma get_expenses_defaults_to_clock_month_witness :
  get_expenses sample_world "alice" (body_request JNull) sample_db
  = (sample_db,
     mk_response 200
       (PExpenses (rev sample_expenses) "2024-03" 3)).
Proof.
  destruct (get_expenses_defaults_to_clock_month sample_world "alice"
              (body_request JNull) sample_db) as [_ E].
  - reflexivity.
  - simpl. lia.
  - simpl. lia.
  - exact E.
Defined.

(** ** The report counts every expense once *)

Lemma list_sum_indicator (c : string) (keys : list string) :
  NoDup keys -> In c keys ->
  list_sum (map (fun k => if String.eqb c k then 1%nat else 0%nat) keys) = 1%nat.
Proof.
  induction 1 as [|k keys Hk Hnd IH]; intro Hin; [destruct Hin|].
  simpl. destruct (String.eqb_spec c k) as [E|E].
  - subst k. f_equal.
    clear - Hk. induction keys as [|k keys IH]; [reflexivity|].
    simpl. destruct (String.eqb_spec c k) as [E|E].
    + subst. exfalso. apply Hk. now left.
    + apply IH. intro H. apply Hk. now right.
  - destruct Hin as [Hin|Hin]; [congruence|]. now apply IH.
Qed.

(** Distinct categories that cover the expenses split them: the sizes of the
    classes add up to the number of expenses. *)
Lemma count_partition (keys : list string) (es : collection expense_doc) :
  NoDup keys ->
  (forall kd, In kd es -> In (expense_category (snd kd)) keys) ->
  list_sum (map (fun c => List.length (expenses_of_category c es)) keys)
  = List.length es.
Proof.
  intros Hnd. induction es as [|e es IH]; intro Hin.
  - clear. induction keys as [|k keys IHk]; [reflexivity|exact IHk].
  - assert (E : list_sum (map (fun c => List.length (expenses_of_category c (e :: es))) keys)
               = (list_sum (map (fun k => if String.eqb (expense_category (snd e)) k
                                          then 1 else 0) keys)
                  + list_sum (map (fun c => List.length (expenses_of_category c es)) keys))%nat).
    { clear. induction keys as [|k keys IHk]; [reflexivity|].
      unfold list_sum in *. cbn [map fold_right]. rewrite IHk.
      unfold expenses_of_category. cbn [filter].
      destruct (String.eqb (expense_category (snd e)) k); cbn [List.length]; lia. }
    rewrite E, IH by (intros kd H; apply Hin; now right).
    rewrite (list_sum_indicator (expense_category (snd e)) keys Hnd)
      by (apply Hin; now left).
    reflexivity.
Qed.

(** X10.  Whatever the stored documents hold, the categories of a report are
    distinct and are exactly the categories of the expenses of the month
    ('Other' for an expense without one); the count of a category is the
    number of its expenses, the counts add up to the number of expenses,
    total_categories is the number of entries, and total_expenses is the
    total_expenses of the summary of the same month. *)
Theorem report_counts_every_expense_once (month : string)
  (es : collection expense_doc) (bs : collection budget_doc) :
  let r := report_of month es bs in
  let cats := r_expenses_by_category r in
  NoDup (map fst cats)
  /\ (forall c, In c (map fst cats)
                <-> exists kd, In kd es /\ expense_category (snd kd) = c)
  /\ (forall c d, In (c, d) cats ->
                  count d = List.length (expenses_of_category c es))
  /\ list_sum (map (fun cd => count (snd cd)) cats) = List.length es
  /\ r_total_categories r = List.length cats
  /\ r_total_expenses r = s_total_expenses (summary_response month es bs).
Proof.
  intros r cats.
  pose proof (group_expenses_shape (budget_lookup_of bs) es) as [Hnd [Hcov [Htot Hent]]].
  assert (Ec : cats = finish_entries (snd (group_expenses (budget_lookup_of bs) es))
                                     (fst (group_expenses (budget_lookup_of bs) es))).
  { apply report_entries. }
  assert (Ek : map fst cats = map fst (fst (group_expenses (budget_lookup_of bs) es))).
  { rewrite Ec. apply finish_entries_keys. }
  assert (Hcount : forall c d, In (c, d) cats ->
                     count d = List.length (expenses_of_category c es)).
  { intros c d Hin. rewrite Ec in Hin. unfold finish_entries in Hin.
    apply in_map_iff in Hin. destruct Hin as [[c' d'] [E Hin]].
    inversion E; subst. rewrite Forall_forall in Hent.
    destruct (Hent _ Hin) as [_ [Hc _]]. exact Hc. }
  split; [now rewrite Ek|]. split; [now rewrite Ek|]. split; [exact Hcount|].
  split; [|split].
  - rewrite <- (count_partition (map fst cats) es).
    + rewrite map_map. apply f_equal. apply map_ext_in.
      intros [c d] Hin. simpl. now apply Hcount.
    + now rewrite Ek.
    + intros kd Hin. rewrite Ek. apply Hcov. eauto.
  - rewrite Ec, finish_entries_length. unfold r, report_of.
    destruct (group_expenses (budget_lookup_of bs) es). reflexivity.
  - unfold r. rewrite report_total, Htot. reflexivity.
Qed.

(** ** The top category of the report *)

Lemma report_step_top (total : pyfloat) (l : dict category_data)
  (st : report_state) (e : string * category_data) :
  is_number (total_amount (snd e)) ->
  top_shape l st -> top_shape (l ++ [e]) (report_step total st e).
Proof.
  destruct e as [c d]. simpl. intros Hn Hs.
  unfold top_shape in *. unfold report_step. cbn [top_category top_amount].
  set (x := total_amount d) in *. set (t := top_amount st) in *.
  unfold pf_gt.
  destruct (top_category st) as [c0|].
  - destruct Hs as [l1 [d0 [l2 [El [Ed [Hpos [H1 H2]]]]]]].
    unfold pf_gt in Hpos.
    destruct (pf_lt t x) eqn:Elt.
    + exists l, d, []. split; [reflexivity|]. split; [reflexivity|].
      split; [exact (pf_lt_trans _ _ _ Hpos Elt)|]. split; [|constructor].
      rewrite El. apply Forall_app. split.
      * eapply Forall_impl; [|exact H1]. intros a Ha.
        exact (pf_lt_trans _ _ _ Ha Elt).
      * constructor.
        -- unfold entry_total. simpl. rewrite Ed. exact Elt.
        -- eapply Forall_impl; [|exact H2]. intros a Ha.
           exact (pf_le_lt_trans _ _ _ Ha Elt).
    + exists l1, d0, (l2 ++ [(c, d)]).
      split; [rewrite El; now rewrite <- app_assoc|].
      split; [exact Ed|]. split; [exact Hpos|]. split; [exact H1|].
      apply Forall_app. split; [exact H2|]. constructor; [|constructor].
      unfold entry_total. simpl. apply pf_lt_false_le; [|exact Hn|exact Elt].
      exact (proj2 (pf_le_numbers _ _ (pf_lt_le _ _ Hpos))).
  - destruct Hs as [Et Hall]. rewrite Et.
    destruct (pf_lt pf_zero x) eqn:Elt.
    + exists l, d, []. split; [reflexivity|]. split; [reflexivity|].
      split; [exact Elt|]. split; [|constructor].
      eapply Forall_impl; [|exact Hall]. intros a Ha.
      exact (pf_le_lt_trans _ _ _ Ha Elt).
    + split; [reflexivity|].
      apply Forall_app. split; [exact Hall|]. constructor; [|constructor].
      unfold entry_total. simpl. apply pf_lt_false_le; [reflexivity|exact Hn|exact Elt].
Qed.

Lemma report_fold_top (total : pyfloat) (l : dict category_data) :
  Forall (fun e => is_number (total_amount (snd e))) l ->
  top_shape l (fold_left (report_step total) l report_state_init).
Proof.
  induction l as [|e l IH] using rev_ind; intro Hf.
  - simpl. unfold top_shape. simpl. split; [reflexivity|constructor].
  - apply Forall_app in Hf. destruct Hf as [Hl He]. inversion He; subst.
    rewrite fold_left_app. simpl. apply report_step_top; auto.
Qed.

(** X11.  The expenses having finite amounts, top_spending_category names
    the first category, in the order the categories first occur, whose total
    is the largest, provided that total is greater than zero; its amount is
    that total rounded, which is the total_amount the report shows for the
    category.  It is null when no total is greater than zero, and also when
    that category is the empty string.  The totals are the sums the code
    computes, compared as the code compares them. *)
Theorem report_top_category (month : string) (es : collection expense_doc)
  (bs : collection budget_doc) :
  finite_expenses es ->
  let grouped := fst (group_expenses (budget_lookup_of bs) es) in
  let r := report_of month es bs in
  match r_top_spending_category r with
  | Some (c, a) =>
      c <> ""
      /\ (exists t, first_largest c grouped t /\ a = py_round2 t)
      /\ (exists d, In (c, d) (r_expenses_by_category r) /\ total_amount d = a)
  | None =>
      Forall (fun e => pf_le (entry_total e) pf_zero = true) grouped
      \/ exists t, first_largest "" grouped t
  end.
Proof.
  intros Hfin grouped r.
  pose proof (group_expenses_shape (budget_lookup_of bs) es) as [_ [_ [_ Hent]]].
  assert (Hf : Forall (fun e => is_number (total_amount (snd e))) grouped).
  { rewrite Forall_forall in Hent |- *. intros cd Hin.
    exact (entry_ok_number _ es cd Hfin (Hent cd Hin)). }
  pose proof (report_entries month es bs) as Ecats. fold r grouped in Ecats.
  unfold r at 1, report_of. fold grouped in Hf |- *.
  unfold grouped in *. clear grouped.
  destruct (group_expenses (budget_lookup_of bs) es) as [ce tot].
  cbn [fst snd] in *. cbn [r_top_spending_category].
  pose proof (report_fold_top tot ce Hf) as Ht. unfold top_shape in Ht.
  destruct (top_category (fold_left (report_step tot) ce report_state_init))
    as [c|].
  - destruct (String.eqb_spec c "") as [E|E].
    + right. eexists. subst c. exact Ht.
    + split; [exact E|]. split; [eexists; split; [exact Ht|reflexivity]|].
      destruct Ht as [l1 [d [l2 [El [Ed _]]]]].
      exists (finish_category tot d). split.
      * rewrite Ecats. unfold finish_entries. apply in_map_iff.
        exists (c, d). split; [reflexivity|]. rewrite El. apply in_elt.
      * simpl. now rewrite Ed.
  - left. apply Ht.
Qed.

Lemma report_top_category_witness :
  finite_expenses sample_expenses
  /\ exists d, In ("Food", d)
                  (r_expenses_by_category
                     (report_of "2024-03" sample_expenses sample_budgets))
               /\ total_amount d = 50%float.
Proof.
  split; [repeat constructor|].
  pose proof (report_top_category "2024-03" sample_expenses sample_budgets) as H.
  assert (F : finite_expenses sample_expenses) by repeat constructor.
  specialize (H F). cbv zeta in H.
  assert (E : r_top_spending_category
                (report_of "2024-03" sample_expenses sample_budgets)
              = Some ("Food", 50%float)) by (vm_compute; reflexivity).
  rewrite E in H. destruct H as [_ [_ H]]. exact H.
Defined.

(** ** The charts of the report *)

Lemma report_fold_pie (total : pyfloat) (l : dict category_data)
  (st : report_state) :
  pie_chart_data (fold_left (report_step total) l st)
  = pie_chart_data st ++ map pie_row_of (finish_entries total l).
Proof.
  revert st. induction l as [|[c d] l IH]; intro st; simpl.
  - now rewrite app_nil_r.
  - rewrite IH. simpl. now rewrite <- app_assoc.
Qed.

Lemma report_fold_bar (total : pyfloat) (l : dict category_data)
  (st : report_state) :
  bar_chart_data (fold_left (report_step total) l st)
  = bar_chart_data st ++ map bar_row_of (finish_entries total l).
Proof.
  revert st. induction l as [|[c d] l IH]; intro st; simpl.
  - now rewrite app_nil_r.
  - rewrite IH. simpl. now rewrite <- app_assoc.
Qed.

Lemma insert_by_map {A B} (f : A -> B) (leb : A -> A -> bool)
  (leb' : B -> B -> bool) (x : A) (l : list A) :
  (forall a b, leb' (f a) (f b) = leb a b) ->
  insert_by leb' (f x) (map f l) = map f (insert_by leb x l).
Proof.
  intro H. induction l as [|y l IH]; simpl; [reflexivity|].
  rewrite H. destruct (leb x y); simpl; [reflexivity|]. now rewrite IH.
Qed.

Lemma sort_by_map {A B} (f : A -> B) (leb : A -> A -> bool)
  (leb' : B -> B -> bool) (l : list A) :
  (forall a b, leb' (f a) (f b) = leb a b) ->
  sort_by leb' (map f l) = map f (sort_by leb l).
Proof.
  intro H. unfold sort_by. induction l as [|x l IH]; simpl; [reflexivity|].
  rewrite IH. now apply insert_by_map.
Qed.

Lemma finish_entries_number (total : pyfloat) (d : dict category_data) :
  Forall (fun e => is_number (total_amount (snd e))) d ->
  Forall (fun e => is_number (entry_total e)) (finish_entries total d).
Proof.
  intro H. unfold finish_entries. apply Forall_map.
  eapply Forall_impl; [|exact H]. intros [c x] Hx. simpl in *.
  unfold entry_total. simpl. now apply py_round2_number.
Qed.

(** X12.  The expenses having finite amounts, the two charts hold one row
    for each entry of the report, in one and the same order: the entries
    ranked by their rounded total from the largest to the smallest, entries
    of equal total keeping the order of the report. *)
Theorem report_charts_sorted (month : string) (es : collection expense_doc)
  (bs : collection budget_doc) :
  finite_expenses es ->
  let r := report_of month es bs in
  let ranked := sort_desc entry_total (r_expenses_by_category r) in
  r_pie_chart_data r = map pie_row_of ranked
  /\ r_bar_chart_data r = map bar_row_of ranked
  /\ Permutation ranked (r_expenses_by_category r)
  /\ StronglySorted not_smaller ranked.
Proof.
  intros Hfin r ranked.
  pose proof (group_expenses_shape (budget_lookup_of bs) es) as [_ [_ [_ Hent]]].
  assert (Hf : Forall (fun e => is_number (total_amount (snd e)))
                      (fst (group_expenses (budget_lookup_of bs) es))).
  { rewrite Forall_forall in Hent |- *. intros cd Hin.
    exact (entry_ok_number _ es cd Hfin (Hent cd Hin)). }
  pose proof (report_entries month es bs) as Ecats. fold r in Ecats.
  assert (Hr : Forall (fun e => is_number (entry_total e)) (r_expenses_by_category r)).
  { rewrite Ecats. now apply finish_entries_number. }
  split; [|split; [|split]].
  - unfold ranked. rewrite Ecats. unfold r, report_of.
    destruct (group_expenses (budget_lookup_of bs) es) as [ce tot].
    cbn [fst snd r_pie_chart_data]. rewrite report_fold_pie. simpl app.
    unfold sort_desc. apply sort_by_map. reflexivity.
  - unfold ranked. rewrite Ecats. unfold r, report_of.
    destruct (group_expenses (budget_lookup_of bs) es) as [ce tot].
    cbn [fst snd r_bar_chart_data]. rewrite report_fold_bar. simpl app.
    unfold sort_desc. apply sort_by_map. reflexivity.
  - apply sort_by_Permutation.
  - unfold ranked, sort_desc, not_smaller.
    apply (sort_by_sorted _ _ (fun e => is_number (entry_total e))); [| |exact Hr].
    + intros x y Hx Hy H.
      apply pf_lt_le, pf_le_false_lt; assumption.
    + intros x y z Hx Hy Hz H1 H2. exact (pf_le_trans _ _ _ H2 H1).
Qed.

Lemma report_charts_sorted_witness :
  finite_expenses sample_expenses
  /\ StronglySorted not_smaller
       (sort_desc entry_total
          (r_expenses_by_category (report_of "2024-03" sample_expenses sample_budgets))).
Proof.
  split; [repeat constructor|].
  destruct (report_charts_sorted "2024-03" sample_expenses sample_budgets)
    as [_ [_ [_ H]]].
  - repeat constructor.
  - exact H.
Defined.

(** ** Writing, then the summary *)

Lemma coll_insert_split {D} (id : string) (doc : D) (c : collection D) :
  exists c1 c2, c = c1 ++ c2 /\ coll_insert id doc c = c1 ++ (id, doc) :: c2.
Proof.
  induction c as [|[k d] c [c1 [c2 [E1 E2]]]]; simpl.
  - exists [], []. split; reflexivity.
  - destruct (String.ltb id k).
    + exists [], ((k, d) :: c). split; reflexivity.
    + exists ((k, d) :: c1), c2. simpl. rewrite E2.
      split; [now rewrite E1|reflexivity].
Qed.

Lemma filter_coll_insert_in {D} (p : string * D -> bool) (id : string)
  (doc : D) (c : collection D) :
  p (id, doc) = true ->
  exists l1 l2, filter p c = l1 ++ l2
                /\ filter p (coll_insert id doc c) = l1 ++ (id, doc) :: l2.
Proof.
  intro H. destruct (coll_insert_split id doc c) as [c1 [c2 [E1 E2]]].
  exists (filter p c1), (filter p c2). rewrite E2, E1, !filter_app.
  simpl. rewrite H. split; reflexivity.
Qed.

Lemma filter_coll_insert_out {D} (p : string * D -> bool) (id : string)
  (doc : D) (c : collection D) :
  p (id, doc) = false -> filter p (coll_insert id doc c) = filter p c.
Proof.
  intro H. induction c as [|[k d] c IH]; simpl.
  - now rewrite H.
  - destruct (String.ltb id k); simpl.
    + now rewrite H.
    + now rewrite IH.
Qed.

(** A new expense dated within the range enters the stream of the range
    query at one place, the other documents keeping their order. *)
Lemma where_date_between_insert (start_date end_date : datetime) (id : string)
  (e : expense_doc) (c : collection expense_doc) :
  date_between start_date end_date e = true ->
  exists l1 l2,
    where_date_between start_date end_date c = l1 ++ l2
    /\ where_date_between start_date end_date (coll_insert id e c)
       = l1 ++ (id, e) :: l2.
Proof.
  intro Hin. unfold where_date_between.
  destruct (filter_coll_insert_in
              (fun kd => date_between start_date end_date (snd kd)) id e c Hin)
    as [a [b [E1 E2]]].
  rewrite E1, E2.
  apply (sort_by_one_more _ date_leb (fun kd => exists d, e_date (snd kd) = Some d)).
  - intros x y [dx Hx] [dy Hy]. unfold date_leb. rewrite Hx, Hy.
    apply dt_leb_total.
  - intros x y z [dx Hx] [dy Hy] [dz Hz]. unfold date_leb.
    rewrite Hx, Hy, Hz. apply dt_leb_trans.
  - rewrite <- E2. apply Forall_forall. intros kd Hkd. apply filter_In in Hkd.
    destruct Hkd as [_ Hkd]. unfold date_between in Hkd.
    destruct (e_date (snd kd)) as [d|]; [eauto|discriminate].
Qed.

(** X13.  When add_expense answers 201, the summary of a month changes as
    follows.  Nothing changes if the date of the new expense is outside the
    month.  Otherwise the new expense enters the expenses the summary reads at
    one place, the others keeping their order: expense_count grows by one, and
    total_expenses, which was the rounded sum of the amounts read, is the
    rounded sum of the amounts read with the new amount at that place; when
    the new expense is read last, it is the sum before plus the new amount,
    rounded.  The sums are the sums the code computes, not those of exact
    arithmetic.  The budget figures stay as they were. *)
Theorem add_expense_enters_summary (w : world) (user_id month : string)
  (req req' : request) (db : database) (start_date end_date : datetime) :
  status (snd (add_expense w user_id req db)) = 201 ->
  get_month_range month = Return (Some (start_date, end_date)) ->
  let db' := fst (add_expense w user_id req db) in
  exists e before after,
    snd (add_expense w user_id req db)
    = mk_response 201 (PExpense "Expense added successfully" (generated_id w) e)
    /\ get_summary user_id month req' db
       = (db, mk_response 200 (PSummary before))
    /\ get_summary user_id month req' db'
       = (db', mk_response 200 (PSummary after))
    /\ s_total_budget after = s_total_budget before
    /\ s_budget_count after = s_budget_count before
    /\ (date_between start_date end_date e = false -> after = before)
    /\ (date_between start_date end_date e = true ->
        exists l1 l2,
          where_date_between start_date end_date (expenses (db user_id))
          = l1 ++ l2
          /\ where_date_between start_date end_date (expenses (db' user_id))
             = l1 ++ (generated_id w, e) :: l2
          /\ s_expense_count after = S (s_expense_count before)
          /\ s_total_expenses before
             = py_round2 (py_sum (expense_amounts (l1 ++ l2)))
          /\ s_total_expenses after
             = py_round2 (py_sum (expense_amounts
                                    (l1 ++ (generated_id w, e) :: l2)))
          /\ (l2 = [] ->
              s_total_expenses after
              = py_round2 (pf_add (py_sum (expense_amounts l1))
                                  (expense_amount e)))).
Proof.
  intros Hst Hr db'.
  destruct (add_expense_created w user_id req db Hst)
    as [fields [va [a [s [d [c [note [_ [_ [_ [_ [_ [_ [_ [_ [_ E]]]]]]]]]]]]]]]].
  set (e := mk_expense (Some a) (Some (py_strip c)) (Some d) (Some note)
                       (Some (now_first w)) (Some (now_second w))) in *.
  unfold db'. rewrite E. cbn [fst snd]. clear db'.
  rewrite db_set_same. cbn [expenses].
  set (es := expenses (db user_id)) in *.
  set (bs := budgets (db user_id)) in *.
  exists e.
  exists (summary_response month (where_date_between start_date end_date es)
                           (where_month month bs)).
  exists (summary_response month
            (where_date_between start_date end_date
               (coll_insert (generated_id w) e es))
            (where_month month bs)).
  split; [reflexivity|].
  split; [unfold get_summary; rewrite Hr; reflexivity|].
  split.
  { unfold get_summary. rewrite Hr. cbn [or_500 bind_check].
    rewrite db_set_same. reflexivity. }
  split; [reflexivity|]. split; [reflexivity|]. split.
  - intro Hout. unfold where_date_between.
    rewrite (filter_coll_insert_out
               (fun kd => date_between start_date end_date (snd kd))
               (generated_id w) e es Hout).
    reflexivity.
  - intro Hin.
    destruct (where_date_between_insert start_date end_date (generated_id w) e es Hin)
      as [l1 [l2 [E1 E2]]].
    exists l1, l2. split; [exact E1|]. split; [exact E2|].
    cbn [summary_response s_expense_count s_total_expenses summary_of
         total_expenses].
    rewrite E1, E2. split.
    { rewrite !length_app. simpl. lia. }
    split; [reflexivity|]. split; [reflexivity|].
    intro Hl. subst l2. unfold expense_amounts. rewrite map_app. simpl.
    fold (expense_amounts l1). rewrite py_sum_snoc. reflexivity.
Qed.

(** X14.  When set_budget answers 201, the summary of a month changes as
    follows.  Nothing changes if the new budget is of another month.
    Otherwise the new budget enters the budgets the summary reads at one
    place, the others keeping their order: budget_count grows by one, and
    total_budget, which was the rounded sum of the amounts read, is the
    rounded sum of the amounts read with the new amount at that place; when
    the new budget is read last, it is the sum before plus the new amount,
    rounded.  The sums are the sums the code computes, not those of exact
    arithmetic.  The expense figures stay as they were. *)
Theorem set_budget_enters_summary (w : world) (user_id month : string)
  (req req' : request) (db : database) (start_date end_date : datetime) :
  status (snd (set_budget w user_id req db)) = 201 ->
  get_month_range month = Return (Some (start_date, end_date)) ->
  let db' := fst (set_budget w user_id req db) in
  exists amount budget_month category doc before after,
    set_budget_validate "Failed to set budget" (json_body req)
    = inr (amount, budget_month, category)
    /\ doc = mk_budget (Some amount) (Some budget_month) (Some category)
                       (Some (now_first w)) (Some (now_second w))
    /\ get_summary user_id month req' db
       = (db, mk_response 200 (PSummary before))
    /\ get_summary user_id month req' db'
       = (db', mk_response 200 (PSummary after))
    /\ s_total_expenses after = s_total_expenses before
    /\ s_expense_count after = s_expense_count before
    /\ (budget_month <> month -> after = before)
    /\ (budget_month = month ->
        exists l1 l2,
          where_month month (budgets (db user_id)) = l1 ++ l2
          /\ where_month month (budgets (db' user_id))
             = l1 ++ (generated_id w, doc) :: l2
          /\ s_budget_count after = S (s_budget_count before)
          /\ s_total_budget before
             = py_round2 (py_sum (budget_amounts (l1 ++ l2)))
          /\ s_total_budget after
             = py_round2 (py_sum (budget_amounts
                                    (l1 ++ (generated_id w, doc) :: l2)))
          /\ (l2 = [] ->
              s_total_budget after
              = py_round2 (pf_add (py_sum (budget_amounts l1)) amount))).
Proof.
  intros Hst Hr db'.
  destruct (set_budget_effect w user_id req db)
    as [[amount [bm [category [V [_ E]]]]]|[_ [code [msg [Er [Hc|Hc]]]]]].
  2,3: rewrite Er in Hst; simpl in Hst; lia.
  unfold db'. rewrite E. clear db' E.
  set (doc := mk_budget (Some amount) (Some bm) (Some category)
                        (Some (now_first w)) (Some (now_second w))) in *.
  rewrite db_set_same. cbn [budgets].
  set (es := expenses (db user_id)) in *.
  set (bs := budgets (db user_id)) in *.
  exists amount, bm, category, doc.
  exists (summary_response month (where_date_between start_date end_date es)
                           (where_month month bs)).
  exists (summary_response month (where_date_between start_date end_date es)
            (where_month month (coll_insert (generated_id w) doc bs))).
  split; [exact V|]. split; [reflexivity|].
  split; [unfold get_summary; rewrite Hr; reflexivity|].
  split.
  { unfold get_summary. rewrite Hr. cbn [or_500 bind_check].
    rewrite db_set_same. reflexivity. }
  split; [reflexivity|]. split; [reflexivity|]. split.
  - intro Hne. unfold where_month.
    rewrite (filter_coll_insert_out
               (fun kd => opt_string_is (b_month (snd kd)) month)
               (generated_id w) doc bs); [reflexivity|].
    simpl. now apply String.eqb_neq.
  - intro He. subst bm. unfold where_month.
    destruct (filter_coll_insert_in
                (fun kd => opt_string_is (b_month (snd kd)) month)
                (generated_id w) doc bs) as [l1 [l2 [E1 E2]]].
    { simpl. apply String.eqb_refl. }
    exists l1, l2. split; [exact E1|]. split; [exact E2|].
    cbn [summary_response s_budget_count s_total_budget summary_of total_budget].
    unfold where_month. rewrite E1, E2. split.
    { rewrite !length_app. simpl. lia. }
    split; [reflexivity|]. split; [reflexivity|].
    intro Hl. subst l2. unfold budget_amounts. rewrite map_app. simpl.
    fold (budget_amounts l1). rewrite py_sum_snoc. reflexivity.
Qed.

Lemma add_expense_enters_summary_witness :
  exists before after,
    get_summary "alice" "2024-03" (body_request JNull) sample_db
    = (sample_db, mk_response 200 (PSummary before))
    /\ get_summary "alice" "2024-03" (body_request JNull)
         (fst (add_expense sample_world "alice"
                 (body_request blank_category_body) sample_db))
       = (fst (add_expense sample_world "alice"
                 (body_request blank_category_body) sample_db),
          mk_response 200 (PSummary after))
    /\ s_budget_count after = s_budget_count before.
Proof.
  destruct (add_expense_enters_summary sample_world "alice" "2024-03"
              (body_request blank_category_body) (body_request JNull) sample_db
              (month_start 2024 3) (month_end 2024 3))
    as [e [before [after [_ [Eb [Ea [_ [Hb _]]]]]]]].
  - reflexivity.
  - reflexivity.
  - exists before, after. split; [exact Eb|]. split; [exact Ea|exact Hb].
Defined.

Lemma set_budget_enters_summary_witness :
  exists before after,
    get_summary "alice" "2024-03" (body_request JNull) empty_database
    = (empty_database, mk_response 200 (PSummary before))
    /\ get_summary "alice" "2024-03" (body_request JNull)
         (fst (set_budget sample_world "alice"
                 (body_request sample_budget_body) empty_database))
       = (fst (set_budget sample_world "alice"
                 (body_request sample_budget_body) empty_database),
          mk_response 200 (PSummary after))
    /\ s_expense_count after = s_expense_count before.
Proof.
  destruct (set_budget_enters_summary sample_world "alice" "2024-03"
              (body_request sample_budget_body) (body_request JNull)
              empty_database (month_start 2024 3) (month_end 2024 3))
    as [a [bm [c [doc [before [after [_ [_ [Eb [Ea [_ [Hb _]]]]]]]]]]]].
  - reflexivity.
  - reflexivity.
  - exists before, after. split; [exact Eb|]. split; [exact Ea|exact Hb].
Defined.

(** ** The month test of the budget routes *)

Lemma length_split_chars (sep : ascii) (cs cur : list ascii) :
  List.length (split_chars sep cs cur) = S (count_occ ascii_dec cs sep).
Proof.
  revert cur. induction cs as [|c cs IH]; intro cur; simpl; [reflexivity|].
  destruct (Ascii.eqb_spec c sep) as [E|E]; destruct (ascii_dec c sep) as [D|D];
    try contradiction; simpl; now rewrite IH.
Qed.

(** X15.  The month test of set_budget and update_budget accepts a stripped
    month exactly when it holds one hyphen, whatever stands around it. *)
Theorem month_check_is_one_hyphen (month : string) :
  valid_month_format month = true <-> hyphens month = 1%nat.
Proof.
  unfold valid_month_format, py_split, hyphens.
  rewrite length_map, length_split_chars.
  destruct (String.eqb_spec month "") as [E|E]; simpl.
  - subst. simpl. split; discriminate.
  - rewrite Nat.eqb_eq. lia.
Qed.

(** X16.  A month for which get_month_range gives a range, that is, a month
    the expense listing, the summary and the report accept, passes the month
    test of the budget routes. *)
Theorem reportable_month_passes_budget_check (month : string)
  (range : datetime * datetime) :
  get_month_range month = Return (Some range) ->
  valid_month_format month = true.
Proof.
  intro H. unfold valid_month_format.
  destruct (String.eqb_spec month "") as [E|E]; [subst; discriminate|].
  simpl. unfold get_month_range, month_range_try, month_components in H.
  destruct (py_split "-" month) as [|a [|b [|c l]]]; try discriminate.
  reflexivity.
Qed.

Lemma reportable_month_passes_budget_check_witness :
  valid_month_format "2024-03" = true.
Proof.
  apply (reportable_month_passes_budget_check "2024-03"
           (month_start 2024 3, month_end 2024 3)).
  reflexivity.
Defined.

(** ** Listing budgets *)

Lemma string_leb_trans (a b c : string) :
  String.leb a b = true -> String.leb b c = true -> String.leb a c = true.
Proof.
  unfold String.leb. revert b c.
  induction a as [|x a IH]; intros [|y b] [|z c]; simpl; try congruence.
  unfold Ascii.compare.
  destruct (N.compare_spec (N_of_ascii x) (N_of_ascii y)) as [E1|L1|G1];
    destruct (N.compare_spec (N_of_ascii y) (N_of_ascii z)) as [E2|L2|G2];
    try congruence.
  - rewrite E1, E2, N.compare_refl. apply IH.
  - intros _ _. rewrite E1. apply N.compare_lt_iff in L2. now rewrite L2.
  - intros _ _. rewrite <- E2. apply N.compare_lt_iff in L1. now rewrite L1.
  - intros _ _. assert (L : (N_of_ascii x < N_of_ascii z)%N) by lia.
    apply N.compare_lt_iff in L. now rewrite L.
Qed.

Lemma fold_left_amounts (l : collection budget_doc) (acc : pyfloat) :
  fold_left (fun acc kd => pf_add acc (budget_amount_or_zero (snd kd))) l acc
  = fold_left pf_add (budget_amounts l) acc.
Proof.
  revert acc. induction l as [|kd l IH]; intro acc; simpl; [reflexivity|].
  apply IH.
Qed.

Lemma budgets_of_month_sorted (month : string) (c : collection budget_doc) :
  StronglySorted by_category (budgets_of_month month c).
Proof.
  unfold budgets_of_month.
  set (l := filter (fun kd => has_field (b_category (snd kd))) (where_month month c)).
  assert (Hd : Forall (fun kd => exists x, b_category (snd kd) = Some x) l).
  { apply Forall_forall. intros kd Hin. apply filter_In in Hin.
    destruct Hin as [_ Hin]. destruct (b_category (snd kd)); [eauto|discriminate]. }
  apply (StronglySorted_impl
           (fun a b => opt_string_leb (b_category (snd a)) (b_category (snd b)) = true)
           by_category (fun kd => exists x, b_category (snd kd) = Some x)).
  - intros a b [x Hx] [y Hy] H. rewrite Hx, Hy in H. exists x, y. auto.
  - apply sort_by_Forall. exact Hd.
  - apply (sort_by_sorted _ _ (fun kd => exists x, b_category (snd kd) = Some x)).
    + intros a b [x Hx] [y Hy]. rewrite Hx, Hy. simpl. intro H.
      destruct (String.leb_total x y); congruence.
    + intros a b c' [x Hx] [y Hy] [z Hz]. rewrite Hx, Hy, Hz. simpl.
      apply string_leb_trans.
    + exact Hd.
Qed.

Lemma budgets_by_month_desc_sorted (c : collection budget_doc) :
  StronglySorted by_month_desc (budgets_by_month_desc c).
Proof.
  unfold budgets_by_month_desc.
  set (l := filter (fun kd => has_field (b_month (snd kd))) c).
  assert (Hd : Forall (fun kd => exists x, b_month (snd kd) = Some x) l).
  { apply Forall_forall. intros kd Hin. apply filter_In in Hin.
    destruct Hin as [_ Hin]. destruct (b_month (snd kd)); [eauto|discriminate]. }
  apply (StronglySorted_rev (fun a b => by_month_desc b a)).
  apply (StronglySorted_impl
           (fun a b => opt_string_leb (b_month (snd a)) (b_month (snd b)) = true)
           (fun a b => by_month_desc b a)
           (fun kd => exists x, b_month (snd kd) = Some x)).
  - intros a b [x Hx] [y Hy] H. rewrite Hx, Hy in H. exists y, x. auto.
  - apply sort_by_Forall. exact Hd.
  - apply (sort_by_sorted _ _ (fun kd => exists x, b_month (snd kd) = Some x)).
    + intros a b [x Hx] [y Hy]. rewrite Hx, Hy. simpl. intro H.
      destruct (String.leb_total x y); congruence.
    + intros a b c' [x Hx] [y Hy] [z Hz]. rewrite Hx, Hy, Hz. simpl.
      apply string_leb_trans.
    + exact Hd.
Qed.

(** X17.  The store answering its queries, get_budgets answers 200 and
    leaves the store as it is.  With a month that is not empty it lists the
    budgets of that month that have a category, each once, by category;
    without one it lists the budgets that have a month, each once, from the
    latest month down, under the label all.  count is the length of the list
    and total_budget the sum of the listed amounts, rounded. *)
Theorem get_budgets_listing (user_id : string) (req : request) (db : database) :
  exists l label,
    get_budgets user_id req db
    = (db, mk_response 200
             (PBudgets l label (py_round2 (py_sum (budget_amounts l)))
                       (List.length l)))
    /\ match args_month req with
       | Some month =>
           if String.eqb month "" then
             label = "all"
             /\ Permutation l (filter (fun kd => has_field (b_month (snd kd)))
                                      (budgets (db user_id)))
             /\ StronglySorted by_month_desc l
           else
             label = month
             /\ Permutation l
                  (filter (fun kd => has_field (b_category (snd kd)))
                          (where_month month (budgets (db user_id))))
             /\ StronglySorted by_category l
       | None =>
           label = "all"
           /\ Permutation l (filter (fun kd => has_field (b_month (snd kd)))
                                    (budgets (db user_id)))
           /\ StronglySorted by_month_desc l
       end.
Proof.
  unfold get_budgets.
  assert (A : forall c, Permutation (budgets_by_month_desc c)
                          (filter (fun kd => has_field (b_month (snd kd))) c)).
  { intro c. unfold budgets_by_month_desc. rewrite <- Permutation_rev.
    apply sort_by_Permutation. }
  destruct (args_month req) as [month|].
  - destruct (String.eqb month "").
    + eexists. eexists. split.
      * rewrite fold_left_amounts. reflexivity.
      * split; [reflexivity|]. split; [apply A|apply budgets_by_month_desc_sorted].
    + eexists. eexists. split.
      * rewrite fold_left_amounts. reflexivity.
      * split; [reflexivity|]. split.
        -- unfold budgets_of_month. apply sort_by_Permutation.
        -- apply budgets_of_month_sorted.
  - eexists. eexists. split.
    + rewrite fold_left_amounts. reflexivity.
    + split; [reflexivity|]. split; [apply A|apply budgets_by_month_desc_sorted].
Qed.

(** ** Values of the wrong type in an expense *)

(** X18.  A body whose amount is valid and whose date is not a string, or
    whose date is read and whose category or note is not a string, is
    answered 500 by add_expense, not 400, and nothing is stored: parse_date
    catches ValueError only, and strip is called on the value as it comes. *)
Theorem add_expense_wrong_types_are_500 (w : world) (user_id : string)
  (req : request) (db : database) (fields : list (string * json))
  (va : json) (a : pyfloat) :
  json_body req = JObj fields ->
  assoc_get "amount" fields = Some va ->
  py_float va = Return a -> pf_le a pf_zero = false ->
  wrong_type_after_amount fields ->
  add_expense w user_id req db
  = (db, error_response 500 "Failed to add expense").
Proof.
  intros Hb Ha Hf Hp [vd [vc [Hd [Hc Hw]]]].
  unfold add_expense. rewrite Hb.
  unfold require_fields, validate_amount, py_contains, py_getitem, py_get.
  rewrite Ha, Hd, Hc. cbn [or_500 bind_check guard bind_outcome].
  rewrite Hf, Hp. cbn [or_500 bind_check guard bind_outcome].
  destruct Hw as [Hw|[s [d [-> [Hs Hw]]]]].
  - destruct vd; try discriminate; reflexivity.
  - cbn [parse_date or_500 bind_check]. rewrite Hs.
    destruct Hw as [Hw|[vn [Hn Hw]]].
    + destruct vc; try discriminate; reflexivity.
    + rewrite Hn. destruct vc; try reflexivity.
      cbn [json_strip bind_outcome or_500 bind_check].
      destruct vn; try discriminate; reflexivity.
Qed.

Lemma add_expense_wrong_types_are_500_witness :
  add_expense sample_world "alice"
    (body_request (JObj [("amount", JInt 10); ("category", JStr "Food");
                         ("date", JInt 20240315)]))
    sample_db
  = (sample_db, error_response 500 "Failed to add expense").
Proof.
  apply (add_expense_wrong_types_are_500 sample_world "alice" _ sample_db
           [("amount", JInt 10); ("category", JStr "Food");
            ("date", JInt 20240315)] (JInt 10) 10%float).
  - reflexivity.
  - reflexivity.
  - reflexivity.
  - reflexivity.
  - exists (JInt 20240315), (JStr "Food").
    split; [reflexivity|]. split; [reflexivity|]. left. reflexivity.
Defined.
